(** * TGAuth: single-use artifacts, 2FA challenges, sessions and widget
      signatures

    A shallow embedding of the authentication core of the TGAuth
    library (TypeScript) and the properties its specification states
    about it.

    Sources embedded here, by class:
    - [DeeplinkAuth]        ([Src/Auth/DeeplinkAuth]);
    - [CodeAuth]            ([Src/Auth/CodeAuth]);
    - [TwoFAAuth]           ([Src/Auth/TwoFAAuth]);
    - [WidgetAuth]          ([Src/Auth/WidgetAuth]);
    - [SessionManager]      ([Src/Auth/SessionManager]);
    - [TelegramBotSettings] ([Src/core/TelegramBotSettings]);
    - [Logger], [MemoryTransport] ([Src/core/Logger]);
    - [WebhookIntegration]  ([Src/Auth/WebhookIntegration]): the
      handlers of the bot and the routes;
    - [createTelegramAuth], the factory of the library.

    Conventions of the embedding:
    - a class instance is a record of its fields; a method is a function
      from the instance (and the values the engine hands to the call:
      the clock, the random source) to the method's result, the new
      instance and the list of effects the call performed, in order;
    - a [Map<string, T>] is a [gmap string T];
    - what a method hands to the outside (handlers of the options, the
      logger, the persistence adapter, [fetch]) is recorded as an
      [Effect], with the [try] around the call when the source has one;
      the handlers themselves are the caller's code: whether a call of
      them returns or throws is a parameter ([Handlers]), and
      [performed] tells what a method does with them;
    - what happens to an instance without a call of the client (the
      load a constructor started settles, a timer fires, the caller
      writes to an array it shares with the instance) is an event next
      to the calls;
    - a [throw] is the [Throw] case of [outcome]. *)

From stdpp Require Import gmap strings list fin_maps pretty sorting.
From Stdlib Require Import ZArith Lia Ascii.

Local Open Scope Z_scope.

(* ===================================================================== *)
(** ** Numbers: binary64 on the grid of 2^-1074 *)
(* ===================================================================== *)

(** Every finite non-negative binary64 value is an integer multiple of
    2^-1074.  A value is represented by that integer (its numerator over
    [scale]); an arithmetic operation computes the exact result on the
    grid and rounds it to 53 significant bits, to nearest, ties to even.
    The rounding does not depend on the unit: [round53] also rounds an
    integer to the nearest integer that is a binary64 value.  A result
    of 2^1024 or more, for an integer, stands for an overflow; the
    arithmetic on the grid does not reach one (its values stay under
    10^9). *)
Module F64.

Definition scale : Z := 2 ^ 1074.

(** The multiple of [2^s] nearest to [v], ties to the even multiple. *)
Definition rne (s v : Z) : Z :=
  let q := v / 2 ^ s in
  let r := v mod 2 ^ s in
  let h := 2 ^ (s - 1) in
  if r <? h then q * 2 ^ s
  else if h <? r then (q + 1) * 2 ^ s
  else if Z.even q then q * 2 ^ s else (q + 1) * 2 ^ s.

(** Rounding of a non-negative grid value to a binary64 value. *)
Definition round53 (v : Z) : Z :=
  if v <? 2 ^ 53 then v else rne (Z.log2 v - 52) v.

(** [v] is (the numerator of) a binary64 value. *)
Definition representable (v : Z) : Prop := round53 v = v.

(** An integer below 2^53 as a binary64 value. *)
Definition of_int (n : Z) : Z := round53 (n * scale).

(** [x * k] for a binary64 [x] and an integer-valued [k]. *)
Definition mul_int (x k : Z) : Z := round53 (x * k).

(** [x + y]. *)
Definition add (x y : Z) : Z := round53 (x + y).

(** [Math.floor]. *)
Definition floor (x : Z) : Z := x / scale.

(** What [Math.random()] may return: a binary64 value in [0, 1). *)
Definition unit_interval (m : Z) : Prop :=
  0 <= m < scale /\ representable m.

(** The largest binary64 value below 1, that is 1 - 2^-53. *)
Definition below_one : Z := scale - 2 ^ 1021.

End F64.

Arguments F64.scale : simpl never.
Arguments F64.round53 : simpl never.
Arguments F64.of_int : simpl never.
Arguments F64.mul_int : simpl never.
Arguments F64.add : simpl never.
Arguments F64.floor : simpl never.

(* ===================================================================== *)
(** ** JavaScript values *)
(* ===================================================================== *)

(** The values that reach the library through [any]-typed positions
    (widget payload fields, user ids): [undefined], [null], booleans,
    strings and numbers.  A number is an integer-valued one ([JNum]), an
    infinity ([JInf], negative or not) or [NaN]; [JNum n] is a number
    when [n] is a binary64 value, which every integer up to 2^53 in
    absolute value is ([-0] and [0] are both [JNum 0]; no operation
    below tells them apart).  Fractions, objects, arrays, functions,
    symbols and big integers are not represented.  A string is the
    sequence of the bytes of its UTF-8 form, for a well-formed string.
    The numbers that configure the library (lifetimes, lengths, attempt
    limits) and the clock are integers as well. *)
Inductive JsValue : Type :=
  | JUndefined
  | JNull
  | JBool (b : bool)
  | JNum (n : Z)
  | JInf (negative : bool)
  | JNaN
  | JStr (s : string).

#[global] Instance JsValue_eq_dec : EqDecision JsValue.
Proof. solve_decision. Defined.

#[global] Instance JsValue_inhabited : Inhabited JsValue := populate JUndefined.

(** [ToBoolean]: what [if (v)] and [!v] test. *)
Definition truthy (v : JsValue) : bool :=
  match v with
  | JUndefined | JNull | JNaN => false
  | JBool b => b
  | JNum n => negb (n =? 0)
  | JInf _ => true
  | JStr s => negb (String.eqb s EmptyString)
  end.

(** *** [Number::toString] *)

(** The number of decimal digits of a positive integer. *)
Definition decimal_length (v : Z) : Z := Z.of_nat (String.length (pretty v)).

(** The decimal with the fewest significant digits that reads back as
    the binary64 integer [x]: for [k] = 1, 2, ... significant digits,
    the two multiples of [10 ^ (digits - k)] around [x] are tried; of
    two that read back as [x] the nearer is taken, the one with the
    even last digit when they are as near.  Seventeen digits always
    suffice. *)
Fixpoint shortest_from (fuel : nat) (k digits x : Z) : Z :=
  match fuel with
  | O => x
  | S fuel' =>
      let p := 10 ^ (digits - k) in
      let lo := x / p * p in
      let hi := lo + p in
      let okLo := F64.round53 lo =? x in
      let okHi := F64.round53 hi =? x in
      if okLo && okHi then
        if x - lo <? hi - x then lo
        else if hi - x <? x - lo then hi
        else if Z.even (x / p) then lo else hi
      else if okLo then lo
      else if okHi then hi
      else shortest_from fuel' (k + 1) digits x
  end.

Definition shortest (x : Z) : Z := shortest_from 17 1 (decimal_length x) x.

Fixpoint strip_zeros (fuel : nat) (v : Z) : Z :=
  match fuel with
  | O => v
  | S fuel' =>
      if (0 <? v) && (v mod 10 =? 0) then strip_zeros fuel' (v / 10) else v
  end.

(** [d.ddde+N], for a positive integer of more than 21 digits. *)
Definition exponent_form (v : Z) : string :=
  let e := "e+" +:+ pretty (decimal_length v - 1) in
  match pretty (strip_zeros 400 v) with
  | String d EmptyString => String d e
  | String d r => String d ("." +:+ r +:+ e)
  | EmptyString => EmptyString
  end.

(** The string of an integer-valued number.  Up to 2^53 every integer
    is a binary64 value and prints as it is.  Above, the digits are
    those of [shortest], followed by zeros up to 21 digits in all
    (2^64 prints as 18446744073709552000) and in exponent form beyond
    (10^21 prints as 1e+21).  An integer that is not a binary64 value
    is read as the binary64 value nearest to it, as a literal is. *)
Definition number_to_string (n : Z) : string :=
  if Z.abs n <? 2 ^ 53 then pretty n
  else
    let x := F64.round53 (Z.abs n) in
    (if n <? 0 then "-" else EmptyString)
    +:+ (if 2 ^ 1024 <=? x then "Infinity"
         else let v := shortest x in
              if decimal_length v <=? 21 then pretty v else exponent_form v).
Arguments number_to_string : simpl never.

(** [ToString], as used by template literals and by [parseInt]. *)
Definition toString (v : JsValue) : string :=
  match v with
  | JUndefined => "undefined"
  | JNull => "null"
  | JBool true => "true"
  | JBool false => "false"
  | JNum n => number_to_string n
  | JInf false => "Infinity"
  | JInf true => "-Infinity"
  | JNaN => "NaN"
  | JStr s => s
  end.

(** Property read [o[k]] on a plain object: a missing key reads as
    [undefined]. *)
Definition getField (o : gmap string JsValue) (k : string) : JsValue :=
  default JUndefined (o !! k).

(** *** White space *)

(** The white space and line terminators of the language, which
    [parseInt] skips and [trim] strips, by the bytes of their UTF-8
    form.  One byte: U+0009 to U+000D and U+0020. *)
Definition is_space (a : Ascii.ascii) : bool :=
  let n := Ascii.N_of_ascii a in
  ((n =? 32) || (n =? 9) || (n =? 10) || (n =? 11) || (n =? 12) || (n =? 13))%N.

(** Two bytes: U+00A0. *)
Definition is_space2 (a b : Ascii.ascii) : bool :=
  ((Ascii.N_of_ascii a =? 194) && (Ascii.N_of_ascii b =? 160))%N.

(** Three bytes: U+1680, U+2000 to U+200A, U+2028, U+2029, U+202F,
    U+205F, U+3000 and U+FEFF. *)
Definition is_space3 (a b c : Ascii.ascii) : bool :=
  let x := Ascii.N_of_ascii a in
  let y := Ascii.N_of_ascii b in
  let z := Ascii.N_of_ascii c in
  ((x =? 225) && (y =? 154) && (z =? 128)
   || (x =? 226) && (y =? 128)
      && ((128 <=? z) && (z <=? 138) || (z =? 168) || (z =? 169) || (z =? 175))
   || (x =? 226) && (y =? 129) && (z =? 159)
   || (x =? 227) && (y =? 128) && (z =? 128)
   || (x =? 239) && (y =? 187) && (z =? 191))%N.

(** The string past its leading white space. *)
Fixpoint skip_space (s : string) : string :=
  match s with
  | EmptyString => s
  | String a r =>
      if is_space a then skip_space r
      else
        match r with
        | EmptyString => s
        | String b r2 =>
            if is_space2 a b then skip_space r2
            else
              match r2 with
              | EmptyString => s
              | String c r3 => if is_space3 a b c then skip_space r3 else s
              end
        end
  end.

(** *** [parseInt] *)

Definition digit_value (radix : Z) (a : Ascii.ascii) : option Z :=
  let n := Z.of_N (Ascii.N_of_ascii a) in
  let d :=
    if (48 <=? n) && (n <=? 57) then Some (n - 48)
    else if (97 <=? n) && (n <=? 122) then Some (n - 87)
    else if (65 <=? n) && (n <=? 90) then Some (n - 55)
    else None in
  match d with
  | Some v => if v <? radix then Some v else None
  | None => None
  end.

(** The value of the longest prefix of digits; [acc] is [None] until a
    digit has been read. *)
Fixpoint parse_digits (radix : Z) (s : string) (acc : option Z) : option Z :=
  match s with
  | String a r =>
      match digit_value radix a with
      | Some d => parse_digits radix r (Some (default 0 acc * radix + d))
      | None => acc
      end
  | EmptyString => acc
  end.

(** [parseInt(v)] with no radix argument: the argument is converted to a
    string, leading white space is skipped, a sign and a [0x] prefix are
    honoured, and the longest prefix of digits is read; no digit at all
    gives [NaN].  The integer read becomes a number: the binary64 value
    nearest to it (the engine of Node rounds so, to even on a tie), an
    infinity from 2^1024 on.  So [parseInt] of the number 10^21, whose
    string is 1e+21, is 1. *)
Definition parseInt (v : JsValue) : JsValue :=
  let s := skip_space (toString v) in
  let '(neg, s1) :=
    match s with
    | String "-"%char r => (true, r)
    | String "+"%char r => (false, r)
    | _ => (false, s)
    end in
  let '(radix, s2) :=
    match s1 with
    | String "0"%char (String "x"%char r) => (16, r)
    | String "0"%char (String "X"%char r) => (16, r)
    | _ => (10, s1)
    end in
  match parse_digits radix s2 None with
  | Some n =>
      let x := F64.round53 n in
      if 2 ^ 1024 <=? x then JInf neg else JNum (if neg then - x else x)
  | None => JNaN
  end.

(** The test [a - b > c] on two numbers and an integer [c]: a [NaN]
    operand makes it false, and so does a difference that is [NaN]
    (of two infinities of the same sign) or the negative infinity. *)
Definition sub_gt (a b : JsValue) (c : Z) : bool :=
  match a, b with
  | JNum x, JNum y => c <? x - y
  | JNum _, JInf negative => negative
  | JInf negative, JNum _ => negb negative
  | JInf n1, JInf n2 => negb n1 && n2
  | _, _ => false
  end.

(** Strict equality [a === b]: [NaN] is equal to nothing, itself
    included; any other value is equal to itself only. *)
Definition strict_eq (a b : JsValue) : bool :=
  match a, b with
  | JNaN, _ | _, JNaN => false
  | _, _ => bool_decide (a = b)
  end.

(** *** Exceptions *)

Inductive JsError : Type :=
  | Error (message : string)
  | TypeError (message : string).

Inductive outcome (A : Type) : Type :=
  | Ret (a : A)
  | Throw (e : JsError).
Arguments Ret {A} a.
Arguments Throw {A} e.

Definition throws {A} (o : outcome A) : bool :=
  match o with Throw _ => true | Ret _ => false end.


(** What the engine supplies to a call besides the clock:
    [Math.random()] (as a grid numerator, see [F64]) and the bytes of
    [crypto.randomBytes]. *)
Record Entropy : Type := {
  math_random : Z;
  random_bytes : nat -> Byte.byte;
}.

Definition hex_digit (n : N) : Ascii.ascii :=
  Ascii.ascii_of_N (if (n <? 10)%N then 48 + n else 87 + n)%N.

(** [Buffer.toString('hex')]. *)
Fixpoint hex (bs : list Byte.byte) : string :=
  match bs with
  | [] => EmptyString
  | b :: r =>
      let n := Byte.to_N b in
      String (hex_digit (n / 16)%N) (String (hex_digit (n mod 16)%N) (hex r))
  end.

(** [crypto.randomBytes(n)]. *)
Definition randomBytes (e : Entropy) (n : nat) : list Byte.byte :=
  map (random_bytes e) (seq 0 n).

(** [s.slice(0, n)] for [0 <= n]. *)
Fixpoint slice0 (n : nat) (s : string) : string :=
  match n, s with
  | S n', String a r => String a (slice0 n' r)
  | _, _ => EmptyString
  end.

(* ===================================================================== *)
(** ** Shared records: identity, bot settings, transport options *)
(* ===================================================================== *)

(** Modelled from the spec: [Src/types.ts], which declares [AuthResult],
    is not among the sources.  The spec calls it Identity, an "opaque
    externally supplied record { id, displayName fields..., extension
    fields }" that is "passed through unmodified".  The fields below are
    the ones the sources read or write; an absent optional field is
    [JUndefined]. *)
Module AuthResult.
Record t : Type := mk {
  id : JsValue;
  is_bot : bool;
  first_name : JsValue;
  last_name : JsValue;
  username : JsValue;
  language_code : JsValue;
  photo_url : JsValue;
  twofa_verified : JsValue;
}.
End AuthResult.

#[global] Instance AuthResult_eq_dec : EqDecision AuthResult.t.
Proof. solve_decision. Defined.

(** [TelegramBotSettings].  The custom [messages] only feed
    [getMessage], whose result no method of the core uses. *)
Module TelegramBotSettings.
Record t : Type := mk {
  botToken : string;
  botUsername : option string;
}.

(** [this.botUsername || 'YOUR_BOT_USERNAME'] *)
Definition getBotUsername (b : t) : string :=
  match botUsername b with
  | Some u => if String.eqb u EmptyString then "YOUR_BOT_USERNAME" else u
  | None => "YOUR_BOT_USERNAME"
  end.
End TelegramBotSettings.

Inductive Transport : Type := websocket | rest | callback.

#[global] Instance Transport_eq_dec : EqDecision Transport.
Proof. solve_decision. Defined.

(** The [wsServer] option, typed [any]: an object whose [emit] is a
    truthy value or not, and is a function or not (a function is
    truthy). *)
Record WsServer : Type := { emit : bool; emitIsFunction : bool }.

(** [AuthTransportOptions].  A handler option ([onAuth], [saveHandler])
    is [true] when a function is supplied. *)
Module AuthTransportOptions.
Record t : Type := mk {
  transport : option (list Transport);
  restEndpoint : option string;
  wsServer : option WsServer;
  onAuth : bool;
  saveHandler : bool;
  botSettings : option TelegramBotSettings.t;
  botToken : option string;
  botUsername : option string;
}.

(** [options.transport?.includes(t)] *)
Definition includes (o : t) (tr : Transport) : bool :=
  match transport o with
  | Some ts => bool_decide (tr ∈ ts)
  | None => false
  end.

(** [options.wsServer?.emit], as tested by [if]. *)
Definition canEmit (o : t) : bool :=
  match wsServer o with
  | Some w => emit w
  | None => false
  end.

(** [options.wsServer && typeof options.wsServer.emit === 'function'] *)
Definition hasEmit (o : t) : bool :=
  match wsServer o with
  | Some w => emit w && emitIsFunction w
  | None => false
  end.
End AuthTransportOptions.

(** A string option tested by [if (s)]: present and not empty. *)
Definition truthy_string (s : option string) : option string :=
  match s with
  | Some v => if String.eqb v EmptyString then None else Some v
  | None => None
  end.

Inductive LogLevel : Type := INFO | WARN | ERROR.

(** What a method does to the outside, in the order it does it: the
    calls of [options.saveHandler], of [options.onAuth], of
    [options.wsServer.emit], of [fetch] (a POST of the user data) and
    of [logger.log].  [Try call level message] is a call the source
    makes inside a [try] whose [catch] logs [message] at [level]; a
    call listed bare is made with no [try] around it.  The promise of
    a [fetch] gets a rejection handler, which logs 'Error sending REST
    request' at [ERROR] if it runs, after the method has returned. *)
Inductive Effect : Type :=
  | CallSaveHandler (u : AuthResult.t)
  | CallOnAuth (u : AuthResult.t)
  | WsEmit (event : string) (u : AuthResult.t)
  | FetchPost (endpoint : string) (u : AuthResult.t)
  | Log (level : LogLevel) (message : string)
  | Try (call : Effect) (level : LogLevel) (message : string).

(** What the functions of the caller do when a method calls them:
    [None] for a call that returns, [Some e] for one that throws [e].
    (An [emit] that is truthy without being a function throws a
    [TypeError] when it is called.) *)
Definition Handlers : Type := Effect -> option JsError.

Definition thrownBy (h : Handlers) (call : Effect) : option JsError :=
  match call with
  | CallSaveHandler _ | CallOnAuth _ | WsEmit _ _ => h call
  | FetchPost _ _ | Log _ _ | Try _ _ _ => None
  end.

(** The handlers as the calls of an instance with the options [o]
    meet them: when [wsServer.emit] is not a function, the call of it
    throws a [TypeError] whatever [h] says. *)
Definition handlersOf (o : AuthTransportOptions.t) (h : Handlers) : Handlers :=
  fun call =>
    match call with
    | WsEmit _ _ =>
        if AuthTransportOptions.hasEmit o then h call
        else Some (TypeError "this.options.wsServer.emit is not a function")
    | _ => h call
    end.

(** What a method whose effects are listed as [es] does with the
    handlers [h]: the calls it makes, and the exception that ends it
    when one escapes.  An exception inside a [Try] is logged and the
    method goes on; an exception of a bare call ends the method
    there. *)
Fixpoint performed (h : Handlers) (es : list Effect)
  : list Effect * option JsError :=
  match es with
  | [] => ([], None)
  | Try call level message :: es' =>
      let r := performed h es' in
      (call :: match thrownBy h call with
               | Some _ => Log level message :: r.1
               | None => r.1
               end,
       r.2)
  | call :: es' =>
      match thrownBy h call with
      | Some e => ([call], Some e)
      | None => let r := performed h es' in (call :: r.1, r.2)
      end
  end.

(** A call that cannot end the method that makes it: one inside a
    [try], a [fetch], a call of the logger. *)
Definition contained (e : Effect) : bool :=
  match e with
  | Try _ _ _ | FetchPost _ _ | Log _ _ => true
  | CallSaveHandler _ | CallOnAuth _ | WsEmit _ _ => false
  end.

(* ===================================================================== *)
(** ** DeeplinkAuth *)
(* ===================================================================== *)

Module DeeplinkAuth.

Record DeeplinkSession : Type := {
  token : string;
  createdAt : Z;
  used : bool;
  userData : option AuthResult.t;
}.

Record t : Type := {
  sessions : gmap string DeeplinkSession;
  botSettings : TelegramBotSettings.t;
  options : AuthTransportOptions.t;
}.

(** [constructor(options)] *)
Definition new (options : AuthTransportOptions.t) : outcome t :=
  match AuthTransportOptions.botSettings options with
  | Some b => Ret {| sessions := ∅; botSettings := b; options := options |}
  | None =>
      match truthy_string (AuthTransportOptions.botToken options) with
      | Some tok =>
          Ret {| sessions := ∅;
                 botSettings :=
                   TelegramBotSettings.mk tok
                     (AuthTransportOptions.botUsername options);
                 options := options |}
      | None => Throw (Error "Необходимо указать botSettings или botToken")
      end
  end.

(** [generateDeeplink()]: [now] is [Date.now()], the token is the hex
    form of 16 random bytes. *)
Definition generateDeeplink (now : Z) (e : Entropy) (d : t) : string * t :=
  let token := hex (randomBytes e 16) in
  let d' := {| sessions :=
                 <[token := {| token := token; createdAt := now;
                               used := false; userData := None |}]> (sessions d);
               botSettings := botSettings d;
               options := options d |} in
  ("https://t.me/" +:+ TelegramBotSettings.getBotUsername (botSettings d)
     +:+ "?start=" +:+ token, d').

(** [sendResult(userData)]: the calls are made with no [try] around
    them; the [rest] branch of the source holds only a comment. *)
Definition sendResult (d : t) (u : AuthResult.t) : list Effect :=
  let o := options d in
  (if AuthTransportOptions.saveHandler o then [CallSaveHandler u] else [])
  ++ (if AuthTransportOptions.includes o callback && AuthTransportOptions.onAuth o
      then [CallOnAuth u] else [])
  ++ (if AuthTransportOptions.includes o websocket && AuthTransportOptions.canEmit o
      then [WsEmit "tg-auth" u] else []).

(** [handleAuth(token, userData)]: the value it returns when the
    handlers it calls return, the instance it leaves and the calls of
    [sendResult].  The token is marked used before [sendResult] runs. *)
Definition handleAuth (token : string) (u : AuthResult.t) (d : t)
  : bool * t * list Effect :=
  match sessions d !! token with
  | None => (false, d, [])
  | Some session =>
      if used session then (false, d, [])
      else
        let session' := {| token := DeeplinkAuth.token session;
                           createdAt := createdAt session;
                           used := true;
                           userData := Some u |} in
        let d' := {| sessions := <[token := session']> (sessions d);
                     botSettings := botSettings d;
                     options := options d |} in
        (true, d', sendResult d u)
  end.

(** [handleAuth(token, userData)] with the handlers [h]: a handler
    that throws ends the call with its exception, after the token has
    been marked used. *)
Definition handleAuthWith (h : Handlers) (token : string) (u : AuthResult.t)
    (d : t) : outcome bool * t * list Effect :=
  let r := handleAuth token u d in
  let p := performed (handlersOf (options d) h) r.2 in
  (match p.2 with
   | Some e => Throw e
   | None => Ret r.1.1
   end, r.1.2, p.1).

(** [invalidateDeeplink(token)] *)
Definition invalidateDeeplink (token : string) (d : t) : t :=
  match sessions d !! token with
  | Some session =>
      {| sessions := <[token := {| token := DeeplinkAuth.token session;
                                   createdAt := createdAt session;
                                   used := true;
                                   userData := userData session |}]> (sessions d);
         botSettings := botSettings d;
         options := options d |}
  | None => d
  end.

(** The calls a client can make on an instance. *)
Inductive Call : Type :=
  | GenerateDeeplink (now : Z) (e : Entropy)
  | HandleAuth (token : string) (u : AuthResult.t)
  | InvalidateDeeplink (token : string).

Definition step (c : Call) (d : t) : t :=
  match c with
  | GenerateDeeplink now e => snd (generateDeeplink now e d)
  | HandleAuth token u => snd (fst (handleAuth token u d))
  | InvalidateDeeplink token => invalidateDeeplink token d
  end.

Definition run (cs : list Call) (d : t) : t := foldl (fun d c => step c d) d cs.

(** The token a call registers, if it is a generation. *)
Definition generates (c : Call) : option string :=
  match c with
  | GenerateDeeplink _ e => Some (hex (randomBytes e 16))
  | _ => None
  end.

End DeeplinkAuth.

(* ===================================================================== *)
(** ** CodeAuth *)
(* ===================================================================== *)

Module CodeAuth.

Record CodeSession : Type := {
  code : string;
  createdAt : Z;
  used : bool;
  userData : option AuthResult.t;
}.

Record t : Type := {
  sessions : gmap string CodeSession;
  botSettings : TelegramBotSettings.t;
  options : AuthTransportOptions.t;
}.

(** [constructor(options)] *)
Definition new (options : AuthTransportOptions.t) : outcome t :=
  match AuthTransportOptions.botSettings options with
  | Some b => Ret {| sessions := ∅; botSettings := b; options := options |}
  | None =>
      match truthy_string (AuthTransportOptions.botToken options) with
      | Some tok =>
          Ret {| sessions := ∅;
                 botSettings :=
                   TelegramBotSettings.mk tok
                     (AuthTransportOptions.botUsername options);
                 options := options |}
      | None => Throw (Error "Необходимо указать botSettings или botToken")
      end
  end.

(** [Math.floor(100000 + Math.random() * 900000).toString()] *)
Definition freshCode (e : Entropy) : string :=
  pretty (F64.floor (F64.add (F64.of_int 100000)
                             (F64.mul_int (math_random e) 900000))).
Arguments freshCode : simpl never.

(** [generateCode()] *)
Definition generateCode (now : Z) (e : Entropy) (c : t) : string * t :=
  let code := freshCode e in
  (code,
   {| sessions := <[code := {| code := code; createdAt := now;
                               used := false; userData := None |}]> (sessions c);
      botSettings := botSettings c;
      options := options c |}).

(** [sendResult(userData)]: the calls are made with no [try] around
    them. *)
Definition sendResult (c : t) (u : AuthResult.t) : list Effect :=
  let o := options c in
  (if AuthTransportOptions.saveHandler o then [CallSaveHandler u] else [])
  ++ (if AuthTransportOptions.includes o callback && AuthTransportOptions.onAuth o
      then [CallOnAuth u] else [])
  ++ (if AuthTransportOptions.includes o websocket && AuthTransportOptions.canEmit o
      then [WsEmit "tg-auth" u] else []).

(** [handleAuth(code, userData)]: the value it returns when the
    handlers it calls return, the instance it leaves and the calls of
    [sendResult].  The code is marked used before [sendResult] runs. *)
Definition handleAuth (code : string) (u : AuthResult.t) (c : t)
  : bool * t * list Effect :=
  match sessions c !! code with
  | None => (false, c, [])
  | Some session =>
      if used session then (false, c, [])
      else
        let session' := {| code := CodeAuth.code session;
                           createdAt := createdAt session;
                           used := true;
                           userData := Some u |} in
        (true,
         {| sessions := <[code := session']> (sessions c);
            botSettings := botSettings c;
            options := options c |},
         sendResult c u)
  end.

(** [handleAuth(code, userData)] with the handlers [h]: a handler that
    throws ends the call with its exception, after the code has been
    marked used. *)
Definition handleAuthWith (h : Handlers) (code : string) (u : AuthResult.t)
    (c : t) : outcome bool * t * list Effect :=
  let r := handleAuth code u c in
  let p := performed (handlersOf (options c) h) r.2 in
  (match p.2 with
   | Some e => Throw e
   | None => Ret r.1.1
   end, r.1.2, p.1).

(** [invalidateCode(code)] *)
Definition invalidateCode (code : string) (c : t) : t :=
  match sessions c !! code with
  | Some session =>
      {| sessions := <[code := {| code := CodeAuth.code session;
                                  createdAt := createdAt session;
                                  used := true;
                                  userData := userData session |}]> (sessions c);
         botSettings := botSettings c;
         options := options c |}
  | None => c
  end.

Inductive Call : Type :=
  | GenerateCode (now : Z) (e : Entropy)
  | HandleAuth (code : string) (u : AuthResult.t)
  | InvalidateCode (code : string).

Definition step (k : Call) (c : t) : t :=
  match k with
  | GenerateCode now e => snd (generateCode now e c)
  | HandleAuth code u => snd (fst (handleAuth code u c))
  | InvalidateCode code => invalidateCode code c
  end.

Definition run (ks : list Call) (c : t) : t := foldl (fun c k => step k c) c ks.

(** The code a call registers, if it is a generation. *)
Definition generates (k : Call) : option string :=
  match k with
  | GenerateCode _ e => Some (freshCode e)
  | _ => None
  end.

End CodeAuth.

(* ===================================================================== *)
(** ** TwoFAAuth *)
(* ===================================================================== *)

Module TwoFAAuth.

Record TwoFASession : Type := {
  userId : JsValue;
  code : string;
  createdAt : Z;
  expiresAt : Z;
  used : bool;
  verified : bool;
  userData : option AuthResult.t;
}.

(** [TwoFAOptions]: the transport options and three optional numbers. *)
Record TwoFAOptions : Type := {
  base : AuthTransportOptions.t;
  opt_codeLifetime : option Z;
  opt_codeLength : option Z;
  opt_maxAttempts : option Z;
}.

(** [x || d] on an optional number: [undefined] and [0] give [d]. *)
Definition or_default (x : option Z) (d : Z) : Z :=
  match x with
  | Some v => if v =? 0 then d else v
  | None => d
  end.

(** The instance; [codeLifetime], [codeLength] and [maxAttempts] are
    the fields of [this.options], a [Required<TwoFAOptions>]. *)
Record t : Type := {
  sessions : gmap string TwoFASession;
  attempts : gmap string Z;
  botSettings : TelegramBotSettings.t;
  options : AuthTransportOptions.t;
  codeLifetime : Z;
  codeLength : Z;
  maxAttempts : Z;
}.

(** [constructor(options)] *)
Definition new (o : TwoFAOptions) : outcome t :=
  let build b :=
    {| sessions := ∅; attempts := ∅; botSettings := b; options := base o;
       codeLifetime := or_default (opt_codeLifetime o) (1000 * 60 * 5);
       codeLength := or_default (opt_codeLength o) 6;
       maxAttempts := or_default (opt_maxAttempts o) 3 |} in
  match AuthTransportOptions.botSettings (base o) with
  | Some b => Ret (build b)
  | None =>
      match truthy_string (AuthTransportOptions.botToken (base o)) with
      | Some tok =>
          Ret (build (TelegramBotSettings.mk tok
                        (AuthTransportOptions.botUsername (base o))))
      | None => Throw (Error "Необходимо указать botSettings или botToken")
      end
  end.

(** [generateCode(length)].  Up to length 8 the code is
    [Math.floor(min + Math.random() * (max - min + 1)).toString()] with
    [min = Math.pow(10, length - 1)] and [max = Math.pow(10, length) - 1];
    a longer code is the first [length] hex digits of
    [Math.ceil(length / 2)] random bytes.  For [1 <= length] the
    powers of ten are integers, which [Math.pow] returns exactly.
    ([Z.pow] gives 0 at a negative exponent where [Math.pow] gives a
    fraction below 1; for [length < 1] both sides end in the code 0.) *)
Definition generateNumber (length : Z) (e : Entropy) : Z :=
  let min := 10 ^ (length - 1) in
  let max := 10 ^ length - 1 in
  F64.floor (F64.add (F64.of_int min)
                     (F64.mul_int (math_random e) (max - min + 1))).

Definition generateCode (length : Z) (e : Entropy) : string :=
  if length <=? 8 then pretty (generateNumber length e)
  else slice0 (Z.to_nat length)
              (hex (randomBytes e (Z.to_nat ((length + 1) / 2)))).
Arguments generateNumber : simpl never.
Arguments generateCode : simpl never.

(** The key of both maps: the template literal of the user id. *)
Definition sessionKey (userId : JsValue) : string := toString userId.

(** [start2FA(userId, userData?, sendMessage = false)].  [now1] and
    [now2] are the two readings of [Date.now()].  With [sendMessage]
    the source only builds a message text it does not send. *)
Definition start2FA (now1 now2 : Z) (e : Entropy)
    (userId : JsValue) (userData : option AuthResult.t) (sendMessage : bool)
    (a : t) : string * t * list Effect :=
  let code := generateCode (codeLength a) e in
  let key := sessionKey userId in
  (code,
   {| sessions := <[key := {| userId := userId; code := code;
                              createdAt := now1;
                              expiresAt := now2 + codeLifetime a;
                              used := false; verified := false;
                              userData := userData |}]> (sessions a);
      attempts := <[key := 0]> (attempts a);
      botSettings := botSettings a; options := options a;
      codeLifetime := codeLifetime a; codeLength := codeLength a;
      maxAttempts := maxAttempts a |},
   [Log INFO ("2FA initiated for user " +:+ key)]).

(** [sendResult(userData)]: every handler call sits in a [try]. *)
Definition sendResult (a : t) (u : AuthResult.t) : list Effect :=
  let o := options a in
  (if AuthTransportOptions.includes o callback && AuthTransportOptions.onAuth o
   then [Try (CallOnAuth u) ERROR "Error in onAuth callback"] else [])
  ++ (if AuthTransportOptions.includes o rest
      then match truthy_string (AuthTransportOptions.restEndpoint o) with
           | Some url => [FetchPost url u]
           | None => []
           end
      else [])
  ++ (if AuthTransportOptions.includes o websocket && AuthTransportOptions.hasEmit o
      then [Try (WsEmit "tgauth:2fa" u) ERROR "Error sending WebSocket message"]
      else [])
  ++ (if AuthTransportOptions.saveHandler o
      then [Try (CallSaveHandler u) ERROR "Error in saveHandler"] else []).

(** [this.attempts.get(sessionKey) || 0] *)
Definition attemptsOf (a : t) (key : string) : Z :=
  default 0 (attempts a !! key).

Definition with_attempts (a : t) (m : gmap string Z) : t :=
  {| sessions := sessions a; attempts := m;
     botSettings := botSettings a; options := options a;
     codeLifetime := codeLifetime a; codeLength := codeLength a;
     maxAttempts := maxAttempts a |}.

Definition with_sessions (a : t) (m : gmap string TwoFASession) : t :=
  {| sessions := m; attempts := attempts a;
     botSettings := botSettings a; options := options a;
     codeLifetime := codeLifetime a; codeLength := codeLength a;
     maxAttempts := maxAttempts a |}.

(** [verify2FA(userId, code)]; [now] is [Date.now()]. *)
Definition verify2FA (now : Z) (userId : JsValue) (code : string) (a : t)
  : bool * t * list Effect :=
  let key := sessionKey userId in
  match sessions a !! key with
  | None =>
      (false, a, [Log WARN ("2FA session not found for user " +:+ key)])
  | Some session =>
      if expiresAt session <? now then
        (false, a, [Log WARN ("2FA code expired for user " +:+ key)])
      else if used session then
        (false, a, [Log WARN ("2FA code already used for user " +:+ key)])
      else
        let n := attemptsOf a key in
        if maxAttempts a <=? n then
          (false, a, [Log WARN ("Too many 2FA attempts for user " +:+ key)])
        else
          let a1 := with_attempts a (<[key := n + 1]> (attempts a)) in
          if negb (String.eqb (TwoFAAuth.code session) code) then
            (false, a1, [Log WARN ("Invalid 2FA code for user " +:+ key)])
          else
            let session' := {| userId := TwoFAAuth.userId session;
                               code := TwoFAAuth.code session;
                               createdAt := createdAt session;
                               expiresAt := expiresAt session;
                               used := true; verified := true;
                               userData := userData session |} in
            let a2 := with_sessions a1 (<[key := session']> (sessions a1)) in
            let u := match userData session with
                     | Some u => u
                     | None =>
                         AuthResult.mk userId false (JStr "Unknown")
                           JUndefined JUndefined JUndefined JUndefined
                           (JBool true)
                     end in
            (true, a2,
             sendResult a2 u
             ++ [Log INFO ("2FA verified successfully for user " +:+ key)])
  end.

(** [isVerified(userId)] *)
Definition isVerified (userId : JsValue) (a : t) : bool :=
  match sessions a !! sessionKey userId with
  | Some session => verified session
  | None => false
  end.

(** [reset2FA(userId)] *)
Definition reset2FA (userId : JsValue) (a : t) : t * list Effect :=
  let key := sessionKey userId in
  ({| sessions := delete key (sessions a);
      attempts := delete key (attempts a);
      botSettings := botSettings a; options := options a;
      codeLifetime := codeLifetime a; codeLength := codeLength a;
      maxAttempts := maxAttempts a |},
   [Log INFO ("2FA reset for user " +:+ key)]).

Inductive Call : Type :=
  | Start2FA (now1 now2 : Z) (e : Entropy) (userId : JsValue)
             (userData : option AuthResult.t) (sendMessage : bool)
  | Verify2FA (now : Z) (userId : JsValue) (code : string)
  | IsVerified (userId : JsValue)
  | Reset2FA (userId : JsValue).

Definition step (c : Call) (a : t) : t :=
  match c with
  | Start2FA now1 now2 e uid ud sm => snd (fst (start2FA now1 now2 e uid ud sm a))
  | Verify2FA now uid code => snd (fst (verify2FA now uid code a))
  | IsVerified _ => a
  | Reset2FA uid => fst (reset2FA uid a)
  end.

Definition run (cs : list Call) (a : t) : t := foldl (fun a c => step c a) a cs.

(** The subject key a call starts a challenge for, if it is a start. *)
Definition starts (c : Call) : option string :=
  match c with
  | Start2FA _ _ _ uid _ _ => Some (sessionKey uid)
  | _ => None
  end.

(** The invariant of the spec's data model: a verified challenge is a
    used one. *)
Definition verified_implies_used (a : t) : Prop :=
  forall key session,
    sessions a !! key = Some session ->
    verified session = true -> used session = true.

(** The subject key a call resets, if it is a reset. *)
Definition resets (c : Call) : option string :=
  match c with
  | Reset2FA uid => Some (sessionKey uid)
  | _ => None
  end.

(** Every stored counter lies between 0 and the attempt limit. *)
Definition attempts_bounded (a : t) : Prop :=
  forall key n, attempts a !! key = Some n -> 0 <= n <= Z.max 0 (maxAttempts a).

End TwoFAAuth.

(* ===================================================================== *)
(** ** SessionManager *)
(* ===================================================================== *)

Module SessionManager.

Record Session : Type := {
  id : string;
  userData : AuthResult.t;
  createdAt : Z;
  lastActivity : Z;
  metadata : option (gmap string JsValue);
}.

(** A call of [persistentStore.save(this.sessions)], with the content
    of the map at the time of the call. *)
Inductive StoreCall : Type :=
  | Save (snapshot : gmap string Session).

(** The instance.  [persistentStore] and [tokenGenerator] belong to the
    caller: a save is recorded as a [StoreCall], a generated id is an
    argument of [createSession]. *)
Record t : Type := {
  sessions : gmap string Session;
  sessionLifetime : Z;
}.

(** [constructor(options = {})]: [options.sessionLifetime || 30 days],
    and an empty map.  The constructor also starts the hourly timer of
    [cleanExpiredSessions] and calls [loadSessions] without waiting
    for it: both act on the instance after the constructor has
    returned, see [construct] below. *)
Definition new (opt_sessionLifetime : option Z) : t :=
  {| sessions := ∅;
     sessionLifetime :=
       match opt_sessionLifetime with
       | Some v => if v =? 0 then 1000 * 60 * 60 * 24 * 30 else v
       | None => 1000 * 60 * 60 * 24 * 30
       end |}.

(** [saveSessions()] *)
Definition saveSessions (m : t) : list StoreCall := [Save (sessions m)].

Definition with_sessions (m : t) (s : gmap string Session) : t :=
  {| sessions := s; sessionLifetime := sessionLifetime m |}.

(** [createSession(userData, metadata?)]; [sessionId] is the value of
    [this.options.tokenGenerator()]. *)
Definition createSession (sessionId : string) (now : Z)
    (u : AuthResult.t) (md : option (gmap string JsValue)) (m : t)
  : Session * t * list StoreCall :=
  let session := {| id := sessionId; userData := u; createdAt := now;
                    lastActivity := now; metadata := md |} in
  let m' := with_sessions m (<[sessionId := session]> (sessions m)) in
  (session, m', saveSessions m').

(** [getSession(sessionId)]; [now1] and [now2] are the two readings
    of [Date.now()], at the expiry test and at the refresh. *)
Definition getSession (now1 now2 : Z) (sessionId : string) (m : t)
  : option Session * t * list StoreCall :=
  match sessions m !! sessionId with
  | None => (None, m, [])
  | Some session =>
      if sessionLifetime m <? now1 - lastActivity session then
        let m' := with_sessions m (delete sessionId (sessions m)) in
        (None, m', saveSessions m')
      else
        let session' := {| id := id session; userData := userData session;
                           createdAt := createdAt session;
                           lastActivity := now2;
                           metadata := metadata session |} in
        (Some session',
         with_sessions m (<[sessionId := session']> (sessions m)),
         [])
  end.

(** [updateSession(sessionId, metadata)] *)
Definition updateSession (now : Z) (sessionId : string)
    (md : gmap string JsValue) (m : t) : bool * t * list StoreCall :=
  match sessions m !! sessionId with
  | None => (false, m, [])
  | Some session =>
      let session' := {| id := id session; userData := userData session;
                         createdAt := createdAt session;
                         lastActivity := now;
                         metadata := Some (md ∪ default ∅ (metadata session)) |} in
      let m' := with_sessions m (<[sessionId := session']> (sessions m)) in
      (true, m', saveSessions m')
  end.

(** [deleteSession(sessionId)] *)
Definition deleteSession (sessionId : string) (m : t)
  : bool * t * list StoreCall :=
  let m' := with_sessions m (delete sessionId (sessions m)) in
  (bool_decide (is_Some (sessions m !! sessionId)), m', saveSessions m').

(** The expiry test [now - session.lastActivity > sessionLifetime]. *)
Definition expired (m : t) (now : Z) (s : Session) : Prop :=
  sessionLifetime m < now - lastActivity s.

#[global] Instance expired_dec m now s : Decision (expired m now s).
Proof. unfold expired. apply _. Defined.

(** [cleanExpiredSessions()] *)
Definition cleanExpiredSessions (now : Z) (m : t) : t * list StoreCall :=
  let hasDeleted :=
    bool_decide (map_Exists (fun _ s => expired m now s) (sessions m)) in
  let m' := with_sessions m
              (filter (fun kv => ¬ expired m now kv.2) (sessions m)) in
  (m', if hasDeleted then saveSessions m' else []).

(** The test [session.userData.id === userId]. *)
Definition ownedBy (userId : JsValue) (s : Session) : Prop :=
  strict_eq (AuthResult.id (userData s)) userId = true.

#[global] Instance ownedBy_dec userId s : Decision (ownedBy userId s).
Proof. unfold ownedBy. apply _. Defined.

(** [clearUserSessions(userId)]: the result is the number of sessions
    deleted. *)
Definition clearUserSessions (userId : JsValue) (m : t)
  : Z * t * list StoreCall :=
  let count :=
    Z.of_nat (size (filter (fun kv => ownedBy userId kv.2) (sessions m))) in
  let m' := with_sessions m
              (filter (fun kv => ¬ ownedBy userId kv.2) (sessions m)) in
  (count, m', if 0 <? count then saveSessions m' else []).

(** The calls a client (or the hourly timer, for the last one) makes on
    an instance. *)
Inductive Call : Type :=
  | CreateSession (sessionId : string) (now : Z) (u : AuthResult.t)
                  (md : option (gmap string JsValue))
  | GetSession (now1 now2 : Z) (sessionId : string)
  | UpdateSession (now : Z) (sessionId : string) (md : gmap string JsValue)
  | DeleteSession (sessionId : string)
  | ClearUserSessions (userId : JsValue)
  | CleanExpiredSessions (now : Z).

Definition step (c : Call) (m : t) : t :=
  match c with
  | CreateSession sid now u md => (createSession sid now u md m).1.2
  | GetSession now1 now2 sid => (getSession now1 now2 sid m).1.2
  | UpdateSession now sid md => (updateSession now sid md m).1.2
  | DeleteSession sid => (deleteSession sid m).1.2
  | ClearUserSessions uid => (clearUserSessions uid m).1.2
  | CleanExpiredSessions now => (cleanExpiredSessions now m).1
  end.

Definition run (cs : list Call) (m : t) : t := foldl (fun m c => step c m) m cs.

(** Every session is stored under its own id. *)
Definition keyed (m : t) : Prop :=
  forall sid s, sessions m !! sid = Some s -> id s = sid.

(** [loadSessions()], from the point where the promise of
    [persistentStore.load()] settles: fulfilled with a map, that map
    becomes the map of the instance, whatever the instance held by
    then; rejected, the error is logged and the map stays.  (The
    default store loads an empty map.) *)
Definition loadSessions (loaded : option (gmap string Session)) (m : t) : t :=
  match loaded with
  | Some snapshot => with_sessions m snapshot
  | None => m
  end.

(** An instance in time: its state, and whether the load its
    constructor started is still to settle. *)
Record Live : Type := {
  state : t;
  loading : bool;
}.

(** [new SessionManager(options)], as the constructor leaves it. *)
Definition construct (opt_sessionLifetime : option Z) : Live :=
  {| state := new opt_sessionLifetime; loading := true |}.

(** What happens to an instance: a call, or the settlement of the
    load (once). *)
Inductive Event : Type :=
  | Invoke (c : Call)
  | Settle (loaded : option (gmap string Session)).

Definition occur (ev : Event) (l : Live) : Live :=
  match ev with
  | Invoke c => {| state := step c (state l); loading := loading l |}
  | Settle loaded =>
      if loading l
      then {| state := loadSessions loaded (state l); loading := false |}
      else l
  end.

Definition elapse (evs : list Event) (l : Live) : Live :=
  foldl (fun l ev => occur ev l) l evs.

(** The event is a settlement of the load. *)
Definition settles (ev : Event) : bool :=
  match ev with
  | Settle _ => true
  | Invoke _ => false
  end.

End SessionManager.

(* ===================================================================== *)
(** ** WidgetAuth *)
(* ===================================================================== *)

(** The two primitives of Node's [crypto] the widget check uses:
    [createHash('sha256').update(s).digest()] and
    [createHmac('sha256', key).update(s).digest('hex')]. *)
Class Crypto : Type := {
  sha256 : string -> list Byte.byte;
  hmac_sha256_hex : list Byte.byte -> string -> string;
}.

Module WidgetAuth.

(** [WidgetAuthOptions]: the transport options (whose [botToken] the
    interface declares as required) and [validateSignature?]. *)
Record WidgetAuthOptions : Type := {
  base : AuthTransportOptions.t;
  opt_validateSignature : option bool;
}.

Record t : Type := {
  options : AuthTransportOptions.t;
  validateSignatureOption : bool;
}.

(** [constructor(options)]: copies the options and defaults
    [validateSignature] to [true]; there is no [throw] in it. *)
Definition new (o : WidgetAuthOptions) : outcome t :=
  Ret {| options := base o;
         validateSignatureOption :=
           match opt_validateSignature o with
           | Some b => b
           | None => true
           end |}.

(** The argument of [handleAuth], typed [any]: a plain object or
    anything else. *)
Inductive WidgetData : Type :=
  | NotObject (v : JsValue)
  | Object (fields : gmap string JsValue).

(** The order of [Array.prototype.sort()] on keys: by the code units
    of UTF-16.  On the UTF-8 form of two well-formed strings this is
    the order of the bytes, except that a character above U+FFFF (a
    pair of surrogates in UTF-16, first byte F0 to F4) comes before
    the characters from U+E000 to U+FFFF (first byte EE or EF):
    [utf16_rank] ranks the bytes so. *)
Definition utf16_rank (a : Ascii.ascii) : N :=
  let n := Ascii.N_of_ascii a in
  (if n <? 238 then n
   else if n <=? 239 then n + 5
   else if n <=? 244 then n - 2
   else n)%N.

Fixpoint key_compare (a b : string) : comparison :=
  match a, b with
  | EmptyString, EmptyString => Eq
  | EmptyString, String _ _ => Lt
  | String _ _, EmptyString => Gt
  | String x a', String y b' =>
      match N.compare (utf16_rank x) (utf16_rank y) with
      | Eq => key_compare a' b'
      | c => c
      end
  end.

Definition key_le (a b : string) : Prop := key_compare a b ≠ Gt.

#[global] Instance key_le_dec a b : Decision (key_le a b).
Proof. unfold key_le. apply _. Defined.

(** [Object.keys(data).sort()] *)
Definition sortedKeys (data : gmap string JsValue) : list string :=
  merge_sort key_le (map_to_list data).*1.

(** The array [dataCheckArr] built after [delete data.hash]. *)
Definition dataCheckArr (data : gmap string JsValue) : list string :=
  let data' := delete "hash" data in
  omap (fun key =>
          let v := getField data' key in
          if truthy v then Some (key +:+ "=" +:+ toString v) else None)
       (sortedKeys data').

(** [arr.join('\n')] *)
Fixpoint join_lines (l : list string) : string :=
  match l with
  | [] => EmptyString
  | [x] => x
  | x :: r => x +:+ String (ascii_of_N 10) (join_lines r)
  end.

Definition dataCheckString (data : gmap string JsValue) : string :=
  join_lines (dataCheckArr data).

Section WithCrypto.
Context `{Crypto}.

(** The digest the payload must carry, for a given bot token. *)
Definition expectedHash (botToken : string) (data : gmap string JsValue)
  : string :=
  hmac_sha256_hex (sha256 botToken) (dataCheckString data).

(** [validateSignature(data)].  The result comes with the payload
    object as the call leaves it: [hash] is deleted first and put
    back before the return; [update(undefined)] throws in between
    when the options carry no token. *)
Definition validateSignature (w : t) (data : gmap string JsValue)
  : outcome bool * gmap string JsValue :=
  let hash := getField data "hash" in
  let data' := delete "hash" data in
  match AuthTransportOptions.botToken (options w) with
  | None => (Throw (TypeError "ERR_INVALID_ARG_TYPE"), data')
  | Some tok =>
      (Ret (bool_decide (hash = JStr (expectedHash tok data))),
       <["hash" := hash]> data')
  end.

(** [sendResult(userData)]: every handler call sits in a [try]. *)
Definition sendResult (w : t) (u : AuthResult.t) : list Effect :=
  let o := options w in
  (if AuthTransportOptions.includes o callback && AuthTransportOptions.onAuth o
   then [Try (CallOnAuth u) ERROR "Error in onAuth callback"] else [])
  ++ (if AuthTransportOptions.includes o rest
      then match truthy_string (AuthTransportOptions.restEndpoint o) with
           | Some url => [FetchPost url u]
           | None => []
           end
      else [])
  ++ (if AuthTransportOptions.includes o websocket && AuthTransportOptions.hasEmit o
      then [Try (WsEmit "tgauth:widget" u) ERROR "Error sending WebSocket message"]
      else [])
  ++ (if AuthTransportOptions.saveHandler o
      then [Try (CallSaveHandler u) ERROR "Error in saveHandler"] else []).

Definition requiredFields : list string :=
  ["id"; "first_name"; "auth_date"; "hash"].

(** The first required field whose value is not truthy. *)
Definition firstMissing (data : gmap string JsValue) : option string :=
  list_find (fun field => truthy (getField data field) = false) requiredFields
  ≫= fun p => Some p.2.

(** The part of [handleAuth] after the signature check. *)
Definition accept (w : t) (data : gmap string JsValue)
  : outcome bool * WidgetData * list Effect :=
  let u := AuthResult.mk (parseInt (getField data "id")) false
             (getField data "first_name") (getField data "last_name")
             (getField data "username") (getField data "language_code")
             (getField data "photo_url") JUndefined in
  (Ret true, Object data,
   sendResult w u ++ [Log INFO "User authenticated via widget"]).

(** [handleAuth(data)]; [nowMs] is [Date.now()].  The result comes
    with the payload as the call leaves it. *)
Definition handleAuth (nowMs : Z) (data : WidgetData) (w : t)
  : outcome bool * WidgetData * list Effect :=
  match data with
  | NotObject _ =>
      (Ret false, data, [Log WARN "Invalid widget data: not an object"])
  | Object fields =>
      match firstMissing fields with
      | Some field =>
          (Ret false, data,
           [Log WARN ("Invalid widget data: missing " +:+ field)])
      | None =>
          let authDate := parseInt (getField fields "auth_date") in
          let now := JNum (nowMs / 1000) in
          if sub_gt now authDate 86400 then
            (Ret false, data, [Log WARN "Widget data expired"])
          else if validateSignatureOption w then
            match validateSignature w fields with
            | (Throw e, fields') => (Throw e, Object fields', [])
            | (Ret false, fields') =>
                (Ret false, Object fields',
                 [Log WARN "Invalid widget signature"])
            | (Ret true, fields') => accept w fields'
            end
          else accept w fields
      end
  end.

End WithCrypto.

End WidgetAuth.

(* ===================================================================== *)
(** ** Logger *)
(* ===================================================================== *)

(** [arr.slice(start)] for an integer [start]: a negative [start]
    counts from the end of the array. *)
Definition slice_from {A} (start : Z) (l : list A) : list A :=
  let len := Z.of_nat (length l) in
  let k := if start <? 0 then Z.max (len + start) 0 else Z.min start len in
  drop (Z.to_nat k) l.

(** [LogEntry], with the enums [LogLevel] (numeric) and [LogCategory]. *)
Module LogEntry.

Inductive Level : Type := DEBUG | INFO | WARN | ERROR | NONE.

(** The number behind a member of the enum. *)
Definition levelValue (l : Level) : Z :=
  match l with
  | DEBUG => 0
  | INFO => 1
  | WARN => 2
  | ERROR => 3
  | NONE => 999
  end.

Inductive Category : Type :=
  | AUTH | SECURITY | API | WEBHOOK | INTEGRATION | SESSION | GENERAL.

Record t : Type := mk {
  timestamp : Z;
  level : Level;
  category : Category;
  message : string;
  data : JsValue;
}.

End LogEntry.

#[global] Instance Level_eq_dec : EqDecision LogEntry.Level.
Proof. solve_decision. Defined.

#[global] Instance Category_eq_dec : EqDecision LogEntry.Category.
Proof. solve_decision. Defined.

(** [MemoryTransport]: a buffer of the latest entries. *)
Module MemoryTransport.

Record t : Type := {
  logs : list LogEntry.t;
  maxLength : Z;
}.

(** [constructor(options = {})]: [options.maxLength || 1000] *)
Definition new (opt_maxLength : option Z) : t :=
  {| logs := []; maxLength := TwoFAAuth.or_default opt_maxLength 1000 |}.

(** [log(entry)]: push, then cut to the last [maxLength] entries. *)
Definition log (entry : LogEntry.t) (m : t) : t :=
  let pushed := logs m ++ [entry] in
  {| logs := if maxLength m <? Z.of_nat (length pushed)
             then slice_from (- maxLength m) pushed
             else pushed;
     maxLength := maxLength m |}.

Definition getLogs (m : t) : list LogEntry.t := logs m.

Definition getLogsByLevel (level : LogEntry.Level) (m : t) : list LogEntry.t :=
  filter (fun entry => LogEntry.level entry = level) (logs m).

Definition getLogsByCategory (category : LogEntry.Category) (m : t)
  : list LogEntry.t :=
  filter (fun entry => LogEntry.category entry = category) (logs m).

Definition clear (m : t) : t := {| logs := []; maxLength := maxLength m |}.

(** The transport after the entries of [es] have been logged, first to
    last. *)
Definition logAll (es : list LogEntry.t) (m : t) : t :=
  foldl (fun m e => log e m) m es.

End MemoryTransport.

(** [Logger].  A transport is an object the caller supplies; the
    instance holds references to them, here names, in an array.  What
    [log] hands to a transport is recorded as a delivery to that name,
    in the order of the calls.  [init] keeps the array it is given, so
    the array of the instance may be one the caller still holds and
    writes to: [callerArray] tells whether it is. *)
Module Logger.

Record t : Type := {
  transports : list string;
  minLevel : LogEntry.Level;
  enabled : bool;
  callerArray : bool;
}.

(** The instance [getInstance()] creates. *)
Definition instance : t :=
  {| transports := []; minLevel := LogEntry.INFO; enabled := true;
     callerArray := false |}.

(** [init(options?)]: each option given replaces the field; the array
    of transports is taken as it is, not copied. *)
Definition init (opt_transports : option (list string))
    (opt_minLevel : option LogEntry.Level) (opt_enabled : option bool)
    (l : t) : t :=
  {| transports := default (transports l) opt_transports;
     minLevel := default (minLevel l) opt_minLevel;
     enabled := default (enabled l) opt_enabled;
     callerArray := match opt_transports with
                    | Some _ => true
                    | None => callerArray l
                    end |}.

(** [addTransport(transport)]: a push into the array held. *)
Definition addTransport (transport : string) (l : t) : t :=
  {| transports := transports l ++ [transport];
     minLevel := minLevel l; enabled := enabled l;
     callerArray := callerArray l |}.

(** [clearTransports()]: a new, empty array. *)
Definition clearTransports (l : t) : t :=
  {| transports := []; minLevel := minLevel l; enabled := enabled l;
     callerArray := false |}.

Definition setMinLevel (level : LogEntry.Level) (l : t) : t :=
  {| transports := transports l; minLevel := level; enabled := enabled l;
     callerArray := callerArray l |}.

Definition setEnabled (enabled : bool) (l : t) : t :=
  {| transports := transports l; minLevel := minLevel l; enabled := enabled;
     callerArray := callerArray l |}.

(** The caller writes to the array it passed to [init] (a push, a
    splice, ...), after which the array holds [ts]: the instance sees
    it when that array is the one it holds. *)
Definition callerWrites (ts : list string) (l : t) : t :=
  if callerArray l
  then {| transports := ts; minLevel := minLevel l; enabled := enabled l;
          callerArray := true |}
  else l.

(** [log(level, category, message, data?)]; [now] is [Date.now()].
    The result lists the calls [transport.log(entry)]. *)
Definition log (now : Z) (level : LogEntry.Level) (category : LogEntry.Category)
    (message : string) (data : JsValue) (l : t)
  : list (string * LogEntry.t) :=
  if negb (enabled l)
     || (LogEntry.levelValue level <? LogEntry.levelValue (minLevel l))
     || (Z.of_nat (length (transports l)) =? 0)
  then []
  else
    let entry := LogEntry.mk now level category message data in
    map (fun transport => (transport, entry)) (transports l).

Definition debug now category message data l :=
  log now LogEntry.DEBUG category message data l.
Definition info now category message data l :=
  log now LogEntry.INFO category message data l.
Definition warn now category message data l :=
  log now LogEntry.WARN category message data l.
Definition error now category message data l :=
  log now LogEntry.ERROR category message data l.

(** The calls that configure the instance or log through it, and the
    writes of the caller to an array it passed to [init]. *)
Inductive Call : Type :=
  | Init (opt_transports : option (list string))
         (opt_minLevel : option LogEntry.Level) (opt_enabled : option bool)
  | AddTransport (transport : string)
  | ClearTransports
  | SetMinLevel (level : LogEntry.Level)
  | SetEnabled (enabled : bool)
  | LogCall (now : Z) (level : LogEntry.Level) (category : LogEntry.Category)
            (message : string) (data : JsValue)
  | CallerWrites (ts : list string).

Definition step (c : Call) (l : t) : t * list (string * LogEntry.t) :=
  match c with
  | Init ts lv en => (init ts lv en l, [])
  | AddTransport tr => (addTransport tr l, [])
  | ClearTransports => (clearTransports l, [])
  | SetMinLevel lv => (setMinLevel lv l, [])
  | SetEnabled en => (setEnabled en l, [])
  | LogCall now lv cat msg d => (l, log now lv cat msg d l)
  | CallerWrites ts => (callerWrites ts l, [])
  end.

(** The instance after the calls of [cs], with all the deliveries. *)
Fixpoint run (cs : list Call) (l : t) : t * list (string * LogEntry.t) :=
  match cs with
  | [] => (l, [])
  | c :: cs' =>
      let '(l1, d1) := step c l in
      let '(l2, d2) := run cs' l1 in
      (l2, d1 ++ d2)
  end.

(** The transports a call registers, or may register. *)
Definition registers (c : Call) : list string :=
  match c with
  | Init (Some ts) _ _ => ts
  | AddTransport tr => [tr]
  | CallerWrites ts => ts
  | _ => []
  end.

(** The call [log(e.level, e.category, e.message, e.data)] made at
    time [e.timestamp]. *)
Definition callOf (e : LogEntry.t) : Call :=
  LogCall (LogEntry.timestamp e) (LogEntry.level e) (LogEntry.category e)
          (LogEntry.message e) (LogEntry.data e).

(** The entries delivered to one transport. *)
Definition deliveredTo (transport : string) (ds : list (string * LogEntry.t))
  : list LogEntry.t :=
  (filter (fun d => d.1 = transport) ds).*2.

End Logger.

(* ===================================================================== *)
(** ** WebhookIntegration: the handlers of the bot *)
(* ===================================================================== *)

(** [s.split(' ')]: the pieces between single spaces; two spaces in a
    row enclose an empty piece. *)
Fixpoint split_space (s : string) : list string :=
  match s with
  | EmptyString => [EmptyString]
  | String c r =>
      if Ascii.eqb c " "%char then EmptyString :: split_space r
      else match split_space r with
           | h :: t => String c h :: t
           | [] => [String c EmptyString]
           end
  end.

(** [s.trimEnd()] and [s.trim()]: the white space stripped is the one
    [skip_space] skips.  A string is cut where what is left is white
    space only. *)
Fixpoint trim_end (s : string) : string :=
  match s with
  | EmptyString => EmptyString
  | String c r =>
      if String.eqb (skip_space s) EmptyString then EmptyString
      else String c (trim_end r)
  end.

Definition trim (s : string) : string := trim_end (skip_space s).

(** [s.startsWith('/')] *)
Definition startsWithSlash (s : string) : bool :=
  match s with
  | String c _ => Ascii.eqb c "/"%char
  | EmptyString => false
  end.

Module WebhookIntegration.

(** What a handler reads from its context: [ctx.message?.text] and
    [ctx.from]. *)
Record Ctx : Type := {
  messageText : option string;
  from : option AuthResult.t;
}.

(** What a handler does to the outside, in order: a call of
    [ctx.reply], a call of [persistentStore.save], a call of
    [options.onAuth(userData)], and the continuation [then] attaches to
    the promise of [createSession], which calls
    [options.onAuth(userData, session.id)] once the save has completed. *)
Inductive Out : Type :=
  | Reply (text : string)
  | Stored (call : SessionManager.StoreCall)
  | OnAuth (u : AuthResult.t)
  | ThenOnAuth (u : AuthResult.t) (sessionId : string)
  | Other (e : Effect).

(** The instance.  The bot and the Express application are the
    frameworks' objects and have no part in the model.  The [onAuth]
    option of both authenticators is the function [onAuth] below;
    [userOnAuth] is what the [onAuth] of the integration's own options
    does when it is called with the user data alone: it returns
    ([None]) or throws.  The session manager comes with the load its
    constructor started. *)
Record t : Type := {
  deeplinkAuth : DeeplinkAuth.t;
  codeAuth : CodeAuth.t;
  sessionManager : option SessionManager.Live;
  useSessionManager : bool;
  userOnAuth : AuthResult.t -> option JsError;
}.

(** The [authOptions] the constructor builds: the token, the callback
    transport and its own [onAuth]. *)
Definition authOptions (botToken : string) : AuthTransportOptions.t :=
  AuthTransportOptions.mk (Some [callback]) None None true false None
    (Some botToken) None.

(** [constructor(options)], past [new Bot(...)] and [express()]:
    [onAuth || (() => {})], [useSessionManager ?? true], the two
    authenticators, and the session manager when it is asked for
    (of [sessionOptions], the lifetime). *)
Definition new (botToken : string)
    (opt_onAuth : option (AuthResult.t -> option JsError))
    (opt_useSessionManager : option bool)
    (opt_sessionLifetime : option Z) : outcome t :=
  let use := default true opt_useSessionManager in
  match DeeplinkAuth.new (authOptions botToken),
        CodeAuth.new (authOptions botToken) with
  | Ret d, Ret c =>
      Ret {| deeplinkAuth := d; codeAuth := c;
             sessionManager :=
               if use then Some (SessionManager.construct opt_sessionLifetime)
               else None;
             useSessionManager := use;
             userOnAuth := default (fun _ => None) opt_onAuth |}
  | Throw e, _ => Throw e
  | _, Throw e => Throw e
  end.

(** The [AuthResult] a handler builds from [ctx.from]: six fields. *)
Definition userOf (f : AuthResult.t) : AuthResult.t :=
  AuthResult.mk (AuthResult.id f) (AuthResult.is_bot f)
    (AuthResult.first_name f) (AuthResult.last_name f)
    (AuthResult.username f) (AuthResult.language_code f)
    JUndefined JUndefined.

Definition with_deeplinkAuth (w : t) (d : DeeplinkAuth.t) : t :=
  {| deeplinkAuth := d; codeAuth := codeAuth w;
     sessionManager := sessionManager w;
     useSessionManager := useSessionManager w;
     userOnAuth := userOnAuth w |}.

Definition with_codeAuth (w : t) (c : CodeAuth.t) : t :=
  {| deeplinkAuth := deeplinkAuth w; codeAuth := c;
     sessionManager := sessionManager w;
     useSessionManager := useSessionManager w;
     userOnAuth := userOnAuth w |}.

Definition with_sessionManager (w : t) (l : option SessionManager.Live) : t :=
  {| deeplinkAuth := deeplinkAuth w; codeAuth := codeAuth w;
     sessionManager := l;
     useSessionManager := useSessionManager w;
     userOnAuth := userOnAuth w |}.

(** The session manager the handlers and the routes use. *)
Definition managerInUse (w : t) : option SessionManager.Live :=
  if useSessionManager w then sessionManager w else None.

(** The [onAuth] of [authOptions]; [sessionId] and [now] are what
    [createSession] gets from the token generator and the clock.
    ([this.options.onAuth] is always a function: it defaults to one.)
    With the session manager, [createSession] runs up to its call of
    [persistentStore.save] and the call of the user's [onAuth] is left
    to the continuation; without, the user's [onAuth] is called on the
    spot, and the exception it throws, if it does, is the third
    component. *)
Definition onAuth (sessionId : string) (now : Z) (u : AuthResult.t) (w : t)
  : t * list Out * option JsError :=
  match managerInUse w with
  | Some l =>
      let r := SessionManager.createSession sessionId now u None
                 (SessionManager.state l) in
      (with_sessionManager w
         (Some {| SessionManager.state := r.1.2;
                  SessionManager.loading := SessionManager.loading l |}),
       map Stored r.2 ++ [ThenOnAuth u (SessionManager.id r.1.1)],
       None)
  | None => (w, [OnAuth u], userOnAuth w u)
  end.

(** What the calls of a [handleAuth] amount to here: a call of the
    [onAuth] option runs the function above, and an exception ends the
    calls there. *)
Fixpoint dispatch (sessionId : string) (now : Z) (es : list Effect) (w : t)
  : t * list Out * option JsError :=
  match es with
  | [] => (w, [], None)
  | CallOnAuth u :: es' =>
      let r := onAuth sessionId now u w in
      match r.2 with
      | Some e => r
      | None =>
          let r' := dispatch sessionId now es' r.1.1 in
          (r'.1.1, r.1.2 ++ r'.1.2, r'.2)
      end
  | e :: es' =>
      let r' := dispatch sessionId now es' w in
      (r'.1.1, Other e :: r'.1.2, r'.2)
  end.

(** The handler of the [start] command.  [now] and [e] are the clock
    and the random source of the call, [sessionId] the id a session
    gets if one is created.  The third component is the exception the
    handler ends with, when [handleAuth] throws: no reply is sent
    then. *)
Definition startCommand (sessionId : string) (now : Z) (e : Entropy)
    (ctx : Ctx) (w : t) : t * list Out * option JsError :=
  let args := option_map split_space (messageText ctx) in
  match args, from ctx with
  | Some (_ :: token :: _), Some f =>
      let user := userOf f in
      let r := DeeplinkAuth.handleAuth token user (deeplinkAuth w) in
      let p := dispatch sessionId now r.2 (with_deeplinkAuth w r.1.2) in
      match p.2 with
      | Some x => p
      | None =>
          (p.1.1,
           p.1.2 ++ [Reply (if r.1.1 then "Вы успешно авторизованы через ссылку!"
                            else "Ссылка недействительна или уже использована.")],
           None)
      end
  | _, _ =>
      let r := CodeAuth.generateCode now e (codeAuth w) in
      (with_codeAuth w r.2, [Reply ("Ваш код для авторизации: " +:+ r.1)], None)
  end.

(** The handler of the other messages. *)
Definition onMessage (sessionId : string) (now : Z) (ctx : Ctx) (w : t)
  : t * list Out * option JsError :=
  match option_map trim (messageText ctx), from ctx with
  | Some text, Some f =>
      if String.eqb text EmptyString || startsWithSlash text then (w, [], None)
      else
        let user := userOf f in
        let r := CodeAuth.handleAuth text user (codeAuth w) in
        let p := dispatch sessionId now r.2 (with_codeAuth w r.1.2) in
        match p.2 with
        | Some x => p
        | None =>
            (p.1.1,
             p.1.2 ++ (if r.1.1 then [Reply "Вы успешно авторизованы по коду!"]
                       else []),
             None)
        end
  | _, _ => (w, [], None)
  end.

(** The route [/generate-deeplink]. *)
Definition generateDeeplink (now : Z) (e : Entropy) (w : t) : string * t :=
  let r := DeeplinkAuth.generateDeeplink now e (deeplinkAuth w) in
  (r.1, with_deeplinkAuth w r.2).

(** The route [/generate-code]. *)
Definition generateCode (now : Z) (e : Entropy) (w : t) : string * t :=
  let r := CodeAuth.generateCode now e (codeAuth w) in
  (r.1, with_codeAuth w r.2).

(** The route [/check-session/:sessionId], which exists when the
    session manager does: the session found (the answer is 404 without
    one), and the saves the lookup made. *)
Definition checkSession (now1 now2 : Z) (sessionId : string) (w : t)
  : option SessionManager.Session * t * list Out :=
  match managerInUse w with
  | Some l =>
      let r := SessionManager.getSession now1 now2 sessionId
                 (SessionManager.state l) in
      (r.1.1,
       with_sessionManager w
         (Some {| SessionManager.state := r.1.2;
                  SessionManager.loading := SessionManager.loading l |}),
       map Stored r.2)
  | None => (None, w, [])
  end.

(** What reaches the instance: updates for the two handlers, requests
    for the three routes, and what the session manager does by itself:
    the settlement of the load its constructor started and the hourly
    sweep. *)
Inductive Call : Type :=
  | StartCommand (sessionId : string) (now : Z) (e : Entropy) (ctx : Ctx)
  | OnMessage (sessionId : string) (now : Z) (ctx : Ctx)
  | GenerateDeeplink (now : Z) (e : Entropy)
  | GenerateCode (now : Z) (e : Entropy)
  | CheckSession (now1 now2 : Z) (sessionId : string)
  | SessionsLoaded (loaded : option (gmap string SessionManager.Session))
  | Sweep (now : Z).

Definition step (c : Call) (w : t) : t :=
  match c with
  | StartCommand sid now e ctx => (startCommand sid now e ctx w).1.1
  | OnMessage sid now ctx => (onMessage sid now ctx w).1.1
  | GenerateDeeplink now e => (generateDeeplink now e w).2
  | GenerateCode now e => (generateCode now e w).2
  | CheckSession now1 now2 sid => (checkSession now1 now2 sid w).1.2
  | SessionsLoaded loaded =>
      with_sessionManager w
        (option_map (SessionManager.occur (SessionManager.Settle loaded))
           (sessionManager w))
  | Sweep now =>
      with_sessionManager w
        (option_map
           (SessionManager.occur
              (SessionManager.Invoke (SessionManager.CleanExpiredSessions now)))
           (sessionManager w))
  end.

Definition run (cs : list Call) (w : t) : t := foldl (fun w c => step c w) w cs.

(** What the constructor establishes and every call keeps: the
    authenticators carry the options built from the token, and the
    session manager is there exactly when it is asked for. *)
Definition configured (botToken : string) (use : bool) (w : t) : Prop :=
  DeeplinkAuth.options (deeplinkAuth w) = authOptions botToken
  /\ DeeplinkAuth.botSettings (deeplinkAuth w)
     = TelegramBotSettings.mk botToken None
  /\ CodeAuth.options (codeAuth w) = authOptions botToken
  /\ useSessionManager w = use
  /\ (is_Some (sessionManager w) <-> use = true).

(** Two instances with the same authenticators and settings, and a
    session manager on both or on neither. *)
Definition same_setup (w1 w : t) : Prop :=
  deeplinkAuth w1 = deeplinkAuth w
  /\ codeAuth w1 = codeAuth w
  /\ useSessionManager w1 = useSessionManager w
  /\ userOnAuth w1 = userOnAuth w
  /\ (is_Some (sessionManager w1) <-> is_Some (sessionManager w)).

(** The session [createSession] stores. *)
Definition created (sid : string) (now : Z) (u : AuthResult.t)
  : SessionManager.Session :=
  {| SessionManager.id := sid; SessionManager.userData := u;
     SessionManager.createdAt := now; SessionManager.lastActivity := now;
     SessionManager.metadata := None |}.

(** The end of a handler that has redeemed an artifact: the reply
    follows unless [onAuth] has thrown. *)
Definition replied (r : t * list Out * option JsError) (text : string)
  : t * list Out * option JsError :=
  match r.2 with
  | Some x => r
  | None => (r.1.1, r.1.2 ++ [Reply text], None)
  end.

End WebhookIntegration.

(* ===================================================================== *)
(** ** The factory [createTelegramAuth] *)
(* ===================================================================== *)

(** [enableAuthMethods?.codeAuth] and the like, as tested by [if]. *)
Module AuthMethodsOptions.
Record t : Type := mk {
  codeAuth : bool;
  deeplinkV1 : bool;
  deeplinkV2 : bool;
  widgetAuth : bool;
}.
End AuthMethodsOptions.

Module TwoFactorOptions.
Record t : Type := mk {
  enabled : bool;
  verificationTimeout : option Z;
}.
End TwoFactorOptions.

(** [TelegramAuthOptions].  [useWebSocket] is the truth value of
    [transports.useWebSocket]; [onLogin] and [on2FA] tell whether the
    callback is supplied. *)
Module TelegramAuthOptions.
Record t : Type := mk {
  botUsername : string;
  botToken : string;
  frontendUrl : string;
  useWebSocket : bool;
  socketInstance : option WsServer;
  onLogin : bool;
  on2FA : bool;
  enableAuthMethods : AuthMethodsOptions.t;
  twoFactor : option TwoFactorOptions.t;
  sessionLifetime : option Z;
  logLevel : option LogEntry.Level;
}.
End TelegramAuthOptions.

Module TGAuth.
Record t : Type := mk {
  codeAuth : option CodeAuth.t;
  deeplinkV1 : option DeeplinkAuth.t;
  deeplinkV2 : option DeeplinkAuth.t;
  widgetAuth : option WidgetAuth.t;
  twoFA : option TwoFAAuth.t;
  session : SessionManager.Live;
}.
End TGAuth.

(** [LogLevel[level]]: the name of a member of the enum. *)
Definition levelName (l : LogEntry.Level) : string :=
  match l with
  | LogEntry.DEBUG => "DEBUG"
  | LogEntry.INFO => "INFO"
  | LogEntry.WARN => "WARN"
  | LogEntry.ERROR => "ERROR"
  | LogEntry.NONE => "NONE"
  end.

(** [if (enabled) auth.x = new X(...)] *)
Definition construct {A} (enabled : bool) (x : outcome A) : outcome (option A) :=
  if enabled then
    match x with
    | Ret a => Ret (Some a)
    | Throw e => Throw e
    end
  else Ret None.

Definition bind_outcome {A B} (x : outcome A) (k : A -> outcome B) : outcome B :=
  match x with
  | Ret a => k a
  | Throw e => Throw e
  end.

(** The options every authenticator of the factory is built from. *)
Definition baseAuthOptions (o : TelegramAuthOptions.t) : AuthTransportOptions.t :=
  AuthTransportOptions.mk
    (Some [if TelegramAuthOptions.useWebSocket o then websocket else callback])
    None
    (TelegramAuthOptions.socketInstance o)
    (TelegramAuthOptions.onLogin o)
    (TelegramAuthOptions.onLogin o)
    (Some (TelegramBotSettings.mk (TelegramAuthOptions.botToken o)
             (Some (TelegramAuthOptions.botUsername o))))
    None None.

(** [createTelegramAuth(options)]; [now] is the clock and [l] the
    logger.  The result comes with what the logger delivered. *)
Definition createTelegramAuth (now : Z) (o : TelegramAuthOptions.t) (l : Logger.t)
  : outcome TGAuth.t * list (string * LogEntry.t) :=
  let logged :=
    match TelegramAuthOptions.logLevel o with
    | Some lv =>
        if LogEntry.levelValue lv =? 0 then []
        else Logger.info now LogEntry.GENERAL
               ("Установка уровня логирования: " +:+ levelName lv) JUndefined l
    | None => []
    end in
  let sessionManager :=
    SessionManager.construct (TelegramAuthOptions.sessionLifetime o) in
  let base := baseAuthOptions o in
  let methods := TelegramAuthOptions.enableAuthMethods o in
  (bind_outcome
     (construct (AuthMethodsOptions.codeAuth methods) (CodeAuth.new base))
     (fun codeAuth =>
   bind_outcome
     (construct (AuthMethodsOptions.deeplinkV1 methods) (DeeplinkAuth.new base))
     (fun deeplinkV1 =>
   bind_outcome
     (construct (AuthMethodsOptions.deeplinkV2 methods) (DeeplinkAuth.new base))
     (fun deeplinkV2 =>
   bind_outcome
     (construct (AuthMethodsOptions.widgetAuth methods)
        (WidgetAuth.new {| WidgetAuth.base := base;
                           WidgetAuth.opt_validateSignature := None |}))
     (fun widgetAuth =>
   bind_outcome
     (construct
        (match TelegramAuthOptions.twoFactor o with
         | Some t => TwoFactorOptions.enabled t
         | None => false
         end)
        (TwoFAAuth.new {| TwoFAAuth.base := base;
                          TwoFAAuth.opt_codeLifetime := None;
                          TwoFAAuth.opt_codeLength := None;
                          TwoFAAuth.opt_maxAttempts := None |}))
     (fun twoFA =>
   Ret (TGAuth.mk codeAuth deeplinkV1 deeplinkV2 widgetAuth twoFA
          sessionManager)))))),
   logged).

(* ===================================================================== *)
(** ** Concrete instances, for evaluating the model *)
(* ===================================================================== *)

Definition alice : AuthResult.t :=
  AuthResult.mk (JNum 1) false (JStr "Alice") JUndefined JUndefined JUndefined
    JUndefined JUndefined.
Definition bob : AuthResult.t :=
  AuthResult.mk (JNum 2) false (JStr "Bob") JUndefined JUndefined JUndefined
    JUndefined JUndefined.
Definition callbackOptions : AuthTransportOptions.t :=
  AuthTransportOptions.mk (Some [callback]) None None true false None
    (Some "123:abc") (Some "demo_bot").
Definition noCredentials : AuthTransportOptions.t :=
  AuthTransportOptions.mk (Some [callback]) None None true false None None None.
(** Options with a token and nothing else: no transport, no handler. *)
Definition tokenOptions : AuthTransportOptions.t :=
  AuthTransportOptions.mk None None None false false None (Some "123:abc") None.
Definition codeAuthPlain : CodeAuth.t :=
  {| CodeAuth.sessions := ∅;
     CodeAuth.botSettings := TelegramBotSettings.mk "123:abc" None;
     CodeAuth.options := tokenOptions |}.
Definition halfEntropy : Entropy :=
  {| math_random := 2 ^ 1073; random_bytes := fun _ => Byte.x2a |}.
Definition deeplink0 : DeeplinkAuth.t :=
  {| DeeplinkAuth.sessions := ∅;
     DeeplinkAuth.botSettings := TelegramBotSettings.mk "123:abc" (Some "demo_bot");
     DeeplinkAuth.options := callbackOptions |}.
Definition codeAuth0 : CodeAuth.t :=
  {| CodeAuth.sessions := ∅;
     CodeAuth.botSettings := TelegramBotSettings.mk "123:abc" (Some "demo_bot");
     CodeAuth.options := callbackOptions |}.

Definition twoFAOptions : TwoFAAuth.TwoFAOptions :=
  {| TwoFAAuth.base := callbackOptions;
     TwoFAAuth.opt_codeLifetime := None;
     TwoFAAuth.opt_codeLength := None;
     TwoFAAuth.opt_maxAttempts := None |}.

Definition twoFA0 : TwoFAAuth.t :=
  {| TwoFAAuth.sessions := ∅; TwoFAAuth.attempts := ∅;
     TwoFAAuth.botSettings := TelegramBotSettings.mk "123:abc" (Some "demo_bot");
     TwoFAAuth.options := callbackOptions;
     TwoFAAuth.codeLifetime := 300000;
     TwoFAAuth.codeLength := 6;
     TwoFAAuth.maxAttempts := 3 |}.

(** The instance after [start2FA(42)] at time 1000, whose code is 550000. *)
Definition twoFA1 : TwoFAAuth.t :=
  (TwoFAAuth.start2FA 1000 1000 halfEntropy (JNum 42) None false twoFA0).1.2.

(** Three wrong codes for subject 42. *)
Definition threeWrong : list TwoFAAuth.Call :=
  [TwoFAAuth.Verify2FA 2000 (JNum 42) "000000";
   TwoFAAuth.Verify2FA 3000 (JNum 42) "000000";
   TwoFAAuth.Verify2FA 4000 (JNum 42) "000000"].

(** A stand-in for the two digest functions, to evaluate the widget
    check on concrete payloads: the "key" is the token's length and the
    "digest" is the key's size followed by the message. *)
Definition exampleCrypto : Crypto :=
  {| sha256 := fun s => repeat Byte.x00 (String.length s);
     hmac_sha256_hex := fun key msg => pretty (length key) +:+ ":" +:+ msg |}.

Definition widget0 : WidgetAuth.t :=
  {| WidgetAuth.options := callbackOptions;
     WidgetAuth.validateSignatureOption := true |}.

Definition newline : string := String (ascii_of_N 10) EmptyString.

(** U+00A0, the no-break space. *)
Definition nbsp : string :=
  String (ascii_of_N 194) (String (ascii_of_N 160) EmptyString).

(** A payload with an empty [username]. *)
Definition payload0 : gmap string JsValue :=
  list_to_map
    [("id", JNum 7); ("first_name", JStr "Ann"); ("username", JStr EmptyString);
     ("auth_date", JNum 1700000000);
     ("hash", JStr ("7:auth_date=1700000000" +:+ newline +:+ "first_name=Ann"
                      +:+ newline +:+ "id=7"))].

Definition widgetOptionsNoCheck : WidgetAuth.WidgetAuthOptions :=
  {| WidgetAuth.base := callbackOptions;
     WidgetAuth.opt_validateSignature := Some false |}.

Definition widgetNoCheck : WidgetAuth.t :=
  {| WidgetAuth.options := callbackOptions;
     WidgetAuth.validateSignatureOption := false |}.

(** [payload0] with a hash that is not the digest. *)
Definition payloadBadHash : gmap string JsValue :=
  <["hash" := JStr "deadbeef"]> payload0.

Definition widgetOptionsNoToken : WidgetAuth.WidgetAuthOptions :=
  {| WidgetAuth.base := noCredentials;
     WidgetAuth.opt_validateSignature := None |}.

Definition sessionS1 : SessionManager.Session :=
  {| SessionManager.id := "s1"; SessionManager.userData := alice;
     SessionManager.createdAt := 0; SessionManager.lastActivity := 0;
     SessionManager.metadata := None |}.

Definition manager0 : SessionManager.t :=
  {| SessionManager.sessions := {[ "s1" := sessionS1 ]};
     SessionManager.sessionLifetime := 1000 |}.


(** The webhook integration [new WebhookIntegration({ botToken:
    '123:abc', webhookBaseUrl })] builds. *)
Definition webhook0 : WebhookIntegration.t :=
  {| WebhookIntegration.deeplinkAuth :=
       {| DeeplinkAuth.sessions := ∅;
          DeeplinkAuth.botSettings := TelegramBotSettings.mk "123:abc" None;
          DeeplinkAuth.options := WebhookIntegration.authOptions "123:abc" |};
     WebhookIntegration.codeAuth :=
       {| CodeAuth.sessions := ∅;
          CodeAuth.botSettings := TelegramBotSettings.mk "123:abc" None;
          CodeAuth.options := WebhookIntegration.authOptions "123:abc" |};
     WebhookIntegration.sessionManager := Some (SessionManager.construct None);
     WebhookIntegration.useSessionManager := true;
     WebhookIntegration.userOnAuth := fun _ => None |}.

(** Options for the factory: callbacks as transport, [onLogin]
    supplied, the code, deeplink and widget methods and 2FA with a
    timeout of 60 s. *)
Definition factoryOptions : TelegramAuthOptions.t :=
  TelegramAuthOptions.mk "demo_bot" "123:abc" "https://app.example"
    false None true false
    (AuthMethodsOptions.mk true true false true)
    (Some (TwoFactorOptions.mk true (Some 60))) None None.

Definition factoryCodeAuth : CodeAuth.t :=
  {| CodeAuth.sessions := ∅;
     CodeAuth.botSettings := TelegramBotSettings.mk "123:abc" (Some "demo_bot");
     CodeAuth.options := baseAuthOptions factoryOptions |}.

Definition factoryWidgetAuth : WidgetAuth.t :=
  {| WidgetAuth.options := baseAuthOptions factoryOptions;
     WidgetAuth.validateSignatureOption := true |}.

Definition factoryTwoFA : TwoFAAuth.t :=
  {| TwoFAAuth.sessions := ∅; TwoFAAuth.attempts := ∅;
     TwoFAAuth.botSettings := TelegramBotSettings.mk "123:abc" (Some "demo_bot");
     TwoFAAuth.options := baseAuthOptions factoryOptions;
     TwoFAAuth.codeLifetime := 300000;
     TwoFAAuth.codeLength := 6;
     TwoFAAuth.maxAttempts := 3 |}.

(** What [createTelegramAuth(factoryOptions)] returns. *)
Definition factoryAuth : TGAuth.t :=
  TGAuth.mk (Some factoryCodeAuth)
    (Some {| DeeplinkAuth.sessions := ∅;
             DeeplinkAuth.botSettings :=
               TelegramBotSettings.mk "123:abc" (Some "demo_bot");
             DeeplinkAuth.options := baseAuthOptions factoryOptions |})
    None (Some factoryWidgetAuth) (Some factoryTwoFA)
    (SessionManager.construct None).

(** A logger with one transport, from [WARN] upwards, and three entries. *)
Definition logger1 : Logger.t :=
  {| Logger.transports := ["memory"]; Logger.minLevel := LogEntry.WARN;
     Logger.enabled := true; Logger.callerArray := false |}.
Definition entryInfo : LogEntry.t :=
  LogEntry.mk 1 LogEntry.INFO LogEntry.AUTH "started" JUndefined.
Definition entryWarn : LogEntry.t :=
  LogEntry.mk 2 LogEntry.WARN LogEntry.AUTH "wrong code" JUndefined.
Definition entryError : LogEntry.t :=
  LogEntry.mk 3 LogEntry.ERROR LogEntry.SESSION "store failed" JUndefined.

(* ===================================================================== *)
(** ** JavaScript values: samples *)
(* ===================================================================== *)

Example parseInt_samples :
  parseInt (JStr "1700000000") = JNum 1700000000
  /\ parseInt (JNum 42) = JNum 42
  /\ parseInt (JStr "  -12px") = JNum (-12)
  /\ parseInt (JStr "0x1f") = JNum 31
  /\ parseInt (JStr "abc") = JNaN
  /\ parseInt (JBool true) = JNaN
  /\ parseInt (JInf false) = JNaN.
Proof. vm_compute. repeat split. Qed.

(** The white space skipped is that of Unicode; the integer read is
    rounded to a binary64 value; a number from 10^21 on is read through
    its exponent form. *)
Example parseInt_engine :
  parseInt (JStr (nbsp +:+ "5")) = JNum 5
  /\ parseInt (JStr "9007199254740993") = JNum 9007199254740992
  /\ parseInt (JNum (10 ^ 21)) = JNum 1
  /\ parseInt (JStr "1000000000000000000000") = JNum (10 ^ 21)
  /\ parseInt (JStr ("-1" +:+ String.string_of_list_ascii (repeat "0"%char 400)))
     = JInf true.
Proof. vm_compute. repeat split. Qed.

Example toString_samples :
  toString (JNum 1700000000) = "1700000000"
  /\ toString (JNum (-7)) = "-7"
  /\ toString (JNum (2 ^ 53)) = "9007199254740992"
  /\ toString (JNum (2 ^ 64)) = "18446744073709552000"
  /\ toString (JNum (10 ^ 21)) = "1e+21"
  /\ toString (JNum (- 2 ^ 70)) = "-1.1805916207174113e+21"
  /\ toString (JNum (2 ^ 1023)) = "8.98846567431158e+307".
Proof. vm_compute. repeat split. Qed.

Example trim_samples :
  trim "  550000 " = "550000"
  /\ trim (nbsp +:+ "550000" +:+ nbsp) = "550000"
  /\ trim ("a b" +:+ nbsp) = "a b"
  /\ trim "   " = EmptyString.
Proof. vm_compute. repeat split. Qed.

Example truthy_samples :
  truthy (JStr EmptyString) = false /\ truthy (JStr "0") = true
  /\ truthy (JNum 0) = false /\ truthy JNaN = false /\ truthy JNull = false
  /\ truthy JUndefined = false /\ truthy (JNum (-1)) = true.
Proof. repeat split. Qed.

(** A comparison with [NaN] is false: an unreadable date is not "old". *)
Example sub_gt_NaN : sub_gt (JNum 1700000000) JNaN 86400 = false.
Proof. reflexivity. Qed.

(* ===================================================================== *)
(** ** Facts on binary64 rounding *)
(* ===================================================================== *)

Module F64Facts.
Import F64.

Lemma rne_cases s v :
  rne s v = (v / 2 ^ s) * 2 ^ s \/ rne s v = (v / 2 ^ s + 1) * 2 ^ s.
Proof.
  unfold rne.
  repeat match goal with |- context [if ?b then _ else _] => destruct b end; auto.
Qed.

Lemma rne_mono s v w : 1 <= s -> 0 <= v -> v <= w -> rne s v <= rne s w.
Proof.
  intros Hs Hv Hvw.
  assert (Hu : 0 < 2 ^ s) by (apply Z.pow_pos_nonneg; lia).
  assert (Hh : 2 ^ s = 2 * 2 ^ (s - 1)).
  { replace s with (1 + (s - 1)) at 1 by lia. rewrite Z.pow_add_r by lia. reflexivity. }
  pose proof (Z.div_mod v (2 ^ s) ltac:(lia)) as Ev.
  pose proof (Z.div_mod w (2 ^ s) ltac:(lia)) as Ew.
  pose proof (Z.mod_pos_bound v (2 ^ s) Hu) as Bv.
  pose proof (Z.mod_pos_bound w (2 ^ s) Hu) as Bw.
  pose proof (Z.div_le_mono v w (2 ^ s) Hu Hvw) as Hq.
  unfold rne.
  set (u := 2 ^ s) in *. set (h := 2 ^ (s - 1)) in *.
  set (qv := v / u) in *. set (qw := w / u) in *.
  set (rv := v mod u) in *. set (rw := w mod u) in *.
  destruct (Z.eq_dec qv qw) as [E|E].
  - rewrite E in *. assert (rv <= rw) by nia.
    destruct (Z.ltb_spec rv h), (Z.ltb_spec rw h), (Z.ltb_spec h rv), (Z.ltb_spec h rw);
      destruct (Z.even qw); nia.
  - assert (qv + 1 <= qw) by lia.
    destruct (rv <? h), (rw <? h), (h <? rv), (h <? rw), (Z.even qv), (Z.even qw); nia.
Qed.

Lemma round53_binade v : 2 ^ 53 <= v ->
  2 ^ Z.log2 v <= round53 v <= 2 ^ (Z.log2 v + 1).
Proof.
  intros Hv. unfold round53.
  destruct (Z.ltb_spec v (2 ^ 53)); [lia|].
  assert (0 < v) by lia.
  pose proof (Z.log2_spec v ltac:(lia)) as [Hlo Hhi].
  assert (Hb : 53 <= Z.log2 v).
  { apply Z.log2_le_pow2; lia. }
  set (b := Z.log2 v) in *. set (s := b - 52).
  assert (Hu : 0 < 2 ^ s) by (apply Z.pow_pos_nonneg; lia).
  assert (E1 : 2 ^ b = 2 ^ 52 * 2 ^ s).
  { rewrite <- Z.pow_add_r by lia. f_equal. lia. }
  assert (E2 : 2 ^ (b + 1) = 2 ^ 53 * 2 ^ s).
  { rewrite <- Z.pow_add_r by lia. f_equal. lia. }
  replace (Z.succ b) with (b + 1) in Hhi by lia.
  assert (Hq1 : 2 ^ 52 <= v / 2 ^ s).
  { apply Z.div_le_lower_bound; lia. }
  assert (Hq2 : v / 2 ^ s < 2 ^ 53).
  { apply Z.div_lt_upper_bound; lia. }
  rewrite E1, E2.
  destruct (rne_cases s v) as [-> | ->]; nia.
Qed.

Lemma round53_mono v w : 0 <= v -> v <= w -> round53 v <= round53 w.
Proof.
  intros Hv Hvw.
  destruct (Z.lt_ge_cases w (2 ^ 53)) as [Hw|Hw].
  - unfold round53. destruct (Z.ltb_spec v (2 ^ 53)), (Z.ltb_spec w (2 ^ 53)); lia.
  - destruct (Z.lt_ge_cases v (2 ^ 53)) as [Hv'|Hv'].
    + pose proof (round53_binade w Hw) as [Hlo _].
      assert (2 ^ 53 <= 2 ^ Z.log2 w).
      { apply Z.pow_le_mono_r; [lia|]. apply Z.log2_le_pow2; lia. }
      unfold round53 at 1. destruct (Z.ltb_spec v (2 ^ 53)); lia.
    + pose proof (Z.log2_le_mono v w Hvw) as Hl.
      destruct (Z.eq_dec (Z.log2 v) (Z.log2 w)) as [E|E].
      * unfold round53. destruct (Z.ltb_spec v (2 ^ 53)), (Z.ltb_spec w (2 ^ 53)); try lia.
        rewrite E. apply rne_mono; try lia.
        assert (53 <= Z.log2 w) by (apply Z.log2_le_pow2; lia). lia.
      * pose proof (round53_binade v Hv') as [_ Hhi].
        pose proof (round53_binade w Hw) as [Hlo _].
        assert (2 ^ (Z.log2 v + 1) <= 2 ^ Z.log2 w).
        { apply Z.pow_le_mono_r; lia. }
        lia.
Qed.

Lemma unit_interval_max m : unit_interval m -> 0 <= m <= below_one.
Proof.
  intros [[H0 H1] Hr]. split; [exact H0|].
  unfold representable, round53 in Hr.
  destruct (Z.ltb_spec m (2 ^ 53)) as [Hs|Hs].
  - transitivity (2 ^ 53); [lia|]. unfold below_one, scale. vm_compute. discriminate.
  - assert (0 < m) by lia.
    pose proof (Z.log2_spec m ltac:(lia)) as [Hlo Hhi].
    assert (Hb : 53 <= Z.log2 m) by (apply Z.log2_le_pow2; lia).
    assert (Hb' : Z.log2 m < 1074).
    { apply Z.log2_lt_pow2; [lia|exact H1]. }
    set (b := Z.log2 m) in *. set (s := b - 52) in *.
    assert (Hu : 0 < 2 ^ s) by (apply Z.pow_pos_nonneg; lia).
    destruct (Z.eq_dec s 1021) as [Es|Es].
    + (* m is a multiple of 2^1021 below 2^1074 *)
      rewrite Es in *.
      assert (Hsc : scale = 2 ^ 53 * 2 ^ 1021) by (vm_compute; reflexivity).
      unfold below_one. rewrite Hsc in *.
      set (u := 2 ^ 1021) in *.
      destruct (rne_cases 1021 m) as [E|E]; fold u in E; rewrite Hr in E.
      * assert (m / u < 2 ^ 53) by (apply Z.div_lt_upper_bound; lia). nia.
      * assert (m / u + 1 < 2 ^ 53 \/ 2 ^ 53 <= m / u + 1) as [?|?] by lia; nia.
    + assert (Hle : 2 ^ (Z.succ b) <= 2 ^ 1073) by (apply Z.pow_le_mono_r; lia).
      transitivity (2 ^ 1073); [lia|]. unfold below_one, scale. vm_compute. discriminate.
Qed.

(** [Math.floor(lo + Math.random() * k)] stays within [lo, hi] as soon
    as it does at the two ends of the unit interval. *)
Lemma floor_affine_range lo k hi m :
  unit_interval m -> 0 <= k -> 0 <= lo ->
  of_int lo = lo * scale ->
  representable (lo * scale) ->
  floor (add (lo * scale) (round53 (below_one * k))) <= hi ->
  lo <= floor (add (of_int lo) (mul_int m k)) <= hi.
Proof.
  intros Hm Hk Hlo Eint Hrep Hhi.
  apply unit_interval_max in Hm as [Hm0 Hm1].
  assert (Hsc : 0 < scale) by reflexivity.
  rewrite Eint. unfold mul_int, add, floor in *.
  assert (Hy0 : 0 <= round53 (m * k)).
  { change 0 with (round53 0). apply round53_mono; nia. }
  assert (Hy1 : round53 (m * k) <= round53 (below_one * k)).
  { apply round53_mono; nia. }
  split.
  - apply Z.div_le_lower_bound; [exact Hsc|].
    unfold representable in Hrep.
    transitivity (round53 (lo * scale)); [lia|].
    apply round53_mono; nia.
  - etransitivity; [|exact Hhi].
    apply Z.div_le_mono; [exact Hsc|].
    apply round53_mono; nia.
Qed.

End F64Facts.

(* ===================================================================== *)
(** ** Single use of deeplink tokens and codes *)
(* ===================================================================== *)

(** Closes a goal on the entry of a value that the call at hand leaves
    alone: either the map is unchanged, or another key was written. *)
Ltac entry_kept Hs :=
  cbn [fst snd];
  first [ exact Hs
        | rewrite lookup_insert_ne;
          [ exact Hs | first [ congruence | intros ->; congruence ] ] ].

Module DeeplinkFacts.
Import DeeplinkAuth.

Lemma deeplink_handleAuth_unused d v s u :
  sessions d !! v = Some s -> used s = false ->
  exists d', handleAuth v u d = (true, d', sendResult d u)
    /\ sessions d' !! v
       = Some {| token := token s; createdAt := createdAt s;
                 used := true; userData := Some u |}.
Proof.
  intros Hs Hu. unfold handleAuth. rewrite Hs, Hu.
  eexists; split; [reflexivity|]. apply lookup_insert_eq.
Qed.

Lemma deeplink_handleAuth_refused d v u :
  (forall s, sessions d !! v = Some s -> used s = true) ->
  handleAuth v u d = (false, d, []).
Proof.
  intros H. unfold handleAuth.
  destruct (sessions d !! v) as [s|] eqn:E; [|reflexivity].
  rewrite (H s eq_refl). reflexivity.
Qed.

(** A used artifact stays as it is under every call that does not
    register its value again. *)
Lemma deeplink_step_keeps_used c d v s :
  generates c ≠ Some v ->
  sessions d !! v = Some s -> used s = true ->
  sessions (step c d) !! v = Some s.
Proof.
  intros Hg Hs Hu.
  destruct c as [now e|tok u|tok]; cbn [step generates] in *.
  - unfold generateDeeplink. cbn [snd sessions]. entry_kept Hs.
  - unfold handleAuth.
    destruct (sessions d !! tok) as [s'|] eqn:E; [|entry_kept Hs].
    destruct (used s') eqn:Eu; cbn [fst snd sessions]; entry_kept Hs.
  - unfold invalidateDeeplink.
    destruct (sessions d !! tok) as [s'|] eqn:E; [|exact Hs].
    cbn [sessions]. destruct (decide (tok = v)) as [->|Hne].
    + rewrite lookup_insert_eq. rewrite Hs in E. injection E as <-.
      destruct s; cbn in *; subst; reflexivity.
    + entry_kept Hs.
Qed.

Lemma deeplink_run_keeps_used cs : forall d v s,
  Forall (fun c => generates c ≠ Some v) cs ->
  sessions d !! v = Some s -> used s = true ->
  sessions (run cs d) !! v = Some s.
Proof.
  induction cs as [|c cs IH]; intros d v s Hall Hs Hu; [exact Hs|].
  inversion Hall as [|? ? Hc Hcs]; subst. cbn [run foldl].
  apply IH; [exact Hcs| |exact Hu].
  apply deeplink_step_keeps_used; assumption.
Qed.

(** A value that is not registered stays so under every call that does
    not generate it. *)
Lemma deeplink_step_keeps_absent c d v :
  generates c ≠ Some v ->
  sessions d !! v = None -> sessions (step c d) !! v = None.
Proof.
  intros Hg Hs.
  destruct c as [now e|tok u|tok]; cbn [step generates] in *.
  - unfold generateDeeplink. cbn [snd sessions]. entry_kept Hs.
  - unfold handleAuth.
    destruct (sessions d !! tok) as [s'|] eqn:E; [|entry_kept Hs].
    destruct (used s'); cbn [fst snd sessions]; entry_kept Hs.
  - unfold invalidateDeeplink.
    destruct (sessions d !! tok) as [s'|] eqn:E; [|exact Hs].
    cbn [sessions]. entry_kept Hs.
Qed.

Lemma deeplink_run_keeps_absent cs : forall d v,
  Forall (fun c => generates c ≠ Some v) cs ->
  sessions d !! v = None -> sessions (run cs d) !! v = None.
Proof.
  induction cs as [|c cs IH]; intros d v Hall Hs; [exact Hs|].
  inversion Hall; subst. cbn [run foldl]. apply IH; [assumption|].
  apply deeplink_step_keeps_absent; assumption.
Qed.

Lemma deeplink_new_empty o d : new o = Ret d -> sessions d = ∅.
Proof.
  unfold new. intros H.
  destruct (AuthTransportOptions.botSettings o);
    [|destruct (truthy_string (AuthTransportOptions.botToken o))];
    inversion H; reflexivity.
Qed.

End DeeplinkFacts.

Module CodeFacts.
Import CodeAuth.

Lemma code_handleAuth_unused c v s u :
  sessions c !! v = Some s -> used s = false ->
  exists c', handleAuth v u c = (true, c', sendResult c u)
    /\ sessions c' !! v
       = Some {| code := code s; createdAt := createdAt s;
                 used := true; userData := Some u |}.
Proof.
  intros Hs Hu. unfold handleAuth. rewrite Hs, Hu.
  eexists; split; [reflexivity|]. apply lookup_insert_eq.
Qed.

Lemma code_handleAuth_refused c v u :
  (forall s, sessions c !! v = Some s -> used s = true) ->
  handleAuth v u c = (false, c, []).
Proof.
  intros H. unfold handleAuth.
  destruct (sessions c !! v) as [s|] eqn:E; [|reflexivity].
  rewrite (H s eq_refl). reflexivity.
Qed.

Lemma code_step_keeps_used k c v s :
  generates k ≠ Some v ->
  sessions c !! v = Some s -> used s = true ->
  sessions (step k c) !! v = Some s.
Proof.
  intros Hg Hs Hu.
  destruct k as [now e|cd u|cd]; cbn [step generates] in *.
  - unfold generateCode. cbn [snd sessions].
    generalize dependent (freshCode e). intros fresh Hfresh. entry_kept Hs.
  - unfold handleAuth.
    destruct (sessions c !! cd) as [s'|] eqn:E; [|entry_kept Hs].
    destruct (used s') eqn:Eu; cbn [fst snd sessions]; entry_kept Hs.
  - unfold invalidateCode.
    destruct (sessions c !! cd) as [s'|] eqn:E; [|exact Hs].
    cbn [sessions]. destruct (decide (cd = v)) as [->|Hne].
    + rewrite lookup_insert_eq. rewrite Hs in E. injection E as <-.
      destruct s; cbn in *; subst; reflexivity.
    + entry_kept Hs.
Qed.

Lemma code_run_keeps_used ks : forall c v s,
  Forall (fun k => generates k ≠ Some v) ks ->
  sessions c !! v = Some s -> used s = true ->
  sessions (run ks c) !! v = Some s.
Proof.
  induction ks as [|k ks IH]; intros c v s Hall Hs Hu; [exact Hs|].
  inversion Hall as [|? ? Hk Hks]; subst. cbn [run foldl].
  apply IH; [exact Hks| |exact Hu].
  apply code_step_keeps_used; assumption.
Qed.

Lemma code_step_keeps_absent k c v :
  generates k ≠ Some v ->
  sessions c !! v = None -> sessions (step k c) !! v = None.
Proof.
  intros Hg Hs.
  destruct k as [now e|cd u|cd]; cbn [step generates] in *.
  - unfold generateCode. cbn [snd sessions].
    generalize dependent (freshCode e). intros fresh Hfresh. entry_kept Hs.
  - unfold handleAuth.
    destruct (sessions c !! cd) as [s'|] eqn:E; [|entry_kept Hs].
    destruct (used s'); cbn [fst snd sessions]; entry_kept Hs.
  - unfold invalidateCode.
    destruct (sessions c !! cd) as [s'|] eqn:E; [|exact Hs].
    cbn [sessions]. entry_kept Hs.
Qed.

Lemma code_run_keeps_absent ks : forall c v,
  Forall (fun k => generates k ≠ Some v) ks ->
  sessions c !! v = None -> sessions (run ks c) !! v = None.
Proof.
  induction ks as [|k ks IH]; intros c v Hall Hs; [exact Hs|].
  inversion Hall; subst. cbn [run foldl]. apply IH; [assumption|].
  apply code_step_keeps_absent; assumption.
Qed.

Lemma code_new_empty o c : new o = Ret c -> sessions c = ∅.
Proof.
  unfold new. intros H.
  destruct (AuthTransportOptions.botSettings o);
    [|destruct (truthy_string (AuthTransportOptions.botToken o))];
    inversion H; reflexivity.
Qed.

End CodeFacts.

Example deeplink_scenario :
  DeeplinkAuth.new callbackOptions = Ret deeplink0 /\
  (DeeplinkAuth.generateDeeplink 1000 halfEntropy deeplink0).1
  = "https://t.me/demo_bot?start=2a2a2a2a2a2a2a2a2a2a2a2a2a2a2a2a" /\
  let d1 := (DeeplinkAuth.generateDeeplink 1000 halfEntropy deeplink0).2 in
  let r1 := DeeplinkAuth.handleAuth "2a2a2a2a2a2a2a2a2a2a2a2a2a2a2a2a" alice d1 in
  let r2 := DeeplinkAuth.handleAuth "2a2a2a2a2a2a2a2a2a2a2a2a2a2a2a2a" bob r1.1.2 in
  r1.1.1 = true /\ r1.2 = [CallOnAuth alice]
  /\ r2 = (false, r1.1.2, [])
  /\ (DeeplinkAuth.handleAuth "2a2a" alice d1).1.1 = false.
Proof. vm_compute. repeat split. Qed.

Example code_scenario :
  (CodeAuth.generateCode 1000 halfEntropy codeAuth0).1 = "550000" /\
  let c1 := (CodeAuth.generateCode 1000 halfEntropy codeAuth0).2 in
  let r1 := CodeAuth.handleAuth "550000" alice c1 in
  let r2 := CodeAuth.handleAuth "550000" bob r1.1.2 in
  r1.1.1 = true /\ r1.2 = [CallOnAuth alice] /\ r2 = (false, r1.1.2, []).
Proof. vm_compute. repeat split. Qed.

(** C1.  An artifact is not redeemed once only: [generateCode] does not
    look at the store, so a code that comes out a second time replaces
    the used entry by a fresh one, and [handleAuth] returns [true] for the
    code again.  On an instance built with a token and no handler,
    [Math.random()] gives 0.5 and [generateCode] returns 550000;
    [handleAuth('550000', alice)] returns [true], marks the code used and
    stores the identity; a second [handleAuth] for the code returns
    [false] and changes nothing; [generateCode] returns 550000 again
    (the same number from [Math.random()]) and registers it unused; and
    [handleAuth('550000', bob)] returns [true] once more, whatever the
    handlers would do, since none is called. *)
Theorem regenerated_code_redeemed_twice :
  CodeAuth.new tokenOptions = Ret codeAuthPlain
  /\ let g1 := CodeAuth.generateCode 1000 halfEntropy codeAuthPlain in
     let r1 := CodeAuth.handleAuth g1.1 alice g1.2 in
     let r2 := CodeAuth.handleAuth g1.1 bob r1.1.2 in
     let g2 := CodeAuth.generateCode 2000 halfEntropy r2.1.2 in
     let r3 := CodeAuth.handleAuth g1.1 bob g2.2 in
     g1.1 = "550000"
     /\ r1.1.1 = true /\ r1.2 = []
     /\ CodeAuth.sessions r1.1.2 !! "550000"
        = Some {| CodeAuth.code := "550000"; CodeAuth.createdAt := 1000;
                  CodeAuth.used := true; CodeAuth.userData := Some alice |}
     /\ r2 = (false, r1.1.2, [])
     /\ g2.1 = g1.1
     /\ CodeAuth.sessions g2.2 !! "550000"
        = Some {| CodeAuth.code := "550000"; CodeAuth.createdAt := 2000;
                  CodeAuth.used := false; CodeAuth.userData := None |}
     /\ r3.1.1 = true /\ r3.2 = []
     /\ CodeAuth.sessions r3.1.2 !! "550000"
        = Some {| CodeAuth.code := "550000"; CodeAuth.createdAt := 2000;
                  CodeAuth.used := true; CodeAuth.userData := Some bob |}
     /\ (forall h : Handlers,
           CodeAuth.handleAuthWith h g1.1 bob g2.2 = (Ret true, r3.1.2, [])).
Proof.
  split; [reflexivity|].
  cbv zeta.
  do 10 (split; [vm_compute; reflexivity|]).
  intros h. vm_compute. reflexivity.
Qed.

(* ===================================================================== *)
(** ** Two-factor challenges *)
(* ===================================================================== *)

Module TwoFAFacts.
Import TwoFAAuth.

(** The four guards of [verify2FA], each taken alone. *)
Lemma verify2FA_missing now uid code a :
  sessions a !! sessionKey uid = None ->
  verify2FA now uid code a
  = (false, a, [Log WARN ("2FA session not found for user " +:+ sessionKey uid)]).
Proof. intros H. unfold verify2FA. rewrite H. reflexivity. Qed.

Lemma verify2FA_expired now uid code a s :
  sessions a !! sessionKey uid = Some s -> expiresAt s < now ->
  verify2FA now uid code a
  = (false, a, [Log WARN ("2FA code expired for user " +:+ sessionKey uid)]).
Proof.
  intros H Hexp. unfold verify2FA. rewrite H.
  destruct (Z.ltb_spec (expiresAt s) now); [reflexivity|lia].
Qed.

Lemma verify2FA_used now uid code a s :
  sessions a !! sessionKey uid = Some s -> now <= expiresAt s ->
  used s = true ->
  verify2FA now uid code a
  = (false, a, [Log WARN ("2FA code already used for user " +:+ sessionKey uid)]).
Proof.
  intros H Hexp Hu. unfold verify2FA. rewrite H, Hu.
  destruct (Z.ltb_spec (expiresAt s) now); [lia|reflexivity].
Qed.

Lemma verify2FA_exhausted now uid code a s :
  sessions a !! sessionKey uid = Some s -> now <= expiresAt s ->
  used s = false ->
  maxAttempts a <= attemptsOf a (sessionKey uid) ->
  verify2FA now uid code a
  = (false, a, [Log WARN ("Too many 2FA attempts for user " +:+ sessionKey uid)]).
Proof.
  intros H Hexp Hu Hmax. unfold verify2FA. rewrite H, Hu.
  destruct (Z.ltb_spec (expiresAt s) now); [lia|].
  destruct (Z.leb_spec (maxAttempts a) (attemptsOf a (sessionKey uid)));
    [reflexivity|lia].
Qed.

(** Past the guards: the counter is incremented, then the codes are
    compared. *)
Lemma verify2FA_compared now uid code a s :
  sessions a !! sessionKey uid = Some s -> now <= expiresAt s ->
  used s = false ->
  attemptsOf a (sessionKey uid) < maxAttempts a ->
  let r := verify2FA now uid code a in
  attempts r.1.2
    = <[sessionKey uid := attemptsOf a (sessionKey uid) + 1]> (attempts a)
  /\ r.1.1 = bool_decide (TwoFAAuth.code s = code)
  /\ (r.1.1 = false -> sessions r.1.2 = sessions a)
  /\ (r.1.1 = true ->
      sessions r.1.2
      = <[sessionKey uid := {| userId := userId s; code := TwoFAAuth.code s;
                               createdAt := createdAt s;
                               expiresAt := expiresAt s;
                               used := true; verified := true;
                               userData := userData s |}]> (sessions a)).
Proof.
  intros H Hexp Hu Hmax r. subst r. unfold verify2FA. rewrite H, Hu.
  destruct (Z.ltb_spec (expiresAt s) now); [lia|].
  destruct (Z.leb_spec (maxAttempts a) (attemptsOf a (sessionKey uid))); [lia|].
  destruct (String.eqb_spec (TwoFAAuth.code s) code) as [E|E]; cbn [negb fst snd].
  - rewrite bool_decide_eq_true_2 by exact E.
    split; [reflexivity|]. split; [reflexivity|].
    split; [discriminate|reflexivity].
  - rewrite bool_decide_eq_false_2 by exact E.
    split; [reflexivity|]. split; [reflexivity|].
    split; [reflexivity|discriminate].
Qed.

(** Configuration is never changed by a call. *)
Lemma step_maxAttempts c a : maxAttempts (step c a) = maxAttempts a.
Proof.
  destruct c as [n1 n2 e uid ud sm|now uid code|uid|uid]; cbn [step];
    try reflexivity.
  unfold verify2FA.
  destruct (sessions a !! sessionKey uid) as [s|]; [|reflexivity].
  destruct (expiresAt s <? now); [reflexivity|].
  destruct (used s); [reflexivity|].
  destruct (maxAttempts a <=? attemptsOf a (sessionKey uid)); [reflexivity|].
  destruct (negb (String.eqb (TwoFAAuth.code s) code)); reflexivity.
Qed.

(** A subject is locked when it has no challenge or its counter has
    reached the maximum. *)
Lemma verify2FA_locked now uid code a :
  (sessions a !! sessionKey uid = None
   \/ maxAttempts a <= attemptsOf a (sessionKey uid)) ->
  (verify2FA now uid code a).1.1 = false /\ (verify2FA now uid code a).1.2 = a.
Proof.
  intros Hl. unfold verify2FA.
  destruct (sessions a !! sessionKey uid) as [s|] eqn:Hs; [|split; reflexivity].
  destruct Hl as [Hl|Hl]; [discriminate|].
  destruct (expiresAt s <? now); [split; reflexivity|].
  destruct (used s); [split; reflexivity|].
  destruct (Z.leb_spec (maxAttempts a) (attemptsOf a (sessionKey uid)));
    [split; reflexivity|lia].
Qed.

Lemma step_keeps_locked c a key :
  starts c ≠ Some key ->
  (sessions a !! key = None \/ maxAttempts a <= attemptsOf a key) ->
  (sessions (step c a) !! key = None
   \/ maxAttempts (step c a) <= attemptsOf (step c a) key).
Proof.
  intros Hc Hl. rewrite step_maxAttempts.
  destruct c as [n1 n2 e uid ud sm|now uid code|uid|uid];
    cbn [step starts] in *.
  - assert (sessionKey uid ≠ key) as Hne by congruence.
    unfold start2FA, attemptsOf. cbn [fst snd sessions attempts].
    generalize (generateCode (codeLength a) e). intros k.
    rewrite !(lookup_insert_ne _ _ _ _ Hne). exact Hl.
  - destruct (decide (sessionKey uid = key)) as [<-|Hne].
    + destruct (verify2FA_locked now uid code a Hl) as [_ ->]. exact Hl.
    + unfold verify2FA.
      destruct (sessions a !! sessionKey uid) as [s|]; [|exact Hl].
      destruct (expiresAt s <? now); [exact Hl|].
      destruct (used s); [exact Hl|].
      destruct (maxAttempts a <=? attemptsOf a (sessionKey uid)); [exact Hl|].
      destruct (negb (String.eqb (TwoFAAuth.code s) code));
        unfold attemptsOf in *;
        cbn [fst snd sessions attempts with_attempts with_sessions];
        rewrite ?(lookup_insert_ne _ _ _ _ Hne); exact Hl.
  - exact Hl.
  - unfold reset2FA, attemptsOf. cbn [fst sessions attempts].
    destruct (decide (sessionKey uid = key)) as [<-|Hne].
    + left. apply lookup_delete_eq.
    + rewrite !(lookup_delete_ne _ _ _ Hne). exact Hl.
Qed.

Lemma run_keeps_locked cs : forall a key,
  Forall (fun c => starts c ≠ Some key) cs ->
  (sessions a !! key = None \/ maxAttempts a <= attemptsOf a key) ->
  (sessions (run cs a) !! key = None
   \/ maxAttempts (run cs a) <= attemptsOf (run cs a) key).
Proof.
  induction cs as [|c cs IH]; intros a key Hall Hl; [exact Hl|].
  inversion Hall; subst. cbn [run foldl]. apply IH; [assumption|].
  apply step_keeps_locked; assumption.
Qed.

(** The invariant of the data model is kept by every call. *)
Lemma step_verified_implies_used c a :
  verified_implies_used a -> verified_implies_used (step c a).
Proof.
  intros Hinv key s.
  destruct c as [n1 n2 e uid ud sm|now uid code|uid|uid]; cbn [step].
  - unfold start2FA. cbn [fst snd sessions].
    generalize (generateCode (codeLength a) e). intros k.
    destruct (decide (sessionKey uid = key)) as [<-|Hne].
    + rewrite lookup_insert_eq. intros [= <-]. cbn. discriminate.
    + rewrite (lookup_insert_ne _ _ _ _ Hne). apply Hinv.
  - unfold verify2FA.
    destruct (sessions a !! sessionKey uid) as [s0|] eqn:Hs0; [|apply Hinv].
    destruct (expiresAt s0 <? now); [apply Hinv|].
    destruct (used s0); [apply Hinv|].
    destruct (maxAttempts a <=? attemptsOf a (sessionKey uid)); [apply Hinv|].
    destruct (negb (String.eqb (TwoFAAuth.code s0) code));
      cbn [fst snd sessions with_attempts with_sessions]; [apply Hinv|].
    destruct (decide (sessionKey uid = key)) as [<-|Hne].
    + rewrite lookup_insert_eq. intros [= <-]. reflexivity.
    + rewrite (lookup_insert_ne _ _ _ _ Hne). apply Hinv.
  - apply Hinv.
  - unfold reset2FA. cbn [fst sessions].
    intros Hs. apply lookup_delete_Some in Hs as [_ Hs]. exact (Hinv _ _ Hs).
Qed.

Lemma run_verified_implies_used cs : forall a,
  verified_implies_used a -> verified_implies_used (run cs a).
Proof.
  induction cs as [|c cs IH]; intros a Ha; [exact Ha|].
  cbn [run foldl]. apply IH, step_verified_implies_used, Ha.
Qed.

Lemma new_sessions o a : new o = Ret a -> sessions a = ∅ /\ attempts a = ∅.
Proof.
  unfold new. intros H.
  destruct (AuthTransportOptions.botSettings (base o));
    [|destruct (truthy_string (AuthTransportOptions.botToken (base o)))];
    inversion H; split; reflexivity.
Qed.

Lemma new_codeLength o a :
  new o = Ret a -> codeLength a = or_default (opt_codeLength o) 6.
Proof.
  unfold new. intros H.
  destruct (AuthTransportOptions.botSettings (base o));
    [|destruct (truthy_string (AuthTransportOptions.botToken (base o)))];
    inversion H; reflexivity.
Qed.

End TwoFAFacts.

Example twoFA_scenario :
  TwoFAAuth.new twoFAOptions = Ret twoFA0 /\
  (TwoFAAuth.start2FA 1000 1000 halfEntropy (JNum 42) None false twoFA0).1.1 = "550000" /\
  TwoFAAuth.attemptsOf (TwoFAAuth.run threeWrong twoFA1) "42" = 3 /\
  (TwoFAAuth.verify2FA 5000 (JNum 42) "550000" (TwoFAAuth.run threeWrong twoFA1)).1.1 = false /\
  (TwoFAAuth.verify2FA 5000 (JNum 42) "550000" twoFA1).1.1 = true /\
  (TwoFAAuth.verify2FA 5000 (JStr "42") "550000" twoFA1).2
  = [Try (CallOnAuth (AuthResult.mk (JStr "42") false (JStr "Unknown") JUndefined
                        JUndefined JUndefined JUndefined (JBool true)))
         ERROR "Error in onAuth callback";
     Log INFO "2FA verified successfully for user 42"].
Proof. vm_compute. repeat split. Qed.

(** C2.  [verify2FA] tests, in this order, that a challenge exists for the
    subject, that it has not expired, that it is not used and that the
    attempt counter is below [maxAttempts].  A failing guard returns
    [false] and leaves the instance, attempt counters included, as it
    was (the log entry tells which guard failed, the earlier one when
    several would).  Past the guards the subject's counter is
    incremented by one, no other counter changes, and the result is
    [true] exactly when the code equals the stored one. *)
Theorem verify2FA_guard_order (a : TwoFAAuth.t) (now : Z) (uid : JsValue)
    (code : string) :
  let key := TwoFAAuth.sessionKey uid in
  let r := TwoFAAuth.verify2FA now uid code a in
  (TwoFAAuth.sessions a !! key = None ->
   r = (false, a, [Log WARN ("2FA session not found for user " +:+ key)]))
  /\ (forall s : TwoFAAuth.TwoFASession,
      TwoFAAuth.sessions a !! key = Some s ->
      (TwoFAAuth.expiresAt s < now ->
       r = (false, a, [Log WARN ("2FA code expired for user " +:+ key)]))
      /\ (now <= TwoFAAuth.expiresAt s -> TwoFAAuth.used s = true ->
          r = (false, a, [Log WARN ("2FA code already used for user " +:+ key)]))
      /\ (now <= TwoFAAuth.expiresAt s -> TwoFAAuth.used s = false ->
          TwoFAAuth.maxAttempts a <= TwoFAAuth.attemptsOf a key ->
          r = (false, a, [Log WARN ("Too many 2FA attempts for user " +:+ key)]))
      /\ (now <= TwoFAAuth.expiresAt s -> TwoFAAuth.used s = false ->
          TwoFAAuth.attemptsOf a key < TwoFAAuth.maxAttempts a ->
          TwoFAAuth.attemptsOf r.1.2 key = TwoFAAuth.attemptsOf a key + 1
          /\ (forall k, k ≠ key ->
              TwoFAAuth.attempts r.1.2 !! k = TwoFAAuth.attempts a !! k)
          /\ (r.1.1 = true <-> TwoFAAuth.code s = code))).
Proof.
  intros key r. split.
  - apply TwoFAFacts.verify2FA_missing.
  - intros s Hs. repeat apply conj.
    + apply TwoFAFacts.verify2FA_expired; exact Hs.
    + apply TwoFAFacts.verify2FA_used; exact Hs.
    + apply TwoFAFacts.verify2FA_exhausted; exact Hs.
    + intros Hexp Hu Hmax.
      destruct (TwoFAFacts.verify2FA_compared now uid code a s Hs Hexp Hu Hmax)
        as (Ha & Hr & _).
      fold r in Ha, Hr. fold key in Ha. split; [|split].
      * unfold TwoFAAuth.attemptsOf at 1. rewrite Ha, lookup_insert_eq. reflexivity.
      * intros k Hk. rewrite Ha. apply lookup_insert_ne. congruence.
      * rewrite Hr. apply bool_decide_eq_true.
Qed.

Lemma verify2FA_guard_order_witness :
  TwoFAAuth.attemptsOf
    (TwoFAAuth.verify2FA 2000 (JNum 42) "000000" twoFA1).1.2 "42" = 0 + 1
  /\ ((TwoFAAuth.verify2FA 2000 (JNum 42) "000000" twoFA1).1.1 = true
      <-> "550000" = "000000").
Proof.
  pose proof (verify2FA_guard_order twoFA1 2000 (JNum 42) "000000") as [_ H].
  destruct (H {| TwoFAAuth.userId := JNum 42; TwoFAAuth.code := "550000";
                 TwoFAAuth.createdAt := 1000; TwoFAAuth.expiresAt := 301000;
                 TwoFAAuth.used := false; TwoFAAuth.verified := false;
                 TwoFAAuth.userData := None |})
    as (_ & _ & _ & Hcmp).
  { vm_compute. reflexivity. }
  destruct Hcmp as (Hn & _ & Hr).
  - vm_compute. discriminate.
  - reflexivity.
  - vm_compute. reflexivity.
  - split; [exact Hn|exact Hr].
Defined.

(** C3.  Once the attempt counter of a subject has reached
    [maxAttempts], every later [verify2FA] for the subject returns
    [false], whatever the code (the stored one included) and whatever
    calls came in between, as long as none of them is a [start2FA] for
    the subject.  A [start2FA] for the subject, on whatever instance [b]
    it is called, installs a fresh unused challenge and sets the
    counter to 0; the code it returns is then accepted (before expiry,
    and when [maxAttempts] is positive). *)
Theorem attempts_exhausted_until_restart (a : TwoFAAuth.t) (uid : JsValue) :
  TwoFAAuth.maxAttempts a <= TwoFAAuth.attemptsOf a (TwoFAAuth.sessionKey uid) ->
  (forall (cs : list TwoFAAuth.Call) (now : Z) (code : string),
      Forall (fun c => TwoFAAuth.starts c ≠ Some (TwoFAAuth.sessionKey uid)) cs ->
      (TwoFAAuth.verify2FA now uid code (TwoFAAuth.run cs a)).1.1 = false)
  /\ (forall (b : TwoFAAuth.t) (now1 now2 : Z) (e : Entropy)
             (ud : option AuthResult.t) (sm : bool),
      let r := TwoFAAuth.start2FA now1 now2 e uid ud sm b in
      TwoFAAuth.attempts r.1.2 !! TwoFAAuth.sessionKey uid = Some 0
      /\ TwoFAAuth.sessions r.1.2 !! TwoFAAuth.sessionKey uid
         = Some {| TwoFAAuth.userId := uid; TwoFAAuth.code := r.1.1;
                   TwoFAAuth.createdAt := now1;
                   TwoFAAuth.expiresAt := now2 + TwoFAAuth.codeLifetime b;
                   TwoFAAuth.used := false; TwoFAAuth.verified := false;
                   TwoFAAuth.userData := ud |}
      /\ (forall now : Z,
          now <= now2 + TwoFAAuth.codeLifetime b ->
          0 < TwoFAAuth.maxAttempts b ->
          (TwoFAAuth.verify2FA now uid r.1.1 r.1.2).1.1 = true)).
Proof.
  intros Hmax. split.
  - intros cs now code Hcs.
    apply TwoFAFacts.verify2FA_locked.
    apply TwoFAFacts.run_keeps_locked; [exact Hcs|right; exact Hmax].
  - intros b now1 now2 e ud sm r. subst r. unfold TwoFAAuth.start2FA.
    cbn [fst snd TwoFAAuth.attempts TwoFAAuth.sessions].
    generalize (TwoFAAuth.generateCode (TwoFAAuth.codeLength b) e). intros k.
    split; [apply lookup_insert_eq|]. split; [apply lookup_insert_eq|].
    intros now Hnow Hpos.
    match goal with
    | |- (TwoFAAuth.verify2FA _ _ _ ?x).1.1 = true => set (b' := x)
    end.
    assert (Hs : TwoFAAuth.sessions b' !! TwoFAAuth.sessionKey uid
                 = Some {| TwoFAAuth.userId := uid; TwoFAAuth.code := k;
                           TwoFAAuth.createdAt := now1;
                           TwoFAAuth.expiresAt := now2 + TwoFAAuth.codeLifetime b;
                           TwoFAAuth.used := false; TwoFAAuth.verified := false;
                           TwoFAAuth.userData := ud |})
      by apply lookup_insert_eq.
    assert (Hn : TwoFAAuth.attemptsOf b' (TwoFAAuth.sessionKey uid) = 0).
    { unfold TwoFAAuth.attemptsOf, b'. cbn [TwoFAAuth.attempts].
      rewrite lookup_insert_eq. reflexivity. }
    destruct (TwoFAFacts.verify2FA_compared now uid k b' _ Hs) as (_ & Hr & _).
    + exact Hnow.
    + reflexivity.
    + rewrite Hn. exact Hpos.
    + rewrite Hr. apply bool_decide_eq_true_2. reflexivity.
Qed.

Lemma attempts_exhausted_until_restart_witness :
  (TwoFAAuth.verify2FA 5000 (JNum 42) "550000"
     (TwoFAAuth.run [TwoFAAuth.Reset2FA (JNum 7); TwoFAAuth.IsVerified (JNum 42)]
        (TwoFAAuth.run threeWrong twoFA1))).1.1 = false.
Proof.
  assert (Hmax : TwoFAAuth.maxAttempts (TwoFAAuth.run threeWrong twoFA1)
                 <= TwoFAAuth.attemptsOf (TwoFAAuth.run threeWrong twoFA1)
                      (TwoFAAuth.sessionKey (JNum 42)))
    by (vm_compute; discriminate).
  refine (proj1 (attempts_exhausted_until_restart _ (JNum 42) Hmax) _ 5000 "550000" _).
  repeat constructor; discriminate.
Defined.

(** C9.  On an instance built by the constructor, after any sequence of
    [start2FA], [verify2FA], [reset2FA] and [isVerified] calls, every
    stored challenge with [verified = true] has [used = true]. *)
Theorem verified_challenge_is_used (o : TwoFAAuth.TwoFAOptions)
    (a : TwoFAAuth.t) (cs : list TwoFAAuth.Call)
    (key : string) (s : TwoFAAuth.TwoFASession) :
  TwoFAAuth.new o = Ret a ->
  TwoFAAuth.sessions (TwoFAAuth.run cs a) !! key = Some s ->
  TwoFAAuth.verified s = true ->
  TwoFAAuth.used s = true.
Proof.
  intros Ho. apply (TwoFAFacts.run_verified_implies_used cs a).
  intros k s'. destruct (TwoFAFacts.new_sessions o a Ho) as [-> _].
  rewrite lookup_empty. discriminate.
Qed.

Lemma verified_challenge_is_used_witness :
  TwoFAAuth.used
    {| TwoFAAuth.userId := JNum 42; TwoFAAuth.code := "550000";
       TwoFAAuth.createdAt := 1000; TwoFAAuth.expiresAt := 301000;
       TwoFAAuth.used := true; TwoFAAuth.verified := true;
       TwoFAAuth.userData := None |} = true.
Proof.
  apply (verified_challenge_is_used twoFAOptions twoFA0
           [TwoFAAuth.Start2FA 1000 1000 halfEntropy (JNum 42) None false;
            TwoFAAuth.Verify2FA 2000 (JNum 42) "550000"]
           "42").
  - vm_compute. reflexivity.
  - vm_compute. reflexivity.
  - reflexivity.
Defined.

(* ===================================================================== *)
(** ** Numeric codes *)
(* ===================================================================== *)

Lemma pretty_N_go_length (k : nat) : forall (x : N) (s : string),
  (10 ^ N.of_nat k <= x < 10 ^ N.of_nat (S k))%N ->
  String.length (pretty_N_go x s) = (S k + String.length s)%nat.
Proof.
  induction k as [|k IH]; intros x s [Hlo Hhi].
  - change (10 ^ N.of_nat 0)%N with 1%N in Hlo.
    change (10 ^ N.of_nat 1)%N with 10%N in Hhi.
    rewrite pretty_N_go_step by lia.
    assert (E : (x / 10 = 0)%N) by (apply N.div_small; lia).
    rewrite E, pretty_N_go_0. reflexivity.
  - rewrite pretty_N_go_step.
    2:{ assert (0 < 10 ^ N.of_nat (S k))%N by (apply N.neq_0_lt_0, N.pow_nonzero; lia). lia. }
    rewrite IH.
    + simpl. lia.
    + rewrite !Nat2N.inj_succ in *. rewrite !N.pow_succ_r' in *. split.
      * apply N.div_le_lower_bound; lia.
      * apply N.Div0.div_lt_upper_bound; lia.
Qed.

Lemma pretty_Z_length (k : nat) (n : Z) :
  10 ^ Z.of_nat k <= n < 10 ^ Z.of_nat (S k) ->
  String.length (pretty n) = S k.
Proof.
  intros [Hlo Hhi].
  assert (0 < n) by (pose proof (Z.pow_pos_nonneg 10 (Z.of_nat k)); lia).
  destruct n as [|p|p]; try lia.
  change (pretty (Z.pos p)) with (pretty (N.pos p)).
  unfold pretty, pretty_N. destruct (decide (N.pos p = 0%N)) as [?|_]; [discriminate|].
  rewrite (pretty_N_go_length k); [simpl; lia|].
  split.
  - apply N2Z.inj_le. rewrite N2Z.inj_pow, nat_N_Z. exact Hlo.
  - apply N2Z.inj_lt. rewrite N2Z.inj_pow, nat_N_Z. exact Hhi.
Qed.

Lemma generateNumber_range (L : Z) (e : Entropy) :
  1 <= L <= 8 -> F64.unit_interval (math_random e) ->
  10 ^ (L - 1) <= TwoFAAuth.generateNumber L e <= 10 ^ L - 1.
Proof.
  intros HL Hm. unfold TwoFAAuth.generateNumber.
  assert (L = 1 \/ L = 2 \/ L = 3 \/ L = 4 \/ L = 5 \/ L = 6 \/ L = 7 \/ L = 8)
    as Hcases by lia.
  repeat (destruct Hcases as [-> | Hcases]); [ .. | subst L ];
    (apply F64Facts.floor_affine_range;
     [ exact Hm | vm_compute; discriminate | vm_compute; discriminate
     | vm_compute; reflexivity | vm_compute; reflexivity | vm_compute; discriminate ]).
Qed.

(** C8.  For a length [L] with [1 <= L <= 8] and any value of
    [Math.random()], the code of [generateCode(L)] is the decimal form of
    an integer of [[10^(L-1), 10^L - 1]], so it has exactly [L] digits;
    and on an instance built without [codeLength], [start2FA] returns a
    code of 6 digits. *)
Theorem generateCode_digits (L : Z) (e : Entropy) :
  1 <= L <= 8 ->
  F64.unit_interval (math_random e) ->
  (exists n : Z,
      TwoFAAuth.generateCode L e = pretty n
      /\ 10 ^ (L - 1) <= n <= 10 ^ L - 1
      /\ String.length (TwoFAAuth.generateCode L e) = Z.to_nat L)
  /\ (forall (o : TwoFAAuth.TwoFAOptions) (a : TwoFAAuth.t) (now1 now2 : Z)
             (uid : JsValue) (ud : option AuthResult.t) (sm : bool),
      TwoFAAuth.opt_codeLength o = None ->
      TwoFAAuth.new o = Ret a ->
      exists n : Z,
        (TwoFAAuth.start2FA now1 now2 e uid ud sm a).1.1 = pretty n
        /\ 100000 <= n <= 999999
        /\ String.length (TwoFAAuth.start2FA now1 now2 e uid ud sm a).1.1 = 6%nat).
Proof.
  intros HL Hm.
  assert (Hcode : forall K, 1 <= K <= 8 ->
            TwoFAAuth.generateCode K e = pretty (TwoFAAuth.generateNumber K e)
            /\ 10 ^ (K - 1) <= TwoFAAuth.generateNumber K e <= 10 ^ K - 1
            /\ String.length (TwoFAAuth.generateCode K e) = Z.to_nat K).
  { intros K HK.
    pose proof (generateNumber_range K e HK Hm) as Hn.
    assert (E : TwoFAAuth.generateCode K e = pretty (TwoFAAuth.generateNumber K e)).
    { unfold TwoFAAuth.generateCode.
      destruct (Z.leb_spec K 8); [reflexivity|lia]. }
    split; [exact E|]. split; [exact Hn|].
    rewrite E.
    rewrite (pretty_Z_length (Z.to_nat (K - 1))).
    - lia.
    - replace (Z.of_nat (S (Z.to_nat (K - 1)))) with K by lia.
      replace (Z.of_nat (Z.to_nat (K - 1))) with (K - 1) by lia. lia. }
  split.
  - exists (TwoFAAuth.generateNumber L e). apply Hcode, HL.
  - intros o a now1 now2 uid ud sm Ho Ha.
    exists (TwoFAAuth.generateNumber 6 e).
    unfold TwoFAAuth.start2FA. cbn [fst snd].
    rewrite (TwoFAFacts.new_codeLength o a Ha), Ho.
    change (TwoFAAuth.or_default None 6) with 6.
    destruct (Hcode 6 ltac:(lia)) as (E & Hn & Hlen).
    change (10 ^ (6 - 1)) with 100000 in Hn.
    change (10 ^ 6 - 1) with 999999 in Hn.
    split; [exact E|]. split; [lia|exact Hlen].
Qed.

Lemma generateCode_digits_witness :
  exists n : Z,
    TwoFAAuth.generateCode 6 halfEntropy = pretty n
    /\ 10 ^ (6 - 1) <= n <= 10 ^ 6 - 1
    /\ String.length (TwoFAAuth.generateCode 6 halfEntropy) = Z.to_nat 6.
Proof.
  assert (HL : 1 <= 6 <= 8) by lia.
  assert (Hm : F64.unit_interval (math_random halfEntropy)).
  { split; [split|]; vm_compute; first [discriminate | reflexivity]. }
  exact (proj1 (generateCode_digits 6 halfEntropy HL Hm)).
Defined.

Example generateCode_extremes :
  TwoFAAuth.generateCode 6 {| math_random := 0; random_bytes := fun _ => Byte.x00 |}
  = "100000"
  /\ TwoFAAuth.generateCode 6
       {| math_random := F64.below_one; random_bytes := fun _ => Byte.x00 |}
     = "999999"
  /\ TwoFAAuth.generateCode 8
       {| math_random := F64.below_one; random_bytes := fun _ => Byte.x00 |}
     = "99999999"
  /\ TwoFAAuth.generateCode 1
       {| math_random := F64.below_one; random_bytes := fun _ => Byte.x00 |}
     = "9"
  /\ TwoFAAuth.generateCode 10 halfEntropy = "2a2a2a2a2a".
Proof. vm_compute. repeat split. Qed.

(* ===================================================================== *)
(** ** Widget payloads *)
(* ===================================================================== *)

Module WidgetFacts.
Import WidgetAuth.

(** *** The order of the keys *)

Lemma utf16_rank_inj x y : utf16_rank x = utf16_rank y -> x = y.
Proof.
  unfold utf16_rank. intros H.
  rewrite <- (ascii_N_embedding x), <- (ascii_N_embedding y). f_equal.
  pose proof (N_ascii_bounded x). pose proof (N_ascii_bounded y).
  destruct (N.ltb_spec (N_of_ascii x) 238), (N.ltb_spec (N_of_ascii y) 238);
    destruct (N.leb_spec (N_of_ascii x) 239), (N.leb_spec (N_of_ascii y) 239);
    destruct (N.leb_spec (N_of_ascii x) 244), (N.leb_spec (N_of_ascii y) 244);
    lia.
Qed.

Lemma key_compare_antisym a : forall b,
  key_compare b a = CompOpp (key_compare a b).
Proof.
  induction a as [|x a IH]; intros [|y b]; cbn [key_compare]; try reflexivity.
  rewrite (N.compare_antisym (utf16_rank x) (utf16_rank y)).
  destruct (N.compare (utf16_rank x) (utf16_rank y)); cbn [CompOpp];
    [apply IH | reflexivity | reflexivity].
Qed.

Lemma key_compare_eq a : forall b, key_compare a b = Eq -> a = b.
Proof.
  induction a as [|x a IH]; intros [|y b]; cbn [key_compare];
    try discriminate; [reflexivity|].
  destruct (N.compare_spec (utf16_rank x) (utf16_rank y)) as [E|E|E];
    try discriminate.
  intros H. rewrite (utf16_rank_inj x y E), (IH b H). reflexivity.
Qed.

Lemma key_compare_trans a : forall b c,
  key_compare a b ≠ Gt -> key_compare b c ≠ Gt -> key_compare a c ≠ Gt.
Proof.
  induction a as [|x a IH]; intros [|y b] [|z c]; cbn [key_compare];
    try congruence.
  destruct (N.compare_spec (utf16_rank x) (utf16_rank y)) as [E1|E1|E1];
    destruct (N.compare_spec (utf16_rank y) (utf16_rank z)) as [E2|E2|E2];
    destruct (N.compare_spec (utf16_rank x) (utf16_rank z)) as [E3|E3|E3];
    try congruence; try lia.
  apply IH.
Qed.

#[global] Instance key_le_trans : Transitive key_le.
Proof. intros a b c. apply key_compare_trans. Qed.

#[global] Instance key_le_total : Total key_le.
Proof.
  intros a b. unfold key_le. rewrite (key_compare_antisym a b).
  destruct (key_compare a b); cbn; [left|left|right]; discriminate.
Qed.

#[global] Instance key_le_antisym : AntiSymm eq key_le.
Proof.
  intros a b. unfold key_le. rewrite (key_compare_antisym a b).
  destruct (key_compare a b) eqn:E; cbn; try congruence.
  intros _ _. apply key_compare_eq, E.
Qed.

(** *** [Object.keys(data).sort()] *)

Lemma sortedKeys_sorted data : StronglySorted key_le (sortedKeys data).
Proof. apply StronglySorted_merge_sort; apply _. Qed.

Lemma sortedKeys_NoDup data : NoDup (sortedKeys data).
Proof.
  unfold sortedKeys. rewrite merge_sort_Permutation.
  apply NoDup_fst_map_to_list.
Qed.

Lemma elem_of_sortedKeys data k : k ∈ sortedKeys data <-> is_Some (data !! k).
Proof.
  unfold sortedKeys. rewrite merge_sort_Permutation, list_elem_of_fmap. split.
  - intros ([k' v] & -> & Hin). apply elem_of_map_to_list in Hin. eauto.
  - intros [v Hv]. exists (k, v). split; [reflexivity|].
    apply elem_of_map_to_list. exact Hv.
Qed.

(** *** Filtering keeps a sorted list sorted *)

Lemma StronglySorted_filter {A} (R : relation A) (P : A -> Prop)
    `{forall x, Decision (P x)} (l : list A) :
  StronglySorted R l -> StronglySorted R (filter P l).
Proof.
  induction 1 as [|x l Hl IH Hx]; [constructor|].
  rewrite filter_cons. destruct (decide (P x)); [|exact IH].
  constructor; [exact IH|].
  apply Forall_forall. intros y Hy. apply list_elem_of_filter in Hy as [_ Hy].
  rewrite Forall_forall in Hx. apply Hx, Hy.
Qed.

(** The line of a key in the check string. *)
Lemma dataCheckArr_filter data :
  dataCheckArr data
  = (fun k => k +:+ "=" +:+ toString (getField data k))
      <$> filter (fun k => truthy (getField data k) = true)
                 (sortedKeys (delete "hash" data)).
Proof.
  unfold dataCheckArr.
  assert (Hk : forall k, k ∈ sortedKeys (delete "hash" data) ->
                 getField (delete "hash" data) k = getField data k).
  { intros k Hk. apply elem_of_sortedKeys in Hk as [v Hv].
    apply lookup_delete_Some in Hv as [Hne Hv].
    unfold getField. rewrite lookup_delete_ne by exact Hne. reflexivity. }
  induction (sortedKeys (delete "hash" data)) as [|k l IH]; [reflexivity|].
  cbn [omap list_omap]. rewrite filter_cons.
  rewrite (Hk k) by (left).
  rewrite IH by (intros k' Hk'; apply Hk; right; exact Hk').
  destruct (truthy (getField data k)) eqn:E.
  - rewrite decide_True by reflexivity. reflexivity.
  - rewrite decide_False by discriminate. reflexivity.
Qed.

Lemma truthy_is_Some data k :
  truthy (getField data k) = true -> is_Some (data !! k).
Proof.
  unfold getField. destruct (data !! k); [eauto|discriminate].
Qed.

Lemma firstMissing_None data :
  (forall f, f ∈ requiredFields -> truthy (getField data f) = true) ->
  firstMissing data = None.
Proof.
  intros Hall. unfold firstMissing.
  assert (E : list_find (fun field => truthy (getField data field) = false)
                requiredFields = None).
  { apply list_find_None, Forall_forall. intros f Hf. rewrite (Hall f Hf).
    discriminate. }
  rewrite E. reflexivity.
Qed.

End WidgetFacts.

Example payload0_check :
  WidgetAuth.dataCheckArr payload0
  = ["auth_date=1700000000"; "first_name=Ann"; "id=7"]
  /\ (@WidgetAuth.validateSignature exampleCrypto widget0 payload0).1 = Ret true
  /\ (@WidgetAuth.handleAuth exampleCrypto 1700000000000 (WidgetAuth.Object payload0) widget0).1.1
     = Ret true.
Proof. vm_compute. repeat split. Qed.

(** The keys are sorted by code unit: a character above U+FFFF comes
    before one from U+E000 on, which the order of the bytes would put
    first.  A number from 10^21 on enters its line in exponent form. *)
Example check_string_engine :
  WidgetAuth.sortedKeys
    (list_to_map [("～", JNum 1); ("😀", JNum 2); ("z", JNum 3)])
  = ["z"; "😀"; "～"]
  /\ WidgetAuth.dataCheckArr
       (list_to_map [("id", JNum (10 ^ 21)); ("n", JNum (2 ^ 64))])
     = ["id=1e+21"; "n=18446744073709552000"]
  /\ WidgetAuth.dataCheckArr
       (list_to_map [("id", JStr "1000000000000000000000")])
     = ["id=1000000000000000000000"].
Proof. vm_compute. repeat split. Qed.

(** C4 as the spec states it fails: a field of the payload other than
    [hash] may be absent from the check string.  [payload0] has the
    field [username] (the empty string); no line of its check string is
    for it, and the payload without the field, or with 0 in it, has the
    same check string, hence passes the same check. *)
Lemma falsy_field_not_signed :
  payload0 !! "username" = Some (JStr EmptyString)
  /\ WidgetAuth.dataCheckArr payload0
     = ["auth_date=1700000000"; "first_name=Ann"; "id=7"]
  /\ WidgetAuth.dataCheckString (delete "username" payload0)
     = WidgetAuth.dataCheckString payload0
  /\ WidgetAuth.dataCheckString (<["username" := JNum 0]> payload0)
     = WidgetAuth.dataCheckString payload0
  /\ ~ (forall (data : gmap string JsValue) (k : string) (v : JsValue),
          data !! k = Some v -> k ≠ "hash" ->
          (k +:+ "=" +:+ toString v) ∈ WidgetAuth.dataCheckArr data).
Proof.
  assert (Harr : WidgetAuth.dataCheckArr payload0
                 = ["auth_date=1700000000"; "first_name=Ann"; "id=7"])
    by (vm_compute; reflexivity).
  split; [vm_compute; reflexivity|].
  split; [exact Harr|].
  split; [vm_compute; reflexivity|].
  split; [vm_compute; reflexivity|].
  intros Hall.
  assert (Hin : ("username" +:+ "=" +:+ toString (JStr EmptyString))
                  ∈ WidgetAuth.dataCheckArr payload0).
  { apply (Hall payload0 "username" (JStr EmptyString)).
    - vm_compute. reflexivity.
    - discriminate. }
  rewrite Harr in Hin.
  rewrite !elem_of_cons, elem_of_nil in Hin.
  destruct Hin as [Hin|[Hin|[Hin|[]]]]; discriminate.
Qed.

(** C4, amended.  The check string of a payload is made of one line
    [key=value] per key other than [hash] whose value is truthy, the
    keys in increasing lexicographic order and each once, the lines
    joined by a line feed.  The key of the HMAC is the SHA-256 digest of
    the bot token, the HMAC is taken over the check string, and
    [validateSignature] answers whether the payload's [hash] is exactly
    that digest; with validation on, [handleAuth] accepts no payload
    whose [hash] differs from it. *)
Theorem dataCheckString_canonical `{Crypto} (w : WidgetAuth.t)
    (data : gmap string JsValue) (tok : string) :
  AuthTransportOptions.botToken (WidgetAuth.options w) = Some tok ->
  (exists ks : list string,
      StronglySorted WidgetAuth.key_le ks
      /\ NoDup ks
      /\ (forall k, k ∈ ks <-> k ≠ "hash" /\ truthy (getField data k) = true)
      /\ WidgetAuth.dataCheckString data
         = WidgetAuth.join_lines
             ((fun k => k +:+ "=" +:+ toString (getField data k)) <$> ks))
  /\ (WidgetAuth.validateSignature w data).1
     = Ret (bool_decide
              (getField data "hash"
               = JStr (hmac_sha256_hex (sha256 tok)
                         (WidgetAuth.dataCheckString data))))
  /\ (forall nowMs : Z,
      WidgetAuth.validateSignatureOption w = true ->
      (WidgetAuth.handleAuth nowMs (WidgetAuth.Object data) w).1.1 = Ret true ->
      getField data "hash"
      = JStr (hmac_sha256_hex (sha256 tok) (WidgetAuth.dataCheckString data))).
Proof.
  intros Htok.
  assert (Hv : (WidgetAuth.validateSignature w data).1
               = Ret (bool_decide
                        (getField data "hash"
                         = JStr (hmac_sha256_hex (sha256 tok)
                                   (WidgetAuth.dataCheckString data))))).
  { unfold WidgetAuth.validateSignature. rewrite Htok. reflexivity. }
  split; [|split; [exact Hv|]].
  - exists (filter (fun k => truthy (getField data k) = true)
                   (WidgetAuth.sortedKeys (delete "hash" data))).
    split; [apply WidgetFacts.StronglySorted_filter, WidgetFacts.sortedKeys_sorted|].
    split; [apply NoDup_filter, WidgetFacts.sortedKeys_NoDup|].
    split.
    + intros k. rewrite list_elem_of_filter, WidgetFacts.elem_of_sortedKeys.
      split.
      * intros [Ht [v Hk]]. apply lookup_delete_Some in Hk as [Hne _].
        split; [congruence|exact Ht].
      * intros [Hne Ht]. split; [exact Ht|].
        destruct (WidgetFacts.truthy_is_Some data k Ht) as [v Hk].
        exists v. apply lookup_delete_Some. split; [congruence|exact Hk].
    + unfold WidgetAuth.dataCheckString.
      rewrite WidgetFacts.dataCheckArr_filter. reflexivity.
  - intros nowMs Hon Hacc.
    unfold WidgetAuth.handleAuth in Hacc.
    destruct (WidgetAuth.firstMissing data); [discriminate|].
    destruct (sub_gt _ _ _); [discriminate|].
    rewrite Hon in Hacc.
    destruct (WidgetAuth.validateSignature w data) as [[[|]|e] fields'] eqn:E;
      cbn [fst] in Hv; try discriminate.
    injection Hv as Hv. symmetry in Hv.
    apply bool_decide_eq_true in Hv. exact Hv.
Qed.

Lemma dataCheckString_canonical_witness :
  getField payload0 "hash"
  = JStr (@hmac_sha256_hex exampleCrypto (@sha256 exampleCrypto "123:abc")
            (WidgetAuth.dataCheckString payload0)).
Proof.
  assert (Htok : AuthTransportOptions.botToken (WidgetAuth.options widget0)
                 = Some "123:abc") by reflexivity.
  refine (proj2 (proj2 (@dataCheckString_canonical exampleCrypto widget0 payload0
                          "123:abc" Htok)) 1700000000000 _ _).
  - reflexivity.
  - vm_compute. reflexivity.
Defined.

(** Dates and ids as the engine reads them, with validation off: a
    date behind a no-break space is read and found old; so is the
    number 10^21, read as 1; an id of more than 53 bits is dispatched
    rounded. *)
Example widget_engine_reading :
  (@WidgetAuth.handleAuth exampleCrypto 1700000000000
     (WidgetAuth.Object (<["auth_date" := JStr (nbsp +:+ "5")]> payload0))
     widgetNoCheck).1.1 = Ret false
  /\ (@WidgetAuth.handleAuth exampleCrypto 1700000000000
        (WidgetAuth.Object (<["auth_date" := JNum (10 ^ 21)]> payload0))
        widgetNoCheck).2 = [Log WARN "Widget data expired"]
  /\ (@WidgetAuth.handleAuth exampleCrypto 1700000000000
        (WidgetAuth.Object (<["id" := JStr "9007199254740993"]> payload0))
        widgetNoCheck).2
     = [Try (CallOnAuth (AuthResult.mk (JNum 9007199254740992) false (JStr "Ann")
                           JUndefined (JStr EmptyString) JUndefined JUndefined
                           JUndefined))
            ERROR "Error in onAuth callback";
        Log INFO "User authenticated via widget"].
Proof. vm_compute. repeat split. Qed.



(** C10.  On an instance built with [validateSignature: false],
    [handleAuth] returns [true] for every payload object whose fields
    [id], [first_name], [auth_date] and [hash] are truthy and whose
    [auth_date] is at most 86400 seconds before the current second,
    whatever the [hash]; the payload is left as it was.  On an instance
    built with [validateSignature] absent or [true] (and a bot token),
    the same payload is accepted exactly when its [hash] is the
    digest. *)
Theorem unvalidated_payload_accepted `{Crypto} (nowMs : Z)
    (fields : gmap string JsValue) (authDate : Z) :
  (forall f, f ∈ WidgetAuth.requiredFields -> truthy (getField fields f) = true) ->
  parseInt (getField fields "auth_date") = JNum authDate ->
  nowMs / 1000 - authDate <= 86400 ->
  (forall (o : WidgetAuth.WidgetAuthOptions) (w : WidgetAuth.t),
      WidgetAuth.new o = Ret w ->
      WidgetAuth.opt_validateSignature o = Some false ->
      (WidgetAuth.handleAuth nowMs (WidgetAuth.Object fields) w).1
      = (Ret true, WidgetAuth.Object fields))
  /\ (forall (o : WidgetAuth.WidgetAuthOptions) (w : WidgetAuth.t) (tok : string),
      WidgetAuth.new o = Ret w ->
      WidgetAuth.opt_validateSignature o = None
      \/ WidgetAuth.opt_validateSignature o = Some true ->
      AuthTransportOptions.botToken (WidgetAuth.base o) = Some tok ->
      (WidgetAuth.handleAuth nowMs (WidgetAuth.Object fields) w).1.1
      = Ret (bool_decide
               (getField fields "hash"
                = JStr (WidgetAuth.expectedHash tok fields)))).
Proof.
  intros Hreq Hdate Hfresh.
  assert (Hsub : sub_gt (JNum (nowMs / 1000))
                   (parseInt (getField fields "auth_date")) 86400 = false).
  { rewrite Hdate. unfold sub_gt.
    destruct (Z.ltb_spec 86400 (nowMs / 1000 - authDate)); [lia|reflexivity]. }
  split.
  - intros o w Hnew Hopt. unfold WidgetAuth.new in Hnew. rewrite Hopt in Hnew.
    injection Hnew as <-. unfold WidgetAuth.handleAuth.
    rewrite (WidgetFacts.firstMissing_None fields Hreq), Hsub.
    reflexivity.
  - intros o w tok Hnew Hopt Htok. unfold WidgetAuth.new in Hnew.
    assert (Hw : w = {| WidgetAuth.options := WidgetAuth.base o;
                        WidgetAuth.validateSignatureOption := true |}).
    { destruct Hopt as [Hopt|Hopt]; rewrite Hopt in Hnew; congruence. }
    subst w. unfold WidgetAuth.handleAuth.
    rewrite (WidgetFacts.firstMissing_None fields Hreq), Hsub.
    cbn [WidgetAuth.validateSignatureOption].
    unfold WidgetAuth.validateSignature. cbn [WidgetAuth.options].
    rewrite Htok.
    destruct (bool_decide _); reflexivity.
Qed.

Lemma unvalidated_payload_accepted_witness :
  (@WidgetAuth.handleAuth exampleCrypto 1700000000000
     (WidgetAuth.Object payloadBadHash) widgetNoCheck).1
  = (Ret true, WidgetAuth.Object payloadBadHash).
Proof.
  assert (Hreq : forall f, f ∈ WidgetAuth.requiredFields ->
                   truthy (getField payloadBadHash f) = true).
  { intros f Hf. unfold WidgetAuth.requiredFields in Hf.
    rewrite !elem_of_cons, elem_of_nil in Hf.
    destruct Hf as [->|[->|[->|[->|[]]]]]; vm_compute; reflexivity. }
  assert (Hdate : parseInt (getField payloadBadHash "auth_date") = JNum 1700000000)
    by (vm_compute; reflexivity).
  assert (Hfresh : 1700000000000 / 1000 - 1700000000 <= 86400)
    by (vm_compute; discriminate).
  refine (proj1 (@unvalidated_payload_accepted exampleCrypto 1700000000000
                   payloadBadHash 1700000000 Hreq Hdate Hfresh)
            widgetOptionsNoCheck widgetNoCheck _ _); reflexivity.
Defined.

Example unvalidated_payload_bad_hash :
  (@WidgetAuth.validateSignature exampleCrypto widget0 payloadBadHash).1 = Ret false
  /\ (@WidgetAuth.handleAuth exampleCrypto 1700000000000
        (WidgetAuth.Object payloadBadHash) widget0).1.1 = Ret false.
Proof. vm_compute. split; reflexivity. Qed.

(* ===================================================================== *)
(** ** Sessions and constructors *)
(* ===================================================================== *)

Module SessionFacts.
Import SessionManager.

(** The three outcomes of [getSession]. *)
Lemma getSession_absent now1 now2 sid m :
  sessions m !! sid = None -> getSession now1 now2 sid m = (None, m, []).
Proof. intros H. unfold getSession. rewrite H. reflexivity. Qed.


(** A live session is refreshed in memory and returned; the
    persistence adapter is not called. *)
Lemma getSession_live now1 now2 sid m s :
  sessions m !! sid = Some s ->
  now1 - lastActivity s <= sessionLifetime m ->
  let s' := {| id := id s; userData := userData s; createdAt := createdAt s;
               lastActivity := now2; metadata := metadata s |} in
  getSession now1 now2 sid m
  = (Some s', with_sessions m (<[sid := s']> (sessions m)), []).
Proof.
  intros H Hlive. unfold getSession. rewrite H.
  destruct (Z.ltb_spec (sessionLifetime m) (now1 - lastActivity s));
    [lia|reflexivity].
Qed.

(** The other methods that change the map save it: [updateSession],
    which refreshes [lastActivity] as [getSession] does, ... *)
Lemma updateSession_saves now sid md m s :
  sessions m !! sid = Some s ->
  exists m', updateSession now sid md m = (true, m', [Save (sessions m')])
             /\ exists s', sessions m' !! sid = Some s' /\ lastActivity s' = now.
Proof.
  intros H. unfold updateSession. rewrite H.
  eexists. split; [reflexivity|].
  eexists. split; [apply lookup_insert_eq|reflexivity].
Qed.

(** ... [createSession] and [deleteSession], ... *)
Lemma createSession_saves sid now u md m :
  (createSession sid now u md m).2
  = [Save (sessions (createSession sid now u md m).1.2)].
Proof. reflexivity. Qed.

Lemma deleteSession_saves sid m :
  (deleteSession sid m).2 = [Save (sessions (deleteSession sid m).1.2)].
Proof. reflexivity. Qed.

(** ... and the hourly sweep, whenever it removes something. *)
Lemma cleanExpiredSessions_saves now m :
  sessions (cleanExpiredSessions now m).1 ≠ sessions m ->
  (cleanExpiredSessions now m).2
  = [Save (sessions (cleanExpiredSessions now m).1)].
Proof.
  unfold cleanExpiredSessions. cbn [fst snd]. intros Hne.
  destruct (bool_decide _) eqn:E; [reflexivity|].
  exfalso. apply Hne. cbn [with_sessions sessions].
  apply bool_decide_eq_false in E.
  apply map_filter_id. intros sid s Hs Hexp. apply E.
  exists sid, s. split; assumption.
Qed.

End SessionFacts.

(** C5.  [getSession] on a stored session within its lifetime: the
    session comes back with [lastActivity] set to the current time and
    the map holds the refreshed session, but no snapshot is saved (the
    list of store calls is empty), where the claim has the updated
    snapshot persisted.  The two other cases are as claimed: an unknown
    id gives [undefined] and no call, an expired session is deleted, the
    remaining map is saved and [undefined] is returned.  [updateSession],
    which refreshes [lastActivity] as well, does save. *)
Theorem getSession_refresh_not_saved :
  SessionManager.getSession 500 500 "s1" manager0
  = (Some {| SessionManager.id := "s1"; SessionManager.userData := alice;
             SessionManager.createdAt := 0; SessionManager.lastActivity := 500;
             SessionManager.metadata := None |},
     {| SessionManager.sessions :=
          {[ "s1" := {| SessionManager.id := "s1";
                        SessionManager.userData := alice;
                        SessionManager.createdAt := 0;
                        SessionManager.lastActivity := 500;
                        SessionManager.metadata := None |} ]};
        SessionManager.sessionLifetime := 1000 |},
     [])
  /\ SessionManager.getSession 500 500 "nope" manager0 = (None, manager0, [])
  /\ SessionManager.getSession 1001 1001 "s1" manager0
     = (None,
        {| SessionManager.sessions := ∅; SessionManager.sessionLifetime := 1000 |},
        [SessionManager.Save ∅])
  /\ (SessionManager.updateSession 500 "s1" ∅ manager0).2
     = [SessionManager.Save
          {[ "s1" := {| SessionManager.id := "s1";
                        SessionManager.userData := alice;
                        SessionManager.createdAt := 0;
                        SessionManager.lastActivity := 500;
                        SessionManager.metadata := Some ∅ |} ]}].
Proof. vm_compute. repeat split. Qed.

Module ConstructorFacts.

(** Without [botSettings] and without a (non-empty) [botToken] the
    three artifact constructors throw. *)
Lemma artifact_constructors_throw (o : AuthTransportOptions.t) :
  AuthTransportOptions.botSettings o = None ->
  truthy_string (AuthTransportOptions.botToken o) = None ->
  throws (DeeplinkAuth.new o) = true
  /\ throws (CodeAuth.new o) = true
  /\ forall l n k : option Z,
      throws (TwoFAAuth.new {| TwoFAAuth.base := o;
                               TwoFAAuth.opt_codeLifetime := l;
                               TwoFAAuth.opt_codeLength := n;
                               TwoFAAuth.opt_maxAttempts := k |}) = true.
Proof.
  intros Hs Ht. unfold DeeplinkAuth.new, CodeAuth.new, TwoFAAuth.new.
  cbn [TwoFAAuth.base]. rewrite Hs, Ht. repeat split.
Qed.

(** The widget constructor has no check that could fail. *)
Lemma widget_constructor_returns (o : WidgetAuth.WidgetAuthOptions) :
  throws (WidgetAuth.new o) = false.
Proof. reflexivity. Qed.

(** Without a token the error comes with the first signature check. *)
Lemma widget_error_deferred `{Crypto} (w : WidgetAuth.t) (nowMs : Z)
    (fields : gmap string JsValue) :
  AuthTransportOptions.botToken (WidgetAuth.options w) = None ->
  WidgetAuth.validateSignatureOption w = true ->
  WidgetAuth.firstMissing fields = None ->
  sub_gt (JNum (nowMs / 1000)) (parseInt (getField fields "auth_date")) 86400
  = false ->
  WidgetAuth.handleAuth nowMs (WidgetAuth.Object fields) w
  = (Throw (TypeError "ERR_INVALID_ARG_TYPE"),
     WidgetAuth.Object (delete "hash" fields), []).
Proof.
  intros Htok Hon Hreq Hfresh. unfold WidgetAuth.handleAuth.
  rewrite Hreq, Hfresh, Hon. unfold WidgetAuth.validateSignature.
  rewrite Htok. reflexivity.
Qed.

End ConstructorFacts.

(** C7.  With options that carry neither [botSettings] nor [botToken],
    the constructors of [DeeplinkAuth], [CodeAuth] and [TwoFAAuth]
    throw, as claimed.  The constructor of [WidgetAuth] returns an
    instance, and the missing token shows at the first [handleAuth] that
    reaches the signature check, as a [TypeError], where the claim has
    the construction fail.  (The failed call also leaves the payload
    without its [hash].) *)
Theorem widget_constructor_defers_missing_token :
  DeeplinkAuth.new noCredentials
  = Throw (Error "Необходимо указать botSettings или botToken")
  /\ CodeAuth.new noCredentials
     = Throw (Error "Необходимо указать botSettings или botToken")
  /\ TwoFAAuth.new {| TwoFAAuth.base := noCredentials;
                      TwoFAAuth.opt_codeLifetime := None;
                      TwoFAAuth.opt_codeLength := None;
                      TwoFAAuth.opt_maxAttempts := None |}
     = Throw (Error "Необходимо указать botSettings или botToken")
  /\ WidgetAuth.new widgetOptionsNoToken
     = Ret {| WidgetAuth.options := noCredentials;
              WidgetAuth.validateSignatureOption := true |}
  /\ @WidgetAuth.handleAuth exampleCrypto 1700000000000
       (WidgetAuth.Object payload0)
       {| WidgetAuth.options := noCredentials;
          WidgetAuth.validateSignatureOption := true |}
     = (Throw (TypeError "ERR_INVALID_ARG_TYPE"),
        WidgetAuth.Object (delete "hash" payload0), []).
Proof. vm_compute. repeat split. Qed.

(* ===================================================================== *)
(** ** Further properties of the embedded code *)
(* ===================================================================== *)

(** The theorems below are read off the sources: the formats of the
    generated values, invalidation, the bookkeeping of two-factor
    challenges, the life of a session, the widget check as a whole, the
    logger, and the callers of the authenticators (the webhook
    integration and the factory). *)

Module HexFacts.

Lemma hex_length bs : String.length (hex bs) = (2 * length bs)%nat.
Proof. induction bs as [|b r IH]; cbn [hex String.length length]; [reflexivity|lia]. Qed.

Lemma hex_digit_lower (n : N) :
  (n < 16)%N -> hex_digit n ∈ String.list_ascii_of_string "0123456789abcdef".
Proof.
  intros Hn. apply list_elem_of_In.
  rewrite <- (N2Nat.id n).
  assert (Hk : (N.to_nat n < 16)%nat) by lia.
  revert Hk. generalize (N.to_nat n). intros k Hk.
  do 16 (destruct k as [|k]; [vm_compute; tauto|]). lia.
Qed.

Lemma hex_lower bs :
  Forall (fun a => a ∈ String.list_ascii_of_string "0123456789abcdef")
         (String.list_ascii_of_string (hex bs)).
Proof.
  induction bs as [|b r IH]; cbn [hex String.list_ascii_of_string]; [constructor|].
  assert (Hb : (Byte.to_N b < 256)%N) by (pose proof (Byte.to_N_bounded b); lia).
  constructor; [|constructor; [|exact IH]]; apply hex_digit_lower.
  - apply N.Div0.div_lt_upper_bound. lia.
  - apply N.mod_lt. lia.
Qed.

Lemma randomBytes_length e n : length (randomBytes e n) = n.
Proof. unfold randomBytes. rewrite length_map, length_seq. reflexivity. Qed.

Lemma slice0_length n : forall s,
  String.length (slice0 n s) = Nat.min n (String.length s).
Proof.
  induction n as [|n IH]; intros [|a r]; cbn [slice0 String.length]; try reflexivity.
  rewrite IH. reflexivity.
Qed.

Lemma slice0_Forall (P : ascii -> Prop) n : forall s,
  Forall P (String.list_ascii_of_string s) -> Forall P (String.list_ascii_of_string (slice0 n s)).
Proof.
  induction n as [|n IH]; intros [|a r] Hs; cbn [slice0 String.list_ascii_of_string] in *;
    try constructor.
  - inversion Hs; assumption.
  - apply IH. inversion Hs; assumption.
Qed.

End HexFacts.

(** X1.  [generateDeeplink] returns the link of the bot with a token of
    32 lower-case hex digits, the hex form of the 16 random bytes, and
    registers that token, unused, at the time of the call; the other
    tokens and the settings stay as they were.  [handleAuth] called
    next with that token marks it used for the identity; it makes the
    calls of [sendResult] and returns [true], or ends with the
    exception of the first call that throws. *)
Theorem generateDeeplink_token (now : Z) (e : Entropy) (d : DeeplinkAuth.t) :
  let r := DeeplinkAuth.generateDeeplink now e d in
  exists tok : string,
    r.1 = "https://t.me/"
          +:+ TelegramBotSettings.getBotUsername (DeeplinkAuth.botSettings d)
          +:+ "?start=" +:+ tok
    /\ tok = hex (randomBytes e 16)
    /\ String.length tok = 32%nat
    /\ Forall (fun a => a ∈ String.list_ascii_of_string "0123456789abcdef")
              (String.list_ascii_of_string tok)
    /\ DeeplinkAuth.sessions r.2 !! tok
       = Some {| DeeplinkAuth.token := tok; DeeplinkAuth.createdAt := now;
                 DeeplinkAuth.used := false; DeeplinkAuth.userData := None |}
    /\ (forall k, k ≠ tok ->
          DeeplinkAuth.sessions r.2 !! k = DeeplinkAuth.sessions d !! k)
    /\ DeeplinkAuth.botSettings r.2 = DeeplinkAuth.botSettings d
    /\ DeeplinkAuth.options r.2 = DeeplinkAuth.options d
    /\ (forall (h : Handlers) (u : AuthResult.t),
          let p := performed (handlersOf (DeeplinkAuth.options d) h)
                     (DeeplinkAuth.sendResult d u) in
          let a := DeeplinkAuth.handleAuthWith h tok u r.2 in
          a.1.1 = match p.2 with
                  | Some x => Throw x
                  | None => Ret true
                  end
          /\ a.2 = p.1
          /\ DeeplinkAuth.sessions a.1.2 !! tok
             = Some {| DeeplinkAuth.token := tok; DeeplinkAuth.createdAt := now;
                       DeeplinkAuth.used := true;
                       DeeplinkAuth.userData := Some u |}).
Proof.
  intros r. exists (hex (randomBytes e 16)).
  split; [reflexivity|]. split; [reflexivity|].
  split; [rewrite HexFacts.hex_length, HexFacts.randomBytes_length; reflexivity|].
  split; [apply HexFacts.hex_lower|].
  subst r. unfold DeeplinkAuth.generateDeeplink.
  cbn [fst snd DeeplinkAuth.sessions DeeplinkAuth.botSettings DeeplinkAuth.options].
  generalize (hex (randomBytes e 16)). intros tok.
  split; [apply lookup_insert_eq|].
  split; [intros k Hk; apply lookup_insert_ne; congruence|].
  split; [reflexivity|]. split; [reflexivity|].
  intros h u. unfold DeeplinkAuth.handleAuthWith, DeeplinkAuth.handleAuth.
  cbn [DeeplinkAuth.sessions DeeplinkAuth.options].
  rewrite lookup_insert_eq. cbn [DeeplinkAuth.used fst snd DeeplinkAuth.sessions
    DeeplinkAuth.token DeeplinkAuth.createdAt].
  split; [reflexivity|]. split; [reflexivity|]. apply lookup_insert_eq.
Qed.

Lemma generateDeeplink_token_witness :
  exists tok : string,
    (DeeplinkAuth.generateDeeplink 1000 halfEntropy deeplink0).1
    = "https://t.me/demo_bot?start=" +:+ tok
    /\ DeeplinkAuth.sessions
         (DeeplinkAuth.generateDeeplink 1000 halfEntropy deeplink0).2 !! "ffff"
       = DeeplinkAuth.sessions deeplink0 !! "ffff".
Proof.
  destruct (generateDeeplink_token 1000 halfEntropy deeplink0)
    as (tok & Hlink & Htok & _ & _ & _ & Hother & _).
  exists tok. split; [exact Hlink|].
  apply Hother. rewrite Htok. vm_compute. discriminate.
Defined.

(** X5.  A 2FA code longer than 8 has exactly the requested number of
    characters, all lower-case hex digits. *)
Theorem generateCode_long_hex (L : Z) (e : Entropy) :
  8 < L ->
  String.length (TwoFAAuth.generateCode L e) = Z.to_nat L
  /\ Forall (fun a => a ∈ String.list_ascii_of_string "0123456789abcdef")
            (String.list_ascii_of_string (TwoFAAuth.generateCode L e)).
Proof.
  intros HL. unfold TwoFAAuth.generateCode.
  destruct (L <=? 8) eqn:E; [lia|].
  split.
  - rewrite HexFacts.slice0_length, HexFacts.hex_length, HexFacts.randomBytes_length.
    assert (L <= 2 * ((L + 1) / 2)).
    { pose proof (Z.div_mod (L + 1) 2 ltac:(lia)).
      pose proof (Z.mod_pos_bound (L + 1) 2 ltac:(lia)). lia. }
    assert (0 <= (L + 1) / 2) by (apply Z.div_pos; lia).
    lia.
  - apply HexFacts.slice0_Forall, HexFacts.hex_lower.
Qed.

Lemma generateCode_long_hex_witness :
  String.length (TwoFAAuth.generateCode 11 halfEntropy) = Z.to_nat 11
  /\ Forall (fun a => a ∈ String.list_ascii_of_string "0123456789abcdef")
            (String.list_ascii_of_string (TwoFAAuth.generateCode 11 halfEntropy)).
Proof. apply (generateCode_long_hex 11 halfEntropy). lia. Defined.

(** X3.  A CodeAuth code is a six-digit decimal, registered unused. *)
Theorem codeAuth_code_six_digits (now : Z) (e : Entropy) (c : CodeAuth.t) :
  F64.unit_interval (math_random e) ->
  let r := CodeAuth.generateCode now e c in
  (exists n : Z, r.1 = pretty n /\ 100000 <= n <= 999999)
  /\ String.length r.1 = 6%nat
  /\ CodeAuth.sessions r.2 !! r.1
     = Some {| CodeAuth.code := r.1; CodeAuth.createdAt := now;
               CodeAuth.used := false; CodeAuth.userData := None |}.
Proof.
  intros Hm r.
  assert (Hc : r.1 = pretty (TwoFAAuth.generateNumber 6 e)) by reflexivity.
  pose proof (generateNumber_range 6 e ltac:(lia) Hm) as Hr.
  change (10 ^ (6 - 1)) with 100000 in Hr. change (10 ^ 6 - 1) with 999999 in Hr.
  split; [eexists; split; [exact Hc | exact Hr]|].
  split.
  - rewrite Hc. apply (pretty_Z_length 5).
    change (10 ^ Z.of_nat 5) with 100000. change (10 ^ Z.of_nat 6) with 1000000. lia.
  - subst r. unfold CodeAuth.generateCode. cbn [fst snd CodeAuth.sessions].
    generalize (CodeAuth.freshCode e). intros k. apply lookup_insert_eq.
Qed.

Lemma codeAuth_code_six_digits_witness :
  String.length (CodeAuth.generateCode 1000 halfEntropy codeAuth0).1 = 6%nat.
Proof.
  assert (H : F64.unit_interval (math_random halfEntropy)).
  { split; [vm_compute; split; [discriminate | reflexivity] | vm_compute; reflexivity]. }
  exact (proj1 (proj2 (codeAuth_code_six_digits 1000 halfEntropy codeAuth0 H))).
Defined.

(** X2.  An invalidated deeplink token is refused from then on. *)
Theorem invalidateDeeplink_blocks (tok : string) (d : DeeplinkAuth.t)
    (cs : list DeeplinkAuth.Call) (u : AuthResult.t) :
  Forall (fun c => DeeplinkAuth.generates c ≠ Some tok) cs ->
  let d' := DeeplinkAuth.invalidateDeeplink tok d in
  DeeplinkAuth.handleAuth tok u (DeeplinkAuth.run cs d')
  = (false, DeeplinkAuth.run cs d', [])
  /\ (forall k, k ≠ tok ->
      DeeplinkAuth.sessions d' !! k = DeeplinkAuth.sessions d !! k)
  /\ (forall s, DeeplinkAuth.sessions d !! tok = Some s ->
      DeeplinkAuth.sessions d' !! tok
      = Some {| DeeplinkAuth.token := DeeplinkAuth.token s;
                DeeplinkAuth.createdAt := DeeplinkAuth.createdAt s;
                DeeplinkAuth.used := true;
                DeeplinkAuth.userData := DeeplinkAuth.userData s |})
  /\ (DeeplinkAuth.sessions d !! tok = None -> d' = d).
Proof.
  intros Hcs d'. subst d'. unfold DeeplinkAuth.invalidateDeeplink.
  destruct (DeeplinkAuth.sessions d !! tok) as [s|] eqn:Hs.
  - split; [|split; [|split]].
    + set (s1 := {| DeeplinkAuth.token := DeeplinkAuth.token s;
                   DeeplinkAuth.createdAt := DeeplinkAuth.createdAt s;
                   DeeplinkAuth.used := true;
                   DeeplinkAuth.userData := DeeplinkAuth.userData s |}).
      assert (Hk : DeeplinkAuth.sessions (DeeplinkAuth.run cs
                     {| DeeplinkAuth.sessions := <[tok := s1]> (DeeplinkAuth.sessions d);
                        DeeplinkAuth.botSettings := DeeplinkAuth.botSettings d;
                        DeeplinkAuth.options := DeeplinkAuth.options d |}) !! tok = Some s1).
      { apply DeeplinkFacts.deeplink_run_keeps_used;
          [exact Hcs | cbn [DeeplinkAuth.sessions]; apply lookup_insert_eq | reflexivity]. }
      apply DeeplinkFacts.deeplink_handleAuth_refused. intros s' Hs'.
      rewrite Hk in Hs'. injection Hs' as <-. reflexivity.
    + intros k Hk. cbn [DeeplinkAuth.sessions]. rewrite lookup_insert_ne; congruence.
    + intros s0 [= <-]. cbn [DeeplinkAuth.sessions]. apply lookup_insert_eq.
    + discriminate.
  - split; [|split; [|split]].
    + apply DeeplinkFacts.deeplink_handleAuth_refused. intros s' Hs'.
      rewrite DeeplinkFacts.deeplink_run_keeps_absent in Hs'; [discriminate | exact Hcs | exact Hs].
    + reflexivity.
    + discriminate.
    + reflexivity.
Qed.

Lemma invalidateDeeplink_blocks_witness :
  let tok := "2a2a2a2a2a2a2a2a2a2a2a2a2a2a2a2a" in
  let d1 := (DeeplinkAuth.generateDeeplink 1000 halfEntropy deeplink0).2 in
  let d' := DeeplinkAuth.invalidateDeeplink tok d1 in
  DeeplinkAuth.handleAuth tok alice
    (DeeplinkAuth.run [DeeplinkAuth.HandleAuth "ffff" bob] d')
  = (false, DeeplinkAuth.run [DeeplinkAuth.HandleAuth "ffff" bob] d', []).
Proof.
  intros tok d1 d'.
  assert (H : Forall (fun c => DeeplinkAuth.generates c ≠ Some tok)
                     [DeeplinkAuth.HandleAuth "ffff" bob]).
  { repeat constructor. discriminate. }
  exact (proj1 (invalidateDeeplink_blocks tok d1 _ alice H)).
Defined.

(** X4.  An invalidated code is refused from then on. *)
Theorem invalidateCode_blocks (code : string) (c : CodeAuth.t)
    (ks : list CodeAuth.Call) (u : AuthResult.t) :
  Forall (fun k => CodeAuth.generates k ≠ Some code) ks ->
  let c' := CodeAuth.invalidateCode code c in
  CodeAuth.handleAuth code u (CodeAuth.run ks c')
  = (false, CodeAuth.run ks c', [])
  /\ (forall k, k ≠ code ->
      CodeAuth.sessions c' !! k = CodeAuth.sessions c !! k)
  /\ (forall s, CodeAuth.sessions c !! code = Some s ->
      CodeAuth.sessions c' !! code
      = Some {| CodeAuth.code := CodeAuth.code s;
                CodeAuth.createdAt := CodeAuth.createdAt s;
                CodeAuth.used := true;
                CodeAuth.userData := CodeAuth.userData s |})
  /\ (CodeAuth.sessions c !! code = None -> c' = c).
Proof.
  intros Hks c'. subst c'. unfold CodeAuth.invalidateCode.
  destruct (CodeAuth.sessions c !! code) as [s|] eqn:Hs.
  - split; [|split; [|split]].
    + set (s1 := {| CodeAuth.code := CodeAuth.code s;
                   CodeAuth.createdAt := CodeAuth.createdAt s;
                   CodeAuth.used := true;
                   CodeAuth.userData := CodeAuth.userData s |}).
      assert (Hk : CodeAuth.sessions (CodeAuth.run ks
                     {| CodeAuth.sessions := <[code := s1]> (CodeAuth.sessions c);
                        CodeAuth.botSettings := CodeAuth.botSettings c;
                        CodeAuth.options := CodeAuth.options c |}) !! code = Some s1).
      { apply CodeFacts.code_run_keeps_used;
          [exact Hks | cbn [CodeAuth.sessions]; apply lookup_insert_eq | reflexivity]. }
      apply CodeFacts.code_handleAuth_refused. intros s' Hs'.
      rewrite Hk in Hs'. injection Hs' as <-. reflexivity.
    + intros k Hk. cbn [CodeAuth.sessions]. rewrite lookup_insert_ne; congruence.
    + intros s0 [= <-]. cbn [CodeAuth.sessions]. apply lookup_insert_eq.
    + discriminate.
  - split; [|split; [|split]].
    + apply CodeFacts.code_handleAuth_refused. intros s' Hs'.
      rewrite CodeFacts.code_run_keeps_absent in Hs'; [discriminate | exact Hks | exact Hs].
    + reflexivity.
    + discriminate.
    + reflexivity.
Qed.

Lemma invalidateCode_blocks_witness :
  let c1 := (CodeAuth.generateCode 1000 halfEntropy codeAuth0).2 in
  let c' := CodeAuth.invalidateCode "550000" c1 in
  CodeAuth.handleAuth "550000" alice
    (CodeAuth.run [CodeAuth.HandleAuth "123456" bob] c')
  = (false, CodeAuth.run [CodeAuth.HandleAuth "123456" bob] c', []).
Proof.
  intros c1 c'.
  assert (H : Forall (fun k => CodeAuth.generates k ≠ Some "550000")
                     [CodeAuth.HandleAuth "123456" bob]).
  { repeat constructor. discriminate. }
  exact (proj1 (invalidateCode_blocks "550000" c1 _ alice H)).
Defined.

Module TwoFATraces.
Import TwoFAAuth.

Lemma twoFA_run_snoc cs c a : run (cs ++ [c]) a = step c (run cs a).
Proof. unfold run. rewrite foldl_app. reflexivity. Qed.

Lemma twoFA_run_app cs1 cs2 a : run (cs1 ++ cs2) a = run cs2 (run cs1 a).
Proof. unfold run. apply foldl_app. Qed.

(** What a successful [verify2FA] has found and what it leaves. *)
Lemma verify2FA_true_inv now uid code a :
  (verify2FA now uid code a).1.1 = true ->
  exists s,
    sessions a !! sessionKey uid = Some s
    /\ now <= expiresAt s /\ used s = false
    /\ attemptsOf a (sessionKey uid) < maxAttempts a
    /\ TwoFAAuth.code s = code
    /\ sessions (verify2FA now uid code a).1.2
       = <[sessionKey uid := {| userId := userId s; code := TwoFAAuth.code s;
                                createdAt := createdAt s;
                                expiresAt := expiresAt s;
                                used := true; verified := true;
                                userData := userData s |}]> (sessions a).
Proof.
  unfold verify2FA.
  destruct (sessions a !! sessionKey uid) as [s|] eqn:Hs; [|discriminate].
  destruct (Z.ltb_spec (expiresAt s) now); [discriminate|].
  destruct (used s) eqn:Hu; [discriminate|].
  destruct (Z.leb_spec (maxAttempts a) (attemptsOf a (sessionKey uid)));
    [discriminate|].
  destruct (String.eqb_spec (TwoFAAuth.code s) code) as [E|E];
    cbn [negb fst snd]; [|discriminate].
  intros _. exists s. repeat (split; [assumption || reflexivity|]). reflexivity.
Qed.

(** A failed [verify2FA] leaves the challenges as they are. *)
Lemma verify2FA_false_sessions now uid code a :
  (verify2FA now uid code a).1.1 = false ->
  sessions (verify2FA now uid code a).1.2 = sessions a.
Proof.
  unfold verify2FA.
  destruct (sessions a !! sessionKey uid) as [s|]; [|reflexivity].
  destruct (expiresAt s <? now); [reflexivity|].
  destruct (used s); [reflexivity|].
  destruct (maxAttempts a <=? attemptsOf a (sessionKey uid)); [reflexivity|].
  destruct (negb (String.eqb (TwoFAAuth.code s) code)); cbn [fst snd];
    [reflexivity|discriminate].
Qed.

(** A subject whose challenge is missing or used is refused. *)
Lemma verify2FA_spent now uid code a :
  (forall s, sessions a !! sessionKey uid = Some s -> used s = true) ->
  (verify2FA now uid code a).1.1 = false /\ (verify2FA now uid code a).1.2 = a.
Proof.
  intros Hsp. unfold verify2FA.
  destruct (sessions a !! sessionKey uid) as [s|] eqn:Hs; [|split; reflexivity].
  rewrite (Hsp s eq_refl).
  destruct (expiresAt s <? now); split; reflexivity.
Qed.

Lemma step_keeps_spent c a key :
  starts c ≠ Some key ->
  (forall s, sessions a !! key = Some s -> used s = true) ->
  forall s, sessions (step c a) !! key = Some s -> used s = true.
Proof.
  intros Hc Hsp s.
  destruct c as [n1 n2 e uid ud sm|now uid code|uid|uid];
    cbn [step starts] in *.
  - assert (sessionKey uid ≠ key) as Hne by congruence.
    unfold start2FA. cbn [fst snd sessions].
    rewrite (lookup_insert_ne _ _ _ _ Hne). apply Hsp.
  - destruct ((verify2FA now uid code a).1.1) eqn:Hr.
    + destruct (verify2FA_true_inv _ _ _ _ Hr) as (s0 & Hs0 & _ & _ & _ & _ & ->).
      destruct (decide (sessionKey uid = key)) as [<-|Hne].
      * rewrite lookup_insert_eq. intros [= <-]. reflexivity.
      * rewrite (lookup_insert_ne _ _ _ _ Hne). apply Hsp.
    + rewrite (verify2FA_false_sessions _ _ _ _ Hr). apply Hsp.
  - apply Hsp.
  - unfold reset2FA. cbn [fst sessions].
    intros Hs. apply lookup_delete_Some in Hs as [_ Hs]. exact (Hsp _ Hs).
Qed.

Lemma run_keeps_spent cs : forall a key,
  Forall (fun c => starts c ≠ Some key) cs ->
  (forall s, sessions a !! key = Some s -> used s = true) ->
  forall s, sessions (run cs a) !! key = Some s -> used s = true.
Proof.
  induction cs as [|c cs IH]; intros a key Hall Hsp; [exact Hsp|].
  inversion Hall; subst. cbn [run foldl]. apply IH; [assumption|].
  apply step_keeps_spent; assumption.
Qed.

(** The counters stay between 0 and the limit. *)
Lemma step_attempts_bounded c a :
  attempts_bounded a -> attempts_bounded (step c a).
Proof.
  unfold attempts_bounded. intros Hb key n.
  rewrite TwoFAFacts.step_maxAttempts.
  destruct c as [n1 n2 e uid ud sm|now uid code|uid|uid]; cbn [step].
  - unfold start2FA. cbn [fst snd attempts].
    destruct (decide (sessionKey uid = key)) as [<-|Hne].
    + rewrite lookup_insert_eq. intros [= <-]. lia.
    + rewrite (lookup_insert_ne _ _ _ _ Hne). apply Hb.
  - unfold verify2FA.
    destruct (sessions a !! sessionKey uid) as [s|]; [|apply Hb].
    destruct (expiresAt s <? now); [apply Hb|].
    destruct (used s); [apply Hb|].
    destruct (Z.leb_spec (maxAttempts a) (attemptsOf a (sessionKey uid)))
      as [|Hlt]; [apply Hb|].
    assert (Hn : 0 <= attemptsOf a (sessionKey uid)).
    { unfold attemptsOf.
      destruct (attempts a !! sessionKey uid) as [k|] eqn:Hk; cbn; [|lia].
      apply (Hb _ _ Hk). }
    destruct (negb (String.eqb (TwoFAAuth.code s) code));
      cbn [fst snd attempts with_attempts with_sessions];
      (destruct (decide (sessionKey uid = key)) as [<-|Hne];
       [ rewrite lookup_insert_eq; intros [= <-]; lia
       | rewrite (lookup_insert_ne _ _ _ _ Hne); apply Hb ]).
  - apply Hb.
  - unfold reset2FA. cbn [fst attempts].
    intros Hs. apply lookup_delete_Some in Hs as [_ Hs]. exact (Hb _ _ Hs).
Qed.

Lemma run_attempts_bounded cs : forall a,
  attempts_bounded a -> attempts_bounded (run cs a).
Proof.
  induction cs as [|c cs IH]; intros a Ha; [exact Ha|].
  cbn [run foldl]. apply IH, step_attempts_bounded, Ha.
Qed.

(** How [isVerified] changes in one call. *)
Lemma step_isVerified c a uid :
  isVerified uid (step c a) = true ->
  (exists now uid' code,
      c = Verify2FA now uid' code /\ sessionKey uid' = sessionKey uid
      /\ (verify2FA now uid' code a).1.1 = true)
  \/ (isVerified uid a = true
      /\ starts c ≠ Some (sessionKey uid) /\ resets c ≠ Some (sessionKey uid)).
Proof.
  unfold isVerified.
  destruct c as [n1 n2 e uid' ud sm|now uid' code|uid'|uid'];
    cbn [step starts resets].
  - unfold start2FA. cbn [fst snd sessions].
    destruct (decide (sessionKey uid' = sessionKey uid)) as [E|Hne].
    + rewrite E, lookup_insert_eq. cbn. discriminate.
    + rewrite (lookup_insert_ne _ _ _ _ Hne). intros Hv. right.
      split; [exact Hv|]. split; congruence.
  - destruct ((verify2FA now uid' code a).1.1) eqn:Hr.
    + destruct (decide (sessionKey uid' = sessionKey uid)) as [E|Hne].
      * intros _. left. exists now, uid', code. split; [reflexivity|]. split; assumption.
      * destruct (verify2FA_true_inv _ _ _ _ Hr) as (s0 & _ & _ & _ & _ & _ & ->).
        rewrite (lookup_insert_ne _ _ _ _ Hne). intros Hv. right.
        split; [exact Hv|]. split; discriminate.
    + rewrite (verify2FA_false_sessions _ _ _ _ Hr). intros Hv. right.
      split; [exact Hv|]. split; discriminate.
  - intros Hv. right. split; [exact Hv|]. split; discriminate.
  - unfold reset2FA. cbn [fst sessions].
    destruct (decide (sessionKey uid' = sessionKey uid)) as [E|Hne].
    + rewrite E, lookup_delete_eq. discriminate.
    + rewrite (lookup_delete_ne _ _ _ Hne). intros Hv. right.
      split; [exact Hv|]. split; congruence.
Qed.

Lemma step_keeps_isVerified c a uid :
  starts c ≠ Some (sessionKey uid) -> resets c ≠ Some (sessionKey uid) ->
  isVerified uid a = true -> isVerified uid (step c a) = true.
Proof.
  unfold isVerified.
  destruct c as [n1 n2 e uid' ud sm|now uid' code|uid'|uid'];
    cbn [step starts resets]; intros Hst Hre Hv.
  - assert (sessionKey uid' ≠ sessionKey uid) as Hne by congruence.
    unfold start2FA. cbn [fst snd sessions].
    rewrite (lookup_insert_ne _ _ _ _ Hne). exact Hv.
  - destruct ((verify2FA now uid' code a).1.1) eqn:Hr.
    + destruct (verify2FA_true_inv _ _ _ _ Hr) as (s0 & _ & _ & _ & _ & _ & ->).
      destruct (decide (sessionKey uid' = sessionKey uid)) as [E|Hne].
      * rewrite E, lookup_insert_eq. reflexivity.
      * rewrite (lookup_insert_ne _ _ _ _ Hne). exact Hv.
    + rewrite (verify2FA_false_sessions _ _ _ _ Hr). exact Hv.
  - exact Hv.
  - assert (sessionKey uid' ≠ sessionKey uid) as Hne by congruence.
    unfold reset2FA. cbn [fst sessions].
    rewrite (lookup_delete_ne _ _ _ Hne). exact Hv.
Qed.

Lemma run_keeps_isVerified cs : forall a uid,
  Forall (fun c => starts c ≠ Some (sessionKey uid)
                   /\ resets c ≠ Some (sessionKey uid)) cs ->
  isVerified uid a = true -> isVerified uid (run cs a) = true.
Proof.
  induction cs as [|c cs IH]; intros a uid Hall Hv; [exact Hv|].
  inversion Hall as [|? ? [Hst Hre] Hall']; subst. cbn [run foldl].
  apply IH; [assumption|]. apply step_keeps_isVerified; assumption.
Qed.

End TwoFATraces.

Module TwoFACounters.
Import TwoFAAuth.

Lemma run_maxAttempts cs : forall a, maxAttempts (run cs a) = maxAttempts a.
Proof.
  induction cs as [|c cs IH]; intros a; [reflexivity|].
  cbn [run foldl]. fold (run cs (step c a)).
  rewrite IH. apply TwoFAFacts.step_maxAttempts.
Qed.

Lemma new_maxAttempts o a :
  new o = Ret a -> maxAttempts a = or_default (opt_maxAttempts o) 3.
Proof.
  unfold new. intros H.
  destruct (AuthTransportOptions.botSettings (base o));
    [|destruct (truthy_string (AuthTransportOptions.botToken (base o)))];
    inversion H; reflexivity.
Qed.

(** Wrong codes within the lifetime of an unused challenge: each one
    costs an attempt until the limit is reached. *)
Lemma wrong_codes_count uid s (ws : list (Z * string)) : forall a,
  sessions a !! sessionKey uid = Some s -> used s = false ->
  attemptsOf a (sessionKey uid) <= maxAttempts a ->
  Forall (fun w => w.1 <= expiresAt s /\ w.2 ≠ TwoFAAuth.code s) ws ->
  let a' := run (map (fun w => Verify2FA w.1 uid w.2) ws) a in
  sessions a' = sessions a
  /\ maxAttempts a' = maxAttempts a
  /\ attemptsOf a' (sessionKey uid)
     = Z.min (attemptsOf a (sessionKey uid) + Z.of_nat (length ws)) (maxAttempts a).
Proof.
  induction ws as [|[now code] ws IH]; intros a Hs Hu Hle Hall a'; subst a'.
  - cbn [map run foldl length]. split; [reflexivity|]. split; [reflexivity|]. lia.
  - inversion Hall as [|? ? [Hnow Hcode] Hall']; subst. cbn [fst snd] in *.
    cbn [map run foldl step fst snd].
    fold (run (map (fun w => Verify2FA w.1 uid w.2) ws)
              (verify2FA now uid code a).1.2).
    destruct (Z.lt_ge_cases (attemptsOf a (sessionKey uid)) (maxAttempts a))
      as [Hlt|Hge].
    + destruct (TwoFAFacts.verify2FA_compared now uid code a s Hs Hnow Hu Hlt)
        as (Hatt & Hres & Hsame & _).
      rewrite bool_decide_eq_false_2 in Hres by congruence.
      specialize (Hsame Hres).
      set (a1 := (verify2FA now uid code a).1.2) in *.
      assert (Hmax : maxAttempts a1 = maxAttempts a)
        by apply (TwoFAFacts.step_maxAttempts (Verify2FA now uid code) a).
      assert (Hn1 : attemptsOf a1 (sessionKey uid)
                    = attemptsOf a (sessionKey uid) + 1).
      { unfold attemptsOf at 1. rewrite Hatt, lookup_insert_eq. reflexivity. }
      destruct (IH a1) as (IH1 & IH2 & IH3);
        [rewrite Hsame; exact Hs | exact Hu | lia | exact Hall' |].
      split; [congruence|]. split; [congruence|].
      rewrite IH3, Hn1, Hmax. cbn [length]. lia.
    + rewrite (TwoFAFacts.verify2FA_exhausted now uid code a s Hs Hnow Hu Hge).
      cbn [fst snd].
      destruct (IH a Hs Hu Hle Hall') as (IH1 & IH2 & IH3).
      split; [exact IH1|]. split; [exact IH2|].
      rewrite IH3. cbn [length]. lia.
Qed.

End TwoFACounters.

(** X6.  From a fresh instance the attempt counter of every subject
    stays between 0 and the configured limit. *)
Theorem attempts_within_limit (o : TwoFAAuth.TwoFAOptions) (a : TwoFAAuth.t)
    (cs : list TwoFAAuth.Call) (key : string) :
  TwoFAAuth.new o = Ret a ->
  0 <= TwoFAAuth.attemptsOf (TwoFAAuth.run cs a) key
    <= Z.max 0 (TwoFAAuth.or_default (TwoFAAuth.opt_maxAttempts o) 3).
Proof.
  intros Hnew.
  assert (Hb : TwoFAAuth.attempts_bounded (TwoFAAuth.run cs a)).
  { apply TwoFATraces.run_attempts_bounded. intros k n.
    destruct (TwoFAFacts.new_sessions o a Hnew) as [_ ->].
    rewrite lookup_empty. discriminate. }
  rewrite <- (TwoFACounters.new_maxAttempts o a Hnew),
          <- (TwoFACounters.run_maxAttempts cs a).
  unfold TwoFAAuth.attemptsOf.
  destruct (TwoFAAuth.attempts (TwoFAAuth.run cs a) !! key) as [n|] eqn:Hn;
    cbn [default]; [exact (Hb _ _ Hn) | lia].
Qed.

Lemma attempts_within_limit_witness :
  0 <= TwoFAAuth.attemptsOf
         (TwoFAAuth.run
            (TwoFAAuth.Start2FA 1000 1000 halfEntropy (JNum 42) None false
               :: threeWrong ++ threeWrong) twoFA0) "42"
    <= Z.max 0 (TwoFAAuth.or_default (TwoFAAuth.opt_maxAttempts twoFAOptions) 3).
Proof. apply (attempts_within_limit twoFAOptions twoFA0). reflexivity. Defined.

(** X7.  A challenge verifies at most once. *)
Theorem verify2FA_at_most_once (a : TwoFAAuth.t) (now : Z) (uid : JsValue)
    (code : string) (cs : list TwoFAAuth.Call) (now' : Z) (code' : string) :
  (TwoFAAuth.verify2FA now uid code a).1.1 = true ->
  Forall (fun c => TwoFAAuth.starts c ≠ Some (TwoFAAuth.sessionKey uid)) cs ->
  let a1 := TwoFAAuth.run cs (TwoFAAuth.verify2FA now uid code a).1.2 in
  (TwoFAAuth.verify2FA now' uid code' a1).1.1 = false
  /\ (TwoFAAuth.verify2FA now' uid code' a1).1.2 = a1.
Proof.
  intros Hok Hcs a1. subst a1.
  apply TwoFATraces.verify2FA_spent.
  apply TwoFATraces.run_keeps_spent; [exact Hcs|].
  destruct (TwoFATraces.verify2FA_true_inv _ _ _ _ Hok)
    as (s & _ & _ & _ & _ & _ & ->).
  intros s'. rewrite lookup_insert_eq. intros [= <-]. reflexivity.
Qed.

Lemma verify2FA_at_most_once_witness :
  let a1 := TwoFAAuth.run [TwoFAAuth.IsVerified (JNum 42)]
              (TwoFAAuth.verify2FA 5000 (JNum 42) "550000" twoFA1).1.2 in
  (TwoFAAuth.verify2FA 6000 (JNum 42) "550000" a1).1.1 = false
  /\ (TwoFAAuth.verify2FA 6000 (JNum 42) "550000" a1).1.2 = a1.
Proof.
  assert (H : (TwoFAAuth.verify2FA 5000 (JNum 42) "550000" twoFA1).1.1 = true)
    by (vm_compute; reflexivity).
  refine (verify2FA_at_most_once twoFA1 5000 (JNum 42) "550000"
            [TwoFAAuth.IsVerified (JNum 42)] 6000 "550000" H _).
  repeat constructor. discriminate.
Defined.

(** X8.  [isVerified] is true exactly after a successful [verify2FA]
    with no later [start2FA] or [reset2FA] for the subject. *)
Theorem isVerified_iff (o : TwoFAAuth.TwoFAOptions) (a : TwoFAAuth.t)
    (cs : list TwoFAAuth.Call) (uid : JsValue) :
  TwoFAAuth.new o = Ret a ->
  TwoFAAuth.isVerified uid (TwoFAAuth.run cs a) = true
  <-> exists cs1 now uid' code cs2,
        cs = cs1 ++ TwoFAAuth.Verify2FA now uid' code :: cs2
        /\ TwoFAAuth.sessionKey uid' = TwoFAAuth.sessionKey uid
        /\ (TwoFAAuth.verify2FA now uid' code (TwoFAAuth.run cs1 a)).1.1 = true
        /\ Forall (fun c => TwoFAAuth.starts c ≠ Some (TwoFAAuth.sessionKey uid)
                            /\ TwoFAAuth.resets c ≠ Some (TwoFAAuth.sessionKey uid))
                  cs2.
Proof.
  intros Hnew. split.
  - induction cs as [|c cs IH] using rev_ind.
    + cbn [TwoFAAuth.run foldl]. unfold TwoFAAuth.isVerified.
      destruct (TwoFAFacts.new_sessions o a Hnew) as [-> _].
      rewrite lookup_empty. discriminate.
    + rewrite TwoFATraces.twoFA_run_snoc. intros Hv.
      destruct (TwoFATraces.step_isVerified _ _ _ Hv)
        as [(now & uid' & code & -> & Hk & Hok) | (Hv' & Hst & Hre)].
      * exists cs, now, uid', code, []. repeat split; try assumption. constructor.
      * destruct (IH Hv') as (cs1 & now & uid' & code & cs2 & -> & Hk & Hok & Hall).
        exists cs1, now, uid', code, (cs2 ++ [c]).
        split; [rewrite <- app_assoc; reflexivity|].
        split; [exact Hk|]. split; [exact Hok|].
        apply Forall_app. split; [exact Hall|]. repeat constructor; assumption.
  - intros (cs1 & now & uid' & code & cs2 & -> & Hk & Hok & Hall).
    rewrite TwoFATraces.twoFA_run_app. cbn [TwoFAAuth.run foldl TwoFAAuth.step].
    fold (TwoFAAuth.run cs2
            (TwoFAAuth.verify2FA now uid' code (TwoFAAuth.run cs1 a)).1.2).
    apply TwoFATraces.run_keeps_isVerified; [exact Hall|].
    destruct (TwoFATraces.verify2FA_true_inv _ _ _ _ Hok)
      as (s & _ & _ & _ & _ & _ & Hs).
    unfold TwoFAAuth.isVerified. rewrite Hs, Hk, lookup_insert_eq. reflexivity.
Qed.

Lemma isVerified_iff_witness :
  TwoFAAuth.isVerified (JStr "42")
    (TwoFAAuth.run [TwoFAAuth.Start2FA 1000 1000 halfEntropy (JNum 42) None false;
                    TwoFAAuth.Verify2FA 5000 (JNum 42) "550000";
                    TwoFAAuth.Reset2FA (JNum 7)] twoFA0) = true.
Proof.
  apply (proj2 (isVerified_iff twoFAOptions twoFA0 _ (JStr "42") eq_refl)).
  exists [TwoFAAuth.Start2FA 1000 1000 halfEntropy (JNum 42) None false],
         5000, (JNum 42), "550000", [TwoFAAuth.Reset2FA (JNum 7)].
  split; [reflexivity|]. split; [reflexivity|].
  split; [vm_compute; reflexivity|].
  repeat constructor; discriminate.
Defined.

(** X9.  After [reset2FA] the subject has no challenge: verification
    fails until the next [start2FA]; other subjects are untouched. *)
Theorem reset2FA_clears (uid : JsValue) (a : TwoFAAuth.t)
    (cs : list TwoFAAuth.Call) (now : Z) (code : string) :
  Forall (fun c => TwoFAAuth.starts c ≠ Some (TwoFAAuth.sessionKey uid)) cs ->
  let a' := (TwoFAAuth.reset2FA uid a).1 in
  TwoFAAuth.verify2FA now uid code a'
  = (false, a',
     [Log WARN ("2FA session not found for user " +:+ TwoFAAuth.sessionKey uid)])
  /\ (TwoFAAuth.verify2FA now uid code (TwoFAAuth.run cs a')).1.1 = false
  /\ TwoFAAuth.isVerified uid a' = false
  /\ TwoFAAuth.attemptsOf a' (TwoFAAuth.sessionKey uid) = 0
  /\ (forall k, k ≠ TwoFAAuth.sessionKey uid ->
      TwoFAAuth.sessions a' !! k = TwoFAAuth.sessions a !! k
      /\ TwoFAAuth.attempts a' !! k = TwoFAAuth.attempts a !! k).
Proof.
  intros Hcs a'.
  assert (Hs : TwoFAAuth.sessions a' !! TwoFAAuth.sessionKey uid = None)
    by apply lookup_delete_eq.
  split; [apply TwoFAFacts.verify2FA_missing, Hs|].
  split.
  { apply TwoFAFacts.verify2FA_locked.
    apply TwoFAFacts.run_keeps_locked; [exact Hcs | left; exact Hs]. }
  split; [unfold TwoFAAuth.isVerified; rewrite Hs; reflexivity|].
  split.
  { unfold TwoFAAuth.attemptsOf. subst a'. cbn [TwoFAAuth.reset2FA fst TwoFAAuth.attempts].
    rewrite lookup_delete_eq. reflexivity. }
  intros k Hk. subst a'.
  cbn [TwoFAAuth.reset2FA fst TwoFAAuth.sessions TwoFAAuth.attempts].
  rewrite !lookup_delete_ne by congruence. split; reflexivity.
Qed.

Lemma reset2FA_clears_witness :
  (TwoFAAuth.verify2FA 5000 (JNum 42) "550000"
     (TwoFAAuth.run [TwoFAAuth.Verify2FA 2000 (JNum 42) "550000"]
        (TwoFAAuth.reset2FA (JNum 42) twoFA1).1)).1.1 = false.
Proof.
  assert (H : Forall (fun c => TwoFAAuth.starts c ≠ Some (TwoFAAuth.sessionKey (JNum 42)))
                     [TwoFAAuth.Verify2FA 2000 (JNum 42) "550000"]).
  { repeat constructor. discriminate. }
  exact (proj1 (proj2 (reset2FA_clears (JNum 42) twoFA1 _ 5000 "550000" H))).
Defined.

(** X10.  After [k] wrong codes the right code is accepted exactly when
    the limit has not been reached. *)
Theorem wrong_codes_then_right (a : TwoFAAuth.t) (uid : JsValue)
    (s : TwoFAAuth.TwoFASession) (ws : list (Z * string)) (now : Z) :
  TwoFAAuth.sessions a !! TwoFAAuth.sessionKey uid = Some s ->
  TwoFAAuth.used s = false ->
  TwoFAAuth.attemptsOf a (TwoFAAuth.sessionKey uid) <= TwoFAAuth.maxAttempts a ->
  Forall (fun w => w.1 <= TwoFAAuth.expiresAt s /\ w.2 ≠ TwoFAAuth.code s) ws ->
  now <= TwoFAAuth.expiresAt s ->
  let a' := TwoFAAuth.run (map (fun w => TwoFAAuth.Verify2FA w.1 uid w.2) ws) a in
  TwoFAAuth.attemptsOf a' (TwoFAAuth.sessionKey uid)
  = Z.min (TwoFAAuth.attemptsOf a (TwoFAAuth.sessionKey uid) + Z.of_nat (length ws))
          (TwoFAAuth.maxAttempts a)
  /\ TwoFAAuth.sessions a' = TwoFAAuth.sessions a
  /\ (TwoFAAuth.verify2FA now uid (TwoFAAuth.code s) a').1.1
     = bool_decide (TwoFAAuth.attemptsOf a (TwoFAAuth.sessionKey uid)
                    + Z.of_nat (length ws) < TwoFAAuth.maxAttempts a).
Proof.
  intros Hs Hu Hle Hall Hnow a'.
  destruct (TwoFACounters.wrong_codes_count uid s ws a Hs Hu Hle Hall)
    as (Hsess & Hmax & Hatt).
  fold a' in Hsess, Hmax, Hatt.
  assert (Hs' : TwoFAAuth.sessions a' !! TwoFAAuth.sessionKey uid = Some s)
    by (rewrite Hsess; exact Hs).
  split; [exact Hatt|].
  split; [exact Hsess|].
  destruct (Z.lt_ge_cases
              (TwoFAAuth.attemptsOf a (TwoFAAuth.sessionKey uid) + Z.of_nat (length ws))
              (TwoFAAuth.maxAttempts a)) as [Hlt|Hge].
  - rewrite bool_decide_eq_true_2 by exact Hlt.
    destruct (TwoFAFacts.verify2FA_compared now uid (TwoFAAuth.code s) a' s Hs' Hnow Hu)
      as (_ & Hres & _); [lia|].
    rewrite Hres. apply bool_decide_eq_true_2. reflexivity.
  - rewrite bool_decide_eq_false_2 by lia.
    rewrite (TwoFAFacts.verify2FA_exhausted now uid (TwoFAAuth.code s) a' s Hs' Hnow Hu);
      [reflexivity | lia].
Qed.

Lemma wrong_codes_then_right_witness :
  (TwoFAAuth.verify2FA 5000 (JNum 42) "550000"
     (TwoFAAuth.run
        (map (fun w => TwoFAAuth.Verify2FA w.1 (JNum 42) w.2)
             [(2000, "000000"); (3000, "111111")]) twoFA1)).1.1
  = bool_decide (TwoFAAuth.attemptsOf twoFA1 (TwoFAAuth.sessionKey (JNum 42))
                 + Z.of_nat (length [(2000, "000000"); (3000, "111111")])
                 < TwoFAAuth.maxAttempts twoFA1).
Proof.
  assert (Hs : TwoFAAuth.sessions twoFA1 !! TwoFAAuth.sessionKey (JNum 42)
               = Some {| TwoFAAuth.userId := JNum 42; TwoFAAuth.code := "550000";
                         TwoFAAuth.createdAt := 1000; TwoFAAuth.expiresAt := 301000;
                         TwoFAAuth.used := false; TwoFAAuth.verified := false;
                         TwoFAAuth.userData := None |})
    by (vm_compute; reflexivity).
  assert (Hle : TwoFAAuth.attemptsOf twoFA1 (TwoFAAuth.sessionKey (JNum 42))
                <= TwoFAAuth.maxAttempts twoFA1)
    by (vm_compute; discriminate).
  refine (proj2 (proj2 (wrong_codes_then_right twoFA1 (JNum 42) _
                          [(2000, "000000"); (3000, "111111")] 5000
                          Hs eq_refl Hle _ _))).
  - repeat constructor; cbn [fst snd TwoFAAuth.expiresAt TwoFAAuth.code];
      (lia || discriminate).
  - cbn [TwoFAAuth.expiresAt]. lia.
Defined.

Module SessionInvariants.
Import SessionManager.

Lemma strict_eq_NaN_r v : strict_eq v JNaN = false.
Proof. destruct v; reflexivity. Qed.


(** Every call keeps the sessions stored under their own ids. *)
Lemma step_keyed c m : keyed m -> keyed (step c m).
Proof.
  unfold keyed. intros Hk sid s.
  destruct c as [sid' now u md|now1 now2 sid'|now sid' md|sid'|uid|now];
    cbn [step].
  - unfold createSession. cbn [fst snd sessions with_sessions].
    destruct (decide (sid' = sid)) as [<-|Hne].
    + rewrite lookup_insert_eq. intros [= <-]. reflexivity.
    + rewrite lookup_insert_ne by exact Hne. apply Hk.
  - unfold getSession.
    destruct (sessions m !! sid') as [s0|] eqn:Hs0; [|apply Hk].
    destruct (sessionLifetime m <? now1 - lastActivity s0);
      cbn [fst snd sessions with_sessions].
    + intros Hs. apply lookup_delete_Some in Hs as [_ Hs]. exact (Hk _ _ Hs).
    + destruct (decide (sid' = sid)) as [<-|Hne].
      * rewrite lookup_insert_eq. intros [= <-]. exact (Hk _ _ Hs0).
      * rewrite lookup_insert_ne by exact Hne. apply Hk.
  - unfold updateSession.
    destruct (sessions m !! sid') as [s0|] eqn:Hs0; [|apply Hk].
    cbn [fst snd sessions with_sessions].
    destruct (decide (sid' = sid)) as [<-|Hne].
    + rewrite lookup_insert_eq. intros [= <-]. exact (Hk _ _ Hs0).
    + rewrite lookup_insert_ne by exact Hne. apply Hk.
  - unfold deleteSession. cbn [fst snd sessions with_sessions].
    intros Hs. apply lookup_delete_Some in Hs as [_ Hs]. exact (Hk _ _ Hs).
  - unfold clearUserSessions. cbn [fst snd sessions with_sessions].
    intros Hs. apply map_lookup_filter_Some in Hs as [Hs _]. exact (Hk _ _ Hs).
  - unfold cleanExpiredSessions. cbn [fst snd sessions with_sessions].
    intros Hs. apply map_lookup_filter_Some in Hs as [Hs _]. exact (Hk _ _ Hs).
Qed.

End SessionInvariants.

(** X11.  A session is read back as created while it is fresh, and is
    dropped by the first read after its lifetime, when nothing reaches
    the instance in between, or only settlements of a load that has
    settled already.  A load that was pending and settles in between
    replaces the map: the session is then read back only if the loaded
    map holds it, and is lost with the empty map of the default
    store. *)
Theorem createSession_getSession (sid : string) (now : Z) (u : AuthResult.t)
    (md : option (gmap string JsValue)) (l : SessionManager.Live)
    (now1 now2 : Z) :
  let m := SessionManager.state l in
  let l1 := SessionManager.occur
              (SessionManager.Invoke (SessionManager.CreateSession sid now u md)) l in
  let created := {| SessionManager.id := sid; SessionManager.userData := u;
                    SessionManager.createdAt := now;
                    SessionManager.lastActivity := now;
                    SessionManager.metadata := md |} in
  SessionManager.sessions (SessionManager.state l1) !! sid = Some created
  /\ (forall evs,
        Forall (fun ev => SessionManager.settles ev = true) evs ->
        SessionManager.loading l = false \/ evs = [] ->
        let r := SessionManager.getSession now1 now2 sid
                   (SessionManager.state (SessionManager.elapse evs l1)) in
        (now1 - now <= SessionManager.sessionLifetime m ->
         r.1.1 = Some {| SessionManager.id := sid; SessionManager.userData := u;
                         SessionManager.createdAt := now;
                         SessionManager.lastActivity := now2;
                         SessionManager.metadata := md |}
         /\ r.2 = [])
        /\ (SessionManager.sessionLifetime m < now1 - now ->
            r.1.1 = None
            /\ SessionManager.sessions r.1.2 = delete sid (SessionManager.sessions m)
            /\ r.2 = [SessionManager.Save (SessionManager.sessions r.1.2)]
            /\ forall t1 t2,
                 SessionManager.getSession t1 t2 sid r.1.2 = (None, r.1.2, [])))
  /\ (SessionManager.loading l = true ->
      forall snapshot,
        let l2 := SessionManager.occur (SessionManager.Settle (Some snapshot)) l1 in
        SessionManager.sessions (SessionManager.state l2) = snapshot
        /\ (snapshot !! sid = None ->
            SessionManager.getSession now1 now2 sid (SessionManager.state l2)
            = (None, SessionManager.state l2, []))).
Proof.
  intros m l1 created.
  assert (Hl1 : SessionManager.state l1
                = SessionManager.with_sessions m
                    (<[sid := created]> (SessionManager.sessions m)))
    by reflexivity.
  split; [rewrite Hl1; apply lookup_insert_eq|].
  split.
  - intros evs Hevs Hload r.
    assert (Hsame : SessionManager.elapse evs l1 = l1).
    { destruct Hload as [Hload | ->]; [|reflexivity].
      assert (Hl : SessionManager.loading l1 = false) by exact Hload.
      clear Hload. induction Hevs as [|ev evs Hev _ IH]; [reflexivity|].
      cbn [SessionManager.elapse foldl].
      destruct ev as [c|loaded]; [discriminate|].
      cbn [SessionManager.occur]. rewrite Hl. exact IH. }
    subst r. rewrite Hsame, Hl1.
    unfold SessionManager.getSession.
    cbn [fst snd SessionManager.sessions SessionManager.with_sessions
         SessionManager.sessionLifetime].
    rewrite lookup_insert_eq. subst created. cbn [SessionManager.lastActivity].
    destruct (Z.ltb_spec (SessionManager.sessionLifetime m) (now1 - now)) as [Hlt|Hge];
      cbn [fst snd SessionManager.sessions SessionManager.with_sessions
           SessionManager.saveSessions].
    + split; [lia|]. intros _. rewrite delete_insert_eq.
      split; [reflexivity|]. split; [reflexivity|]. split; [reflexivity|].
      intros t1 t2. cbn [SessionManager.sessions]. rewrite lookup_delete_eq.
      reflexivity.
    + split; [|lia]. intros _. split; reflexivity.
  - intros Hload snapshot l2.
    assert (Hl2 : SessionManager.state l2
                  = SessionManager.with_sessions (SessionManager.state l1) snapshot).
    { subst l2. cbn [SessionManager.occur].
      assert (Hl : SessionManager.loading l1 = true) by exact Hload.
      rewrite Hl. reflexivity. }
    split; [rewrite Hl2; reflexivity|].
    intros Hsnap. rewrite Hl2. unfold SessionManager.getSession.
    cbn [SessionManager.sessions SessionManager.with_sessions]. rewrite Hsnap.
    reflexivity.
Qed.

Lemma createSession_getSession_witness :
  let l1 := SessionManager.occur
              (SessionManager.Invoke
                 (SessionManager.CreateSession "s2" 100 bob None))
              {| SessionManager.state := manager0; SessionManager.loading := false |} in
  (SessionManager.getSession 600 600 "s2"
     (SessionManager.state
        (SessionManager.elapse [SessionManager.Settle (Some ∅)] l1))).1.1
  = Some {| SessionManager.id := "s2"; SessionManager.userData := bob;
            SessionManager.createdAt := 100; SessionManager.lastActivity := 600;
            SessionManager.metadata := None |}
  /\ (SessionManager.getSession 600 600 "s2"
        (SessionManager.state
           (SessionManager.occur (SessionManager.Settle (Some ∅))
              (SessionManager.occur
                 (SessionManager.Invoke
                    (SessionManager.CreateSession "s2" 100 bob None))
                 (SessionManager.construct None))))).1.1 = None.
Proof.
  split.
  - assert (Hevs : Forall (fun ev => SessionManager.settles ev = true)
                     [SessionManager.Settle (Some (∅ : gmap string SessionManager.Session))])
      by (repeat constructor).
    assert (Ht : 600 - 100 <= SessionManager.sessionLifetime manager0)
      by (vm_compute; discriminate).
    exact (proj1 (proj1 (proj1 (proj2 (createSession_getSession "s2" 100 bob None
                    {| SessionManager.state := manager0;
                       SessionManager.loading := false |} 600 600))
                    _ Hevs (or_introl eq_refl)) Ht)).
  - assert (Hsnap : (∅ : gmap string SessionManager.Session) !! "s2" = None)
      by reflexivity.
    exact (f_equal (fun r => r.1.1)
             (proj2 (proj2 (proj2 (createSession_getSession "s2" 100 bob None
                       (SessionManager.construct None) 600 600)) eq_refl ∅) Hsnap)).
Defined.

(** X12.  Every successful read restarts the lifetime. *)
Theorem getSession_sliding (now1 now2 : Z) (sid : string)
    (m : SessionManager.t) (s : SessionManager.Session) (t1 t2 : Z) :
  (SessionManager.getSession now1 now2 sid m).1.1 = Some s ->
  t1 - now2 <= SessionManager.sessionLifetime m ->
  SessionManager.lastActivity s = now2
  /\ (SessionManager.getSession t1 t2 sid
        (SessionManager.getSession now1 now2 sid m).1.2).1.1
     = Some {| SessionManager.id := SessionManager.id s;
               SessionManager.userData := SessionManager.userData s;
               SessionManager.createdAt := SessionManager.createdAt s;
               SessionManager.lastActivity := t2;
               SessionManager.metadata := SessionManager.metadata s |}.
Proof.
  unfold SessionManager.getSession at 1 3.
  destruct (SessionManager.sessions m !! sid) as [s0|] eqn:Hs0; [|discriminate].
  destruct (SessionManager.sessionLifetime m <? now1 - SessionManager.lastActivity s0);
    [discriminate|].
  cbn [fst snd]. intros [= <-] Ht. split; [reflexivity|].
  unfold SessionManager.getSession.
  cbn [SessionManager.sessions SessionManager.with_sessions
       SessionManager.sessionLifetime].
  rewrite lookup_insert_eq. cbn [SessionManager.lastActivity].
  destruct (Z.ltb_spec (SessionManager.sessionLifetime m) (t1 - now2)); [lia|].
  reflexivity.
Qed.

Lemma getSession_sliding_witness :
  (SessionManager.getSession 1800 1800 "s1"
     (SessionManager.getSession 900 900 "s1" manager0).1.2).1.1
  = Some {| SessionManager.id := "s1"; SessionManager.userData := alice;
            SessionManager.createdAt := 0; SessionManager.lastActivity := 1800;
            SessionManager.metadata := None |}.
Proof.
  refine (proj2 (getSession_sliding 900 900 "s1" manager0
                   {| SessionManager.id := "s1"; SessionManager.userData := alice;
                      SessionManager.createdAt := 0;
                      SessionManager.lastActivity := 900;
                      SessionManager.metadata := None |} 1800 1800 _ _)).
  - vm_compute. reflexivity.
  - vm_compute. discriminate.
Defined.

(** X13.  The sweep removes exactly the expired sessions and saves exactly
    when it removed one. *)
Theorem cleanExpiredSessions_post (now : Z) (m : SessionManager.t) :
  let r := SessionManager.cleanExpiredSessions now m in
  (forall sid s,
      SessionManager.sessions r.1 !! sid = Some s
      <-> SessionManager.sessions m !! sid = Some s
          /\ now - SessionManager.lastActivity s <= SessionManager.sessionLifetime m)
  /\ (SessionManager.sessions r.1 = SessionManager.sessions m -> r.2 = [])
  /\ (SessionManager.sessions r.1 ≠ SessionManager.sessions m ->
      r.2 = [SessionManager.Save (SessionManager.sessions r.1)])
  /\ SessionManager.cleanExpiredSessions now r.1 = (r.1, []).
Proof.
  intros r.
  assert (Hlook : forall sid s,
      SessionManager.sessions r.1 !! sid = Some s
      <-> SessionManager.sessions m !! sid = Some s
          /\ now - SessionManager.lastActivity s <= SessionManager.sessionLifetime m).
  { intros sid s. subst r. unfold SessionManager.cleanExpiredSessions.
    cbn [fst SessionManager.sessions SessionManager.with_sessions].
    rewrite map_lookup_filter_Some. unfold SessionManager.expired. cbn [snd].
    split; intros [? ?]; split; try assumption; lia. }
  split; [exact Hlook|].
  split.
  { intros Heq. subst r. unfold SessionManager.cleanExpiredSessions in *.
    cbn [fst snd] in *.
    destruct (bool_decide _) eqn:E; [|reflexivity].
    exfalso. apply bool_decide_eq_true in E.
    apply map_Exists_lookup in E as (sid & s & Hs & Hexp).
    rewrite <- Heq in Hs. cbn [SessionManager.sessions SessionManager.with_sessions] in Hs.
    apply map_lookup_filter_Some in Hs as [_ Hn]. exact (Hn Hexp). }
  split; [apply SessionFacts.cleanExpiredSessions_saves|].
  unfold SessionManager.cleanExpiredSessions at 1.
  assert (Hid : filter (fun kv => ¬ SessionManager.expired r.1 now kv.2)
                       (SessionManager.sessions r.1)
                = SessionManager.sessions r.1).
  { apply map_filter_id. intros sid s Hs. apply Hlook in Hs as [_ Hs].
    unfold SessionManager.expired. cbn [snd].
    change (SessionManager.sessionLifetime r.1) with (SessionManager.sessionLifetime m).
    lia. }
  rewrite Hid.
  rewrite bool_decide_eq_false_2.
  - destruct r as [[ss lt] calls]. reflexivity.
  - intros E. apply map_Exists_lookup in E as (sid & s & Hs & Hexp).
    apply Hlook in Hs as [_ Hs]. unfold SessionManager.expired in Hexp.
    change (SessionManager.sessionLifetime r.1) with (SessionManager.sessionLifetime m)
      in Hexp. lia.
Qed.

Lemma cleanExpiredSessions_post_witness :
  (SessionManager.cleanExpiredSessions 500 manager0).2 = []
  /\ (SessionManager.cleanExpiredSessions 1001 manager0).2
     = [SessionManager.Save
          (SessionManager.sessions (SessionManager.cleanExpiredSessions 1001 manager0).1)].
Proof.
  split.
  - apply (proj1 (proj2 (cleanExpiredSessions_post 500 manager0))).
    vm_compute. reflexivity.
  - apply (proj1 (proj2 (proj2 (cleanExpiredSessions_post 1001 manager0)))).
    vm_compute. discriminate.
Defined.







(** X17.  [updateSession] merges the patch over the stored metadata. *)
Theorem updateSession_merges (now : Z) (sid : string)
    (md : gmap string JsValue) (m : SessionManager.t) (s : SessionManager.Session) :
  SessionManager.sessions m !! sid = Some s ->
  exists md',
    SessionManager.sessions (SessionManager.updateSession now sid md m).1.2 !! sid
    = Some {| SessionManager.id := SessionManager.id s;
              SessionManager.userData := SessionManager.userData s;
              SessionManager.createdAt := SessionManager.createdAt s;
              SessionManager.lastActivity := now;
              SessionManager.metadata := Some md' |}
    /\ (forall k v, md !! k = Some v -> md' !! k = Some v)
    /\ (forall k, md !! k = None ->
        md' !! k = default ∅ (SessionManager.metadata s) !! k)
    /\ (forall k, k ≠ sid ->
        SessionManager.sessions (SessionManager.updateSession now sid md m).1.2 !! k
        = SessionManager.sessions m !! k).
Proof.
  intros Hs. unfold SessionManager.updateSession. rewrite Hs.
  cbn [fst snd SessionManager.sessions SessionManager.with_sessions].
  eexists. split; [apply lookup_insert_eq|].
  split; [intros k v Hk; apply lookup_union_Some_l; exact Hk|].
  split; [intros k Hk; apply lookup_union_r; exact Hk|].
  intros k Hk. apply lookup_insert_ne. congruence.
Qed.

Lemma updateSession_merges_witness :
  exists md',
    SessionManager.sessions
      (SessionManager.updateSession 500 "s1" {[ "ip" := JStr "::1" ]} manager0).1.2
      !! "s1"
    = Some {| SessionManager.id := "s1"; SessionManager.userData := alice;
              SessionManager.createdAt := 0; SessionManager.lastActivity := 500;
              SessionManager.metadata := Some md' |}
    /\ md' !! "ip" = Some (JStr "::1").
Proof.
  destruct (updateSession_merges 500 "s1" {[ "ip" := JStr "::1" ]} manager0 sessionS1
              eq_refl) as (md' & H1 & H2 & _).
  exists md'. split; [exact H1|]. apply H2. reflexivity.
Defined.

(** X18.  Sessions stay stored under their own id. *)
Theorem sessions_keyed_by_id (cs : list SessionManager.Call) (m : SessionManager.t) :
  (forall sid s, SessionManager.sessions m !! sid = Some s -> SessionManager.id s = sid) ->
  forall sid s,
    SessionManager.sessions (SessionManager.run cs m) !! sid = Some s ->
    SessionManager.id s = sid.
Proof.
  revert m. induction cs as [|c cs IH]; intros m Hk; [exact Hk|].
  cbn [SessionManager.run foldl]. apply IH.
  apply SessionInvariants.step_keyed. exact Hk.
Qed.

Lemma sessions_keyed_by_id_witness :
  SessionManager.id
    {| SessionManager.id := "s3"; SessionManager.userData := bob;
       SessionManager.createdAt := 200; SessionManager.lastActivity := 300;
       SessionManager.metadata := Some ∅ |} = "s3".
Proof.
  refine (sessions_keyed_by_id
            [SessionManager.CreateSession "s3" 200 bob None;
             SessionManager.UpdateSession 300 "s3" ∅;
             SessionManager.DeleteSession "s1"]
            manager0 _ "s3" _ _).
  - intros sid s Hs. unfold manager0 in Hs. cbn [SessionManager.sessions] in Hs.
    apply lookup_singleton_Some in Hs as [<- <-]. reflexivity.
  - vm_compute. reflexivity.
Defined.

Module WidgetChecks.
Import WidgetAuth.

Lemma firstMissing_None_inv data :
  firstMissing data = None ->
  forall f, f ∈ requiredFields -> truthy (getField data f) = true.
Proof.
  unfold firstMissing. intros H f Hf.
  destruct (list_find _ requiredFields) as [p|] eqn:E; [discriminate|].
  apply list_find_None in E. rewrite Forall_forall in E.
  specialize (E f Hf). destruct (truthy (getField data f)); congruence.
Qed.

Lemma firstMissing_Some data f :
  firstMissing data = Some f -> truthy (getField data f) = false.
Proof.
  unfold firstMissing. intros H.
  destruct (list_find _ requiredFields) as [[i x]|] eqn:E; [|discriminate].
  injection H as <-. apply list_find_Some in E as (_ & E & _). exact E.
Qed.

(** The freshness test in terms of the parsed date: a date that is
    not a number passes, the negative infinity does not. *)
Lemma sub_gt_false now v :
  sub_gt (JNum now) v 86400 = false
  <-> (forall d, v = JNum d -> now - d <= 86400) /\ v ≠ JInf true.
Proof.
  destruct v as [| |b|d|[|]| |s]; cbn;
    try (split; [intros _; split; [intros d'; discriminate | discriminate]
                | reflexivity]).
  - rewrite Z.ltb_ge. split.
    + intros Hle. split; [intros d' [= <-]; exact Hle | discriminate].
    + intros [Hd _]. apply Hd. reflexivity.
  - split; [discriminate | intros [_ Hn]; congruence].
Qed.

(** [delete data.hash] followed by [data.hash = hash] gives the payload
    back when it had the field. *)
Lemma hash_restored (data : gmap string JsValue) :
  is_Some (data !! "hash") ->
  <["hash" := getField data "hash"]> (delete "hash" data) = data.
Proof.
  intros [v Hv]. unfold getField. rewrite Hv. cbn [default].
  rewrite insert_delete_eq. apply insert_id. exact Hv.
Qed.

(** Calls that are all contained let no exception out. *)
Lemma performed_contained h es :
  forallb contained es = true -> (performed h es).2 = None.
Proof.
  induction es as [|e es IH]; [reflexivity|].
  cbn [forallb]. intros Hc. apply andb_true_iff in Hc as [He Hes].
  destruct e; try discriminate; cbn [performed thrownBy snd]; apply IH, Hes.
Qed.

Lemma sendResult_contained w u :
  forallb contained (sendResult w u) = true.
Proof.
  unfold sendResult.
  destruct (AuthTransportOptions.includes (options w) callback
            && AuthTransportOptions.onAuth (options w));
    destruct (AuthTransportOptions.includes (options w) rest);
    destruct (truthy_string (AuthTransportOptions.restEndpoint (options w)));
    destruct (AuthTransportOptions.includes (options w) websocket
              && AuthTransportOptions.hasEmit (options w));
    destruct (AuthTransportOptions.saveHandler (options w)); reflexivity.
Qed.

End WidgetChecks.

(** X19.  Exactly which widget payloads are accepted. *)
Theorem widget_accepts_iff `{Crypto} (nowMs : Z) (data : WidgetAuth.WidgetData)
    (w : WidgetAuth.t) :
  (WidgetAuth.handleAuth nowMs data w).1.1 = Ret true
  <-> exists fields : gmap string JsValue,
        data = WidgetAuth.Object fields
        /\ (forall f, f ∈ WidgetAuth.requiredFields ->
            truthy (getField fields f) = true)
        /\ (forall d, parseInt (getField fields "auth_date") = JNum d ->
            nowMs / 1000 - d <= 86400)
        /\ parseInt (getField fields "auth_date") ≠ JInf true
        /\ (WidgetAuth.validateSignatureOption w = true ->
            exists tok,
              AuthTransportOptions.botToken (WidgetAuth.options w) = Some tok
              /\ getField fields "hash" = JStr (WidgetAuth.expectedHash tok fields)).
Proof.
  split.
  - unfold WidgetAuth.handleAuth.
    destruct data as [v|fields]; [discriminate|].
    destruct (WidgetAuth.firstMissing fields) as [f|] eqn:Hreq; [discriminate|].
    destruct (sub_gt _ _ 86400) eqn:Hfresh; [discriminate|].
    intros Hres. exists fields. split; [reflexivity|].
    split; [apply WidgetChecks.firstMissing_None_inv, Hreq|].
    apply WidgetChecks.sub_gt_false in Hfresh as [Hfresh Hinf].
    split; [exact Hfresh|]. split; [exact Hinf|].
    intros Hon. rewrite Hon in Hres. unfold WidgetAuth.validateSignature in Hres.
    destruct (AuthTransportOptions.botToken (WidgetAuth.options w)) as [tok|];
      [|discriminate].
    exists tok. split; [reflexivity|].
    destruct (bool_decide _) eqn:E in Hres; [|discriminate].
    apply bool_decide_eq_true in E. exact E.
  - intros (fields & -> & Hreq & Hfresh & Hinf & Hsig).
    unfold WidgetAuth.handleAuth.
    rewrite (WidgetFacts.firstMissing_None fields Hreq).
    rewrite (proj2 (WidgetChecks.sub_gt_false _ _) (conj Hfresh Hinf)).
    destruct (WidgetAuth.validateSignatureOption w); [|reflexivity].
    destruct (Hsig eq_refl) as (tok & Htok & Hhash).
    unfold WidgetAuth.validateSignature. rewrite Htok.
    rewrite bool_decide_eq_true_2 by exact Hhash. reflexivity.
Qed.

Lemma widget_accepts_iff_witness :
  (@WidgetAuth.handleAuth exampleCrypto 1700000000000
     (WidgetAuth.Object (<["auth_date" := JStr "soon"]> payloadBadHash))
     widgetNoCheck).1.1 = Ret true.
Proof.
  assert (Hx : exists fields : gmap string JsValue,
             WidgetAuth.Object (<["auth_date" := JStr "soon"]> payloadBadHash)
             = WidgetAuth.Object fields
             /\ (forall f, f ∈ WidgetAuth.requiredFields ->
                 truthy (getField fields f) = true)
             /\ (forall d, parseInt (getField fields "auth_date") = JNum d ->
                 1700000000000 / 1000 - d <= 86400)
             /\ parseInt (getField fields "auth_date") ≠ JInf true
             /\ (WidgetAuth.validateSignatureOption widgetNoCheck = true ->
                 exists tok,
                   AuthTransportOptions.botToken (WidgetAuth.options widgetNoCheck)
                   = Some tok
                   /\ getField fields "hash"
                      = JStr (@WidgetAuth.expectedHash exampleCrypto tok fields))).
  { eexists. split; [reflexivity|]. split; [|split; [|split]].
    - intros f Hf. apply list_elem_of_In in Hf.
      destruct Hf as [<-|[<-|[<-|[<-|[]]]]]; vm_compute; reflexivity.
    - intros d Hd. vm_compute in Hd. discriminate Hd.
    - intros Hd. vm_compute in Hd. discriminate Hd.
    - discriminate. }
  exact (proj2 (@widget_accepts_iff exampleCrypto 1700000000000 _ widgetNoCheck) Hx).
Defined.

(** X20.  What [handleAuth] does besides returning: it dispatches on
    acceptance only, and hands the payload back as it was unless it
    throws.  On acceptance the calls are those of [sendResult] for the
    identity built from the payload, each handler inside its [try],
    followed by a log entry; whatever the handlers do, no exception
    leaves the call. *)
Theorem widget_handleAuth_effects `{Crypto} (nowMs : Z)
    (data : WidgetAuth.WidgetData) (w : WidgetAuth.t) :
  let r := WidgetAuth.handleAuth nowMs data w in
  (forall h : Handlers, (performed h r.2).2 = None)
  /\ match r.1.1 with
     | Ret true =>
         r.1.2 = data
         /\ exists fields,
             data = WidgetAuth.Object fields
             /\ r.2 = WidgetAuth.sendResult w
                        (AuthResult.mk (parseInt (getField fields "id")) false
                           (getField fields "first_name")
                           (getField fields "last_name")
                           (getField fields "username")
                           (getField fields "language_code")
                           (getField fields "photo_url") JUndefined)
                      ++ [Log INFO "User authenticated via widget"]
     | Ret false => r.1.2 = data /\ exists msg, r.2 = [Log WARN msg]
     | Throw e =>
         r.2 = []
         /\ exists fields,
             data = WidgetAuth.Object fields
             /\ r.1.2 = WidgetAuth.Object (delete "hash" fields)
     end.
Proof.
  intros r.
  assert (Hacc : forall fields h,
            (performed h (WidgetAuth.accept w fields).2).2 = None).
  { intros fields h. apply WidgetChecks.performed_contained.
    unfold WidgetAuth.accept. cbn [snd]. rewrite forallb_app.
    rewrite WidgetChecks.sendResult_contained. reflexivity. }
  subst r. unfold WidgetAuth.handleAuth.
  destruct data as [v|fields];
    [split; [reflexivity|split; [reflexivity|eexists; reflexivity]]|].
  destruct (WidgetAuth.firstMissing fields) as [f|] eqn:Hreq;
    [split; [reflexivity|split; [reflexivity|eexists; reflexivity]]|].
  destruct (sub_gt _ _ 86400);
    [split; [reflexivity|split; [reflexivity|eexists; reflexivity]]|].
  assert (Hhash : is_Some (fields !! "hash")).
  { apply WidgetFacts.truthy_is_Some.
    apply (WidgetChecks.firstMissing_None_inv fields Hreq).
    unfold WidgetAuth.requiredFields. set_solver. }
  destruct (WidgetAuth.validateSignatureOption w).
  - unfold WidgetAuth.validateSignature.
    destruct (AuthTransportOptions.botToken (WidgetAuth.options w)) as [tok|].
    + rewrite (WidgetChecks.hash_restored fields Hhash).
      destruct (bool_decide _).
      * split; [intros h; apply Hacc|].
        cbn [fst snd WidgetAuth.accept].
        split; [reflexivity|]. exists fields. split; reflexivity.
      * split; [reflexivity|]. cbn [fst snd].
        split; [reflexivity|eexists; reflexivity].
    + split; [reflexivity|]. cbn [fst snd].
      split; [reflexivity|]. exists fields. split; reflexivity.
  - split; [intros h; apply Hacc|].
    cbn [fst snd WidgetAuth.accept].
    split; [reflexivity|]. exists fields. split; reflexivity.
Qed.

(** A handler that throws inside [sendResult]: the error is logged and
    the other calls are made; [emit] is not called unless it is a
    function. *)
Example widget_handler_throws :
  let o := AuthTransportOptions.mk (Some [callback; websocket]) None
             (Some {| emit := true; emitIsFunction := false |})
             true true None (Some "123:abc") None in
  let w := {| WidgetAuth.options := o;
              WidgetAuth.validateSignatureOption := false |} in
  let h := fun call => match call with
                       | CallOnAuth _ => Some (Error "boom")
                       | _ => None
                       end in
  let r := @WidgetAuth.handleAuth exampleCrypto 1700000000000
             (WidgetAuth.Object payloadBadHash) w in
  r.1.1 = Ret true
  /\ performed h r.2
     = ([CallOnAuth (AuthResult.mk (JNum 7) false (JStr "Ann") JUndefined
                       (JStr EmptyString) JUndefined JUndefined JUndefined);
         Log ERROR "Error in onAuth callback";
         CallSaveHandler (AuthResult.mk (JNum 7) false (JStr "Ann") JUndefined
                            (JStr EmptyString) JUndefined JUndefined JUndefined);
         Log INFO "User authenticated via widget"], None).
Proof. vm_compute. split; reflexivity. Qed.

(** X21.  The check string depends on the string forms of the truthy
    fields only. *)
Theorem dataCheckString_by_string_form (d1 d2 : gmap string JsValue) :
  (forall k, k ≠ "hash" ->
      truthy (getField d1 k) = truthy (getField d2 k)
      /\ (truthy (getField d1 k) = true ->
          toString (getField d1 k) = toString (getField d2 k))) ->
  WidgetAuth.dataCheckString d1 = WidgetAuth.dataCheckString d2
  /\ forall `{Crypto} tok,
       WidgetAuth.expectedHash tok d1 = WidgetAuth.expectedHash tok d2.
Proof.
  intros Hsame.
  assert (Hstr : WidgetAuth.dataCheckString d1 = WidgetAuth.dataCheckString d2).
  { unfold WidgetAuth.dataCheckString. f_equal.
    rewrite !WidgetFacts.dataCheckArr_filter.
    set (l1 := filter (fun k => truthy (getField d1 k) = true)
                      (WidgetAuth.sortedKeys (delete "hash" d1))).
    set (l2 := filter (fun k => truthy (getField d2 k) = true)
                      (WidgetAuth.sortedKeys (delete "hash" d2))).
    assert (Hin : forall d k,
               k ∈ filter (fun k => truthy (getField d k) = true)
                          (WidgetAuth.sortedKeys (delete "hash" d))
               <-> k ≠ "hash" /\ truthy (getField d k) = true).
    { intros d k. rewrite list_elem_of_filter, WidgetFacts.elem_of_sortedKeys.
      split.
      - intros [Ht [v Hv]]. apply lookup_delete_Some in Hv as [Hne _].
        split; [congruence | exact Ht].
      - intros [Hne Ht]. split; [exact Ht|].
        destruct (WidgetFacts.truthy_is_Some d k Ht) as [v Hv].
        exists v. apply lookup_delete_Some. split; [congruence | exact Hv]. }
    assert (El : l1 = l2).
    { apply (StronglySorted_unique WidgetAuth.key_le).
      - apply WidgetFacts.StronglySorted_filter, WidgetFacts.sortedKeys_sorted.
      - apply WidgetFacts.StronglySorted_filter, WidgetFacts.sortedKeys_sorted.
      - apply NoDup_Permutation.
        + apply NoDup_filter, WidgetFacts.sortedKeys_NoDup.
        + apply NoDup_filter, WidgetFacts.sortedKeys_NoDup.
        + intros k. subst l1 l2. rewrite !Hin.
          split; intros [Hne Ht]; (split; [exact Hne|]);
            destruct (Hsame k Hne) as [E _]; congruence. }
    rewrite <- El. apply list_fmap_ext. intros i k Hk.
    apply list_elem_of_lookup_2 in Hk. subst l1. apply Hin in Hk as [Hne Ht].
    destruct (Hsame k Hne) as [_ E]. rewrite (E Ht). reflexivity. }
  split; [exact Hstr|].
  intros C tok. unfold WidgetAuth.expectedHash. rewrite Hstr. reflexivity.
Qed.

Lemma dataCheckString_by_string_form_witness :
  WidgetAuth.dataCheckString (<["id" := JStr "7"]> (delete "username" payload0))
  = WidgetAuth.dataCheckString payload0.
Proof.
  apply (dataCheckString_by_string_form
           (<["id" := JStr "7"]> (delete "username" payload0)) payload0).
  intros k Hk. unfold getField.
  destruct (decide (k = "id")) as [->|H1]; [vm_compute; split; reflexivity|].
  rewrite lookup_insert_ne by congruence.
  destruct (decide (k = "username")) as [->|H2]; [vm_compute; split; [reflexivity|discriminate]|].
  rewrite lookup_delete_ne by congruence. split; reflexivity.
Defined.

Module LoggerFacts.

Lemma logAll_snoc es e m :
  MemoryTransport.logAll (es ++ [e]) m
  = MemoryTransport.log e (MemoryTransport.logAll es m).
Proof. unfold MemoryTransport.logAll. rewrite foldl_app. reflexivity. Qed.

Lemma logAll_maxLength es : forall m,
  MemoryTransport.maxLength (MemoryTransport.logAll es m)
  = MemoryTransport.maxLength m.
Proof.
  induction es as [|e es IH]; intros m; [reflexivity|].
  cbn [MemoryTransport.logAll foldl]. fold (MemoryTransport.logAll es (MemoryTransport.log e m)).
  rewrite IH. reflexivity.
Qed.

End LoggerFacts.

(** X22.  A memory transport holds the latest [maxLength] entries. *)
Theorem memoryTransport_keeps_latest (opt : option Z) (es : list LogEntry.t) :
  let m := MemoryTransport.logAll es (MemoryTransport.new opt) in
  let n := TwoFAAuth.or_default opt 1000 in
  (0 < n ->
   MemoryTransport.getLogs m = drop (length es - Z.to_nat n) es
   /\ Z.of_nat (length (MemoryTransport.getLogs m)) <= n)
  /\ (n < 0 -> MemoryTransport.getLogs m = []).
Proof.
  intros m n. subst m.
  assert (Hmax : forall es, MemoryTransport.maxLength
                   (MemoryTransport.logAll es (MemoryTransport.new opt)) = n).
  { intros es'. rewrite LoggerFacts.logAll_maxLength. reflexivity. }
  unfold MemoryTransport.getLogs. split.
  - intros Hn.
    assert (Hlogs : MemoryTransport.logs
                      (MemoryTransport.logAll es (MemoryTransport.new opt))
                    = drop (length es - Z.to_nat n) es).
    { induction es as [|e es IH] using rev_ind; [reflexivity|].
      rewrite LoggerFacts.logAll_snoc. unfold MemoryTransport.log. cbn [MemoryTransport.logs].
      rewrite Hmax, IH. rewrite !length_app, length_drop. cbn [length].
      destruct (Z.ltb_spec n (Z.of_nat (length es - (length es - Z.to_nat n) + 1)))
        as [Hlt|Hge].
      - unfold slice_from. rewrite length_app, length_drop. cbn [length].
        destruct (Z.ltb_spec (- n) 0); [|lia].
        rewrite drop_app_le by (rewrite length_drop; lia).
        rewrite drop_drop.
        rewrite (drop_app_le es) by lia.
        f_equal. f_equal. lia.
      - rewrite (drop_app_le es) by lia. f_equal. f_equal. lia. }
    split; [exact Hlogs|]. rewrite Hlogs, length_drop. lia.
  - intros Hn.
    induction es as [|e es IH] using rev_ind; [reflexivity|].
    rewrite LoggerFacts.logAll_snoc. unfold MemoryTransport.log. cbn [MemoryTransport.logs].
    rewrite Hmax, IH. cbn [app length].
    destruct (Z.ltb_spec n (Z.of_nat 1)); [|lia].
    unfold slice_from. cbn [length].
    destruct (Z.ltb_spec (- n) 0); [lia|].
    replace (Z.to_nat (Z.min (- n) (Z.of_nat 1))) with 1%nat by lia. reflexivity.
Qed.

Lemma memoryTransport_keeps_latest_witness :
  MemoryTransport.getLogs
    (MemoryTransport.logAll [entryInfo; entryWarn; entryError]
       (MemoryTransport.new (Some 2)))
  = drop (3 - Z.to_nat 2) [entryInfo; entryWarn; entryError]
  /\ MemoryTransport.getLogs
       (MemoryTransport.logAll [entryInfo; entryWarn; entryError]
          (MemoryTransport.new (Some (-1)))) = [].
Proof.
  split.
  - apply (proj1 (memoryTransport_keeps_latest (Some 2)
                    [entryInfo; entryWarn; entryError])).
    reflexivity.
  - apply (proj2 (memoryTransport_keeps_latest (Some (-1))
                    [entryInfo; entryWarn; entryError])).
    reflexivity.
Defined.

Module LoggerDelivery.

Lemma deliveredTo_app tr ds1 ds2 :
  Logger.deliveredTo tr (ds1 ++ ds2)
  = Logger.deliveredTo tr ds1 ++ Logger.deliveredTo tr ds2.
Proof. unfold Logger.deliveredTo. rewrite filter_app, fmap_app. reflexivity. Qed.

(** One round of deliveries reaches a transport registered once
    exactly once. *)
Lemma deliveredTo_round tr e ts :
  tr ∈ ts -> NoDup ts ->
  Logger.deliveredTo tr (map (fun t => (t, e)) ts) = [e].
Proof.
  unfold Logger.deliveredTo. induction ts as [|t ts IH]; intros Hin Hnd.
  - inversion Hin.
  - apply NoDup_cons in Hnd as [Hnotin Hnd]. cbn [map]. rewrite filter_cons. cbn [fst].
    destruct (decide (t = tr)) as [->|Hne].
    + cbn [fmap list_fmap snd]. f_equal.
      clear IH Hin. induction ts as [|t' ts IH']; [reflexivity|].
      apply not_elem_of_cons in Hnotin as [Hne Hnotin].
      apply NoDup_cons in Hnd as [_ Hnd].
      cbn [map]. rewrite filter_cons. cbn [fst].
      rewrite decide_False by congruence. apply IH'; assumption.
    + apply elem_of_cons in Hin as [Hin|Hin]; [congruence|].
      apply IH; assumption.
Qed.

(** Without transports nothing is delivered, whatever is logged. *)
Lemma step_no_transport c l :
  Logger.transports l = [] -> Logger.registers c = [] ->
  Logger.transports (Logger.step c l).1 = [] /\ (Logger.step c l).2 = [].
Proof.
  intros Hl Hc.
  destruct c as [[ts|] lv en|tr| |lv|en|now lv cat msg d|ts];
    cbn [Logger.step Logger.registers Logger.init Logger.clearTransports
         Logger.setMinLevel Logger.setEnabled Logger.transports default
         fst snd] in *;
    try discriminate; try (split; [assumption || reflexivity | reflexivity]).
  - split; [exact Hl|]. unfold Logger.log. rewrite Hl. cbn [length].
    rewrite !orb_true_r. reflexivity.
  - subst ts. unfold Logger.callerWrites.
    destruct (Logger.callerArray l); split; (exact Hl || reflexivity).
Qed.

Lemma run_callOf e cs l :
  Logger.run (Logger.callOf e :: cs) l
  = ((Logger.run cs l).1,
     Logger.log (LogEntry.timestamp e) (LogEntry.level e) (LogEntry.category e)
                (LogEntry.message e) (LogEntry.data e) l
     ++ (Logger.run cs l).2).
Proof.
  cbn [Logger.run Logger.step Logger.callOf].
  destruct (Logger.run cs l); reflexivity.
Qed.

End LoggerDelivery.

(** X23.  A logger that was given no transport delivers nothing. *)
Theorem logger_silent_without_transport (cs : list Logger.Call) :
  Forall (fun c => Logger.registers c = []) cs ->
  (Logger.run cs Logger.instance).2 = []
  /\ Logger.transports (Logger.run cs Logger.instance).1 = [].
Proof.
  assert (Hgen : forall l, Logger.transports l = [] ->
            Forall (fun c => Logger.registers c = []) cs ->
            (Logger.run cs l).2 = [] /\ Logger.transports (Logger.run cs l).1 = []).
  { induction cs as [|c cs IH]; intros l Hl Hall; [split; [reflexivity|exact Hl]|].
    inversion Hall as [|? ? Hc Hall']; subst.
    destruct (LoggerDelivery.step_no_transport c l Hl Hc) as [H1 H2].
    cbn [Logger.run]. destruct (Logger.step c l) as [l1 d1]. cbn [fst snd] in *.
    destruct (IH l1 H1 Hall') as [H3 H4].
    destruct (Logger.run cs l1) as [l2 d2]. cbn [fst snd] in *.
    subst. split; [reflexivity | exact H4]. }
  apply Hgen. reflexivity.
Qed.

(** [init] keeps the array it is given: a transport the caller pushes
    into that array afterwards receives the entries. *)
Example logger_array_shared :
  (Logger.run [Logger.Init (Some []) None None;
               Logger.CallerWrites ["memory"];
               Logger.callOf entryWarn]
     Logger.instance).2 = [("memory", entryWarn)]
  /\ (Logger.run [Logger.Init (Some []) None None;
                  Logger.ClearTransports;
                  Logger.CallerWrites ["memory"];
                  Logger.callOf entryWarn]
        Logger.instance).2 = [].
Proof. vm_compute. split; reflexivity. Qed.

Lemma logger_silent_without_transport_witness :
  (Logger.run [Logger.SetMinLevel LogEntry.DEBUG;
               Logger.callOf entryWarn; Logger.callOf entryError]
     Logger.instance).2 = [].
Proof.
  apply logger_silent_without_transport. repeat constructor.
Defined.

(** X24.  A transport receives the entries at or above the minimum level,
    once each, in the order of the calls. *)
Theorem logger_delivers_in_order (l : Logger.t) (tr : string)
    (es : list LogEntry.t) :
  tr ∈ Logger.transports l -> NoDup (Logger.transports l) ->
  Logger.deliveredTo tr (Logger.run (map Logger.callOf es) l).2
  = (if Logger.enabled l
     then filter (fun e => LogEntry.levelValue (Logger.minLevel l)
                           <= LogEntry.levelValue (LogEntry.level e)) es
     else [])
  /\ (Logger.run (map Logger.callOf es) l).1 = l.
Proof.
  intros Hin Hnd. induction es as [|e es [IH1 IH2]].
  - cbn [map Logger.run fst snd]. split; [|reflexivity].
    destruct (Logger.enabled l); reflexivity.
  - cbn [map]. rewrite LoggerDelivery.run_callOf. cbn [fst snd].
    split; [|exact IH2].
    rewrite LoggerDelivery.deliveredTo_app, IH1. unfold Logger.log.
    assert (Hlen : (Z.of_nat (length (Logger.transports l)) =? 0) = false).
    { apply Z.eqb_neq. destruct (Logger.transports l); [inversion Hin|cbn; lia]. }
    rewrite Hlen, orb_false_r.
    destruct (Logger.enabled l); cbn [negb orb]; [|reflexivity].
    rewrite filter_cons.
    destruct (Z.ltb_spec (LogEntry.levelValue (LogEntry.level e))
                         (LogEntry.levelValue (Logger.minLevel l))) as [Hlt|Hge].
    + rewrite decide_False by lia. reflexivity.
    + rewrite decide_True by lia.
      rewrite (LoggerDelivery.deliveredTo_round tr _ _ Hin Hnd).
      destruct e; reflexivity.
Qed.

Lemma logger_delivers_in_order_witness :
  Logger.deliveredTo "memory"
    (Logger.run (map Logger.callOf [entryInfo; entryWarn; entryError]) logger1).2
  = [entryWarn; entryError].
Proof.
  refine (proj1 (logger_delivers_in_order logger1 "memory"
                   [entryInfo; entryWarn; entryError] _ _)).
  - repeat constructor.
  - repeat constructor. apply not_elem_of_nil.
Defined.

Module WebhookFacts.
Import WebhookIntegration.

(** A string without a space is one piece. *)
Lemma split_space_one (s : string) :
  Forall (fun a => a ≠ " "%char) (String.list_ascii_of_string s) ->
  split_space s = [s].
Proof.
  induction s as [|c r IH]; cbn [String.list_ascii_of_string split_space];
    intros Hs; [reflexivity|].
  inversion Hs as [|? ? Hc Hr]; subst.
  destruct (Ascii.eqb_spec c " "%char) as [->|_]; [congruence|].
  rewrite (IH Hr). reflexivity.
Qed.

Lemma split_start (s : string) :
  Forall (fun a => a ≠ " "%char) (String.list_ascii_of_string s) ->
  split_space ("/start " +:+ s) = ["/start"; s].
Proof.
  intros Hs. unfold String.app. cbn. rewrite (split_space_one s Hs). reflexivity.
Qed.

Lemma hex_no_space bs :
  Forall (fun a => a ≠ " "%char) (String.list_ascii_of_string (hex bs)).
Proof.
  eapply Forall_impl; [apply HexFacts.hex_lower|].
  intros a Ha ->. apply list_elem_of_In in Ha. vm_compute in Ha.
  repeat (destruct Ha as [Ha|Ha]; [discriminate Ha|]). exact Ha.
Qed.

(** With the options of the constructor a successful [handleAuth]
    calls [onAuth] and nothing else. *)
Lemma deeplink_sendResult tok d u :
  DeeplinkAuth.options d = authOptions tok ->
  DeeplinkAuth.sendResult d u = [CallOnAuth u].
Proof. intros H. unfold DeeplinkAuth.sendResult. rewrite H. reflexivity. Qed.

Lemma code_sendResult tok c u :
  CodeAuth.options c = authOptions tok ->
  CodeAuth.sendResult c u = [CallOnAuth u].
Proof. intros H. unfold CodeAuth.sendResult. rewrite H. reflexivity. Qed.

Lemma deeplink_handleAuth_config token u d :
  DeeplinkAuth.options (DeeplinkAuth.handleAuth token u d).1.2 = DeeplinkAuth.options d
  /\ DeeplinkAuth.botSettings (DeeplinkAuth.handleAuth token u d).1.2
     = DeeplinkAuth.botSettings d.
Proof.
  unfold DeeplinkAuth.handleAuth.
  destruct (DeeplinkAuth.sessions d !! token) as [s|]; [|split; reflexivity].
  destruct (DeeplinkAuth.used s); split; reflexivity.
Qed.

Lemma code_handleAuth_config code u c :
  CodeAuth.options (CodeAuth.handleAuth code u c).1.2 = CodeAuth.options c.
Proof.
  unfold CodeAuth.handleAuth.
  destruct (CodeAuth.sessions c !! code) as [s|]; [|reflexivity].
  destruct (CodeAuth.used s); reflexivity.
Qed.

Lemma same_setup_refl w : same_setup w w.
Proof. repeat split; auto. Qed.

Lemma same_setup_trans w1 w2 w3 :
  same_setup w1 w2 -> same_setup w2 w3 -> same_setup w1 w3.
Proof.
  intros (A1 & A2 & A3 & A4 & A5) (B1 & B2 & B3 & B4 & B5).
  repeat split; try congruence; intros; tauto.
Qed.

(** [onAuth] and [dispatch] touch the session manager only. *)
Lemma onAuth_setup sid now u w : same_setup (onAuth sid now u w).1.1 w.
Proof.
  unfold onAuth, managerInUse.
  destruct (useSessionManager w) eqn:Hu;
    [destruct (sessionManager w) as [m|] eqn:Hm|];
    cbn [fst snd with_sessionManager]; unfold same_setup;
    cbn [deeplinkAuth codeAuth useSessionManager sessionManager userOnAuth];
    rewrite ?Hm; repeat split; auto; intros; eauto.
Qed.

Lemma dispatch_setup sid now es : forall w,
  same_setup (dispatch sid now es w).1.1 w.
Proof.
  induction es as [|e es IH]; intros w; [apply same_setup_refl|].
  destruct e as [u|u|ev u|ep u|lv msg|c lv msg]; cbn [dispatch fst]; try apply IH.
  destruct (onAuth sid now u w).2 eqn:E.
  - apply onAuth_setup.
  - cbn [fst]. eapply same_setup_trans; [apply IH | apply onAuth_setup].
Qed.

Lemma configured_new tok h u l w :
  new tok h u l = Ret w -> configured tok (default true u) w.
Proof.
  unfold new, DeeplinkAuth.new, CodeAuth.new.
  cbn [authOptions AuthTransportOptions.botSettings AuthTransportOptions.botToken
       AuthTransportOptions.botUsername truthy_string].
  destruct (String.eqb tok EmptyString); [discriminate|].
  intros [= <-]. unfold configured.
  cbn [deeplinkAuth codeAuth sessionManager useSessionManager
       DeeplinkAuth.options DeeplinkAuth.botSettings CodeAuth.options].
  repeat split; try reflexivity.
  - destruct (default true u); [reflexivity|]. intros [? ?]. discriminate.
  - intros ->. eexists. reflexivity.
Qed.

Lemma configured_setup tok use w w1 :
  configured tok use w ->
  DeeplinkAuth.options (deeplinkAuth w1) = DeeplinkAuth.options (deeplinkAuth w) ->
  DeeplinkAuth.botSettings (deeplinkAuth w1) = DeeplinkAuth.botSettings (deeplinkAuth w) ->
  CodeAuth.options (codeAuth w1) = CodeAuth.options (codeAuth w) ->
  useSessionManager w1 = useSessionManager w ->
  (is_Some (sessionManager w1) <-> is_Some (sessionManager w)) ->
  configured tok use w1.
Proof.
  intros (H1 & H2 & H3 & H4 & H5) E1 E2 E3 E4 E5.
  unfold configured. rewrite E1, E2, E3, E4, E5. auto.
Qed.

Lemma dispatch_configured tok use sid now es w :
  configured tok use w -> configured tok use (dispatch sid now es w).1.1.
Proof.
  intros Hw. destruct (dispatch_setup sid now es w) as (K1 & K2 & K3 & K4 & K5).
  apply (configured_setup tok use w); [exact Hw|..]; congruence || exact K5.
Qed.

Lemma with_deeplinkAuth_configured tok use token u w :
  configured tok use w ->
  configured tok use
    (with_deeplinkAuth w (DeeplinkAuth.handleAuth token u (deeplinkAuth w)).1.2).
Proof.
  intros Hw. destruct (deeplink_handleAuth_config token u (deeplinkAuth w)) as [L1 L2].
  apply (configured_setup tok use w); [exact Hw|..]; try reflexivity; assumption.
Qed.

Lemma with_codeAuth_configured tok use code u w :
  configured tok use w ->
  configured tok use
    (with_codeAuth w (CodeAuth.handleAuth code u (codeAuth w)).1.2).
Proof.
  intros Hw. pose proof (code_handleAuth_config code u (codeAuth w)) as L.
  apply (configured_setup tok use w); [exact Hw|..]; try reflexivity; assumption.
Qed.

Lemma with_sessionManager_configured tok use w (f : SessionManager.Live -> SessionManager.Live) :
  configured tok use w ->
  configured tok use (with_sessionManager w (option_map f (sessionManager w))).
Proof.
  intros Hw. apply (configured_setup tok use w); [exact Hw|..]; try reflexivity.
  cbn [with_sessionManager sessionManager].
  destruct (sessionManager w); cbn [option_map]; split; intros [? ?]; eauto; discriminate.
Qed.

Lemma step_configured tok use c w :
  configured tok use w -> configured tok use (step c w).
Proof.
  intros Hw.
  destruct c as [sid now e ctx|sid now ctx|now e|now e|now1 now2 sid|loaded|now];
    cbn [step].
  - unfold startCommand.
    destruct (option_map split_space (messageText ctx)) as [[|a [|token args]]|];
      try exact Hw.
    destruct (from ctx) as [f|]; [|exact Hw].
    set (w1 := with_deeplinkAuth w _).
    assert (Hw1 : configured tok use w1) by apply with_deeplinkAuth_configured, Hw.
    pose proof (dispatch_configured tok use sid now
                  (DeeplinkAuth.handleAuth token (userOf f) (deeplinkAuth w)).2 w1 Hw1)
      as Hd.
    destruct (dispatch sid now _ w1).2; exact Hd.
  - unfold onMessage.
    destruct (option_map trim (messageText ctx)) as [text|]; [|exact Hw].
    destruct (from ctx) as [f|]; [|exact Hw].
    destruct (String.eqb text EmptyString || startsWithSlash text); [exact Hw|].
    set (w1 := with_codeAuth w _).
    assert (Hw1 : configured tok use w1) by apply with_codeAuth_configured, Hw.
    pose proof (dispatch_configured tok use sid now
                  (CodeAuth.handleAuth text (userOf f) (codeAuth w)).2 w1 Hw1)
      as Hd.
    destruct (dispatch sid now _ w1).2; exact Hd.
  - exact Hw.
  - exact Hw.
  - unfold checkSession, managerInUse.
    destruct (useSessionManager w) eqn:Hu; [|exact Hw].
    destruct (sessionManager w) as [m|] eqn:Hm; [|exact Hw].
    cbn [fst snd].
    apply (configured_setup tok use w); [exact Hw|..]; try reflexivity.
    cbn [with_sessionManager sessionManager]. rewrite Hm. split; eauto.
  - apply with_sessionManager_configured, Hw.
  - apply with_sessionManager_configured, Hw.
Qed.

Lemma run_configured tok use cs : forall w,
  configured tok use w -> configured tok use (run cs w).
Proof.
  induction cs as [|c cs IH]; intros w Hw; [exact Hw|].
  cbn [run foldl]. apply IH, step_configured, Hw.
Qed.

End WebhookFacts.

Module WebhookHandlers.
Import WebhookIntegration.

Lemma manager_in_use tok use w :
  configured tok use w -> managerInUse w = sessionManager w.
Proof.
  intros (_ & _ & _ & H4 & H5). unfold managerInUse. rewrite H4.
  destruct use; [reflexivity|].
  destruct (sessionManager w) as [m|]; [|reflexivity].
  pose proof (proj1 H5 (ex_intro _ m eq_refl)). discriminate.
Qed.

(** What [onAuth] does, by the presence of the session manager. *)
Lemma onAuth_configured tok use sid now u w :
  configured tok use w ->
  onAuth sid now u w
  = match sessionManager w with
    | Some l =>
        (with_sessionManager w
           (Some {| SessionManager.state :=
                      SessionManager.with_sessions (SessionManager.state l)
                        (<[sid := created sid now u]>
                           (SessionManager.sessions (SessionManager.state l)));
                    SessionManager.loading := SessionManager.loading l |}),
         [Stored (SessionManager.Save
                    (<[sid := created sid now u]>
                       (SessionManager.sessions (SessionManager.state l))));
          ThenOnAuth u sid],
         None)
    | None => (w, [OnAuth u], userOnAuth w u)
    end.
Proof.
  intros Hw. unfold onAuth. rewrite (manager_in_use tok use w Hw).
  destruct (sessionManager w); reflexivity.
Qed.

Lemma with_deeplinkAuth_id w : with_deeplinkAuth w (deeplinkAuth w) = w.
Proof. destruct w; reflexivity. Qed.

Lemma with_codeAuth_id w : with_codeAuth w (codeAuth w) = w.
Proof. destruct w; reflexivity. Qed.

(** [/start <token>] for a token that is registered and unused. *)
Lemma startCommand_ok tok use w token s f sid now e :
  configured tok use w ->
  Forall (fun a => a ≠ " "%char) (String.list_ascii_of_string token) ->
  DeeplinkAuth.sessions (deeplinkAuth w) !! token = Some s ->
  DeeplinkAuth.used s = false ->
  startCommand sid now e
    {| messageText := Some ("/start " +:+ token); from := Some f |} w
  = replied (onAuth sid now (userOf f)
               (with_deeplinkAuth w
                  (DeeplinkAuth.handleAuth token (userOf f) (deeplinkAuth w)).1.2))
      "Вы успешно авторизованы через ссылку!".
Proof.
  intros Hw Hsp Hs Hu. unfold startCommand. cbn [messageText from option_map].
  rewrite (WebhookFacts.split_start token Hsp).
  destruct (DeeplinkFacts.deeplink_handleAuth_unused (deeplinkAuth w) token s
              (userOf f) Hs Hu) as (d' & Hh & _).
  rewrite Hh. cbn [fst snd].
  rewrite (WebhookFacts.deeplink_sendResult tok) by apply Hw.
  cbn [dispatch]. unfold replied.
  destruct (onAuth sid now (userOf f) (with_deeplinkAuth w d')) as [[w1 outs] [x|]];
    cbn [fst snd]; [reflexivity|].
  rewrite app_nil_r. reflexivity.
Qed.

(** [/start <token>] for a token that is unknown or used. *)
Lemma startCommand_refused w token f sid now e :
  Forall (fun a => a ≠ " "%char) (String.list_ascii_of_string token) ->
  (forall s, DeeplinkAuth.sessions (deeplinkAuth w) !! token = Some s ->
             DeeplinkAuth.used s = true) ->
  startCommand sid now e
    {| messageText := Some ("/start " +:+ token); from := Some f |} w
  = (w, [Reply "Ссылка недействительна или уже использована."], None).
Proof.
  intros Hsp Hs. unfold startCommand. cbn [messageText from option_map].
  rewrite (WebhookFacts.split_start token Hsp).
  rewrite (DeeplinkFacts.deeplink_handleAuth_refused (deeplinkAuth w) token
             (userOf f) Hs).
  cbn [fst snd dispatch app]. rewrite with_deeplinkAuth_id. reflexivity.
Qed.

(** [onAuth] leaves the authenticators as they are. *)
Lemma replied_onAuth_auth sid now u w text :
  deeplinkAuth (replied (onAuth sid now u w) text).1.1 = deeplinkAuth w
  /\ codeAuth (replied (onAuth sid now u w) text).1.1 = codeAuth w.
Proof.
  destruct (WebhookFacts.onAuth_setup sid now u w) as (K1 & K2 & _).
  unfold replied. destruct (onAuth sid now u w).2; cbn [fst]; split; assumption.
Qed.

(** What a handler that has redeemed an artifact hands out. *)
Lemma replied_onAuth_outs tok use sid now u w text :
  configured tok use w ->
  let r := replied (onAuth sid now u w) text in
  (r.1.2, r.2)
  = match sessionManager w with
    | Some l =>
        ([Stored (SessionManager.Save
                    (<[sid := created sid now u]>
                       (SessionManager.sessions (SessionManager.state l))));
          ThenOnAuth u sid; Reply text], None)
    | None =>
        match userOnAuth w u with
        | None => ([OnAuth u; Reply text], None)
        | Some x => ([OnAuth u], Some x)
        end
    end.
Proof.
  intros Hw r. subst r. rewrite (onAuth_configured tok use sid now u w Hw).
  unfold replied. destruct (sessionManager w) as [l|]; cbn [fst snd]; [reflexivity|].
  destruct (userOnAuth w u); reflexivity.
Qed.

End WebhookHandlers.

(** X25.  The deeplink of the webhook integration, end to end. *)
Theorem webhook_deeplink_flow (tok : string)
    (h : option (AuthResult.t -> option JsError)) (u : option bool)
    (lt : option Z) (w0 : WebhookIntegration.t)
    (cs : list WebhookIntegration.Call)
    (now : Z) (e : Entropy) (f : AuthResult.t)
    (sid : string) (now1 : Z) (e1 : Entropy)
    (sid2 : string) (now2 : Z) (e2 : Entropy) :
  WebhookIntegration.new tok h u lt = Ret w0 ->
  let w := WebhookIntegration.run cs w0 in
  let token := hex (randomBytes e 16) in
  let user := WebhookIntegration.userOf f in
  let g := WebhookIntegration.generateDeeplink now e w in
  let ctx := {| WebhookIntegration.messageText := Some ("/start " +:+ token);
                WebhookIntegration.from := Some f |} in
  let r1 := WebhookIntegration.startCommand sid now1 e1 ctx g.2 in
  let r2 := WebhookIntegration.startCommand sid2 now2 e2 ctx r1.1.1 in
  g.1 = "https://t.me/YOUR_BOT_USERNAME?start=" +:+ token
  /\ DeeplinkAuth.sessions (WebhookIntegration.deeplinkAuth r1.1.1) !! token
     = Some {| DeeplinkAuth.token := token; DeeplinkAuth.createdAt := now;
               DeeplinkAuth.used := true; DeeplinkAuth.userData := Some user |}
  /\ (r1.1.2, r1.2)
     = match WebhookIntegration.sessionManager w with
       | Some l =>
           ([WebhookIntegration.Stored
               (SessionManager.Save
                  (<[sid := {| SessionManager.id := sid;
                               SessionManager.userData := user;
                               SessionManager.createdAt := now1;
                               SessionManager.lastActivity := now1;
                               SessionManager.metadata := None |}]>
                     (SessionManager.sessions (SessionManager.state l))));
             WebhookIntegration.ThenOnAuth user sid;
             WebhookIntegration.Reply "Вы успешно авторизованы через ссылку!"],
            None)
       | None =>
           match WebhookIntegration.userOnAuth w user with
           | None =>
               ([WebhookIntegration.OnAuth user;
                 WebhookIntegration.Reply "Вы успешно авторизованы через ссылку!"],
                None)
           | Some x => ([WebhookIntegration.OnAuth user], Some x)
           end
       end
  /\ r2 = (r1.1.1,
           [WebhookIntegration.Reply
              "Ссылка недействительна или уже использована."],
           None).
Proof.
  intros Hnew w token user g ctx r1 r2.
  assert (Hw : WebhookIntegration.configured tok (default true u) w).
  { apply WebhookFacts.run_configured, (WebhookFacts.configured_new tok h u lt), Hnew. }
  assert (Hsp : Forall (fun a => a ≠ " "%char) (String.list_ascii_of_string token))
    by apply WebhookFacts.hex_no_space.
  pose proof Hw as (H1 & H2 & H3 & H4 & H5).
  split.
  { subst g. unfold WebhookIntegration.generateDeeplink, DeeplinkAuth.generateDeeplink.
    cbn [fst]. rewrite H2. reflexivity. }
  assert (Hw1 : WebhookIntegration.configured tok (default true u) g.2) by exact Hw.
  set (fresh := {| DeeplinkAuth.token := token; DeeplinkAuth.createdAt := now;
                   DeeplinkAuth.used := false; DeeplinkAuth.userData := None |}).
  assert (Hs1 : DeeplinkAuth.sessions (WebhookIntegration.deeplinkAuth g.2) !! token
                = Some fresh) by apply lookup_insert_eq.
  assert (Er1 : r1 = WebhookIntegration.replied
                       (WebhookIntegration.onAuth sid now1 user
                          (WebhookIntegration.with_deeplinkAuth g.2
                             (DeeplinkAuth.handleAuth token user
                                (WebhookIntegration.deeplinkAuth g.2)).1.2))
                       "Вы успешно авторизованы через ссылку!")
    by exact (WebhookHandlers.startCommand_ok tok (default true u) g.2 token fresh f
                sid now1 e1 Hw1 Hsp Hs1 eq_refl).
  destruct (DeeplinkFacts.deeplink_handleAuth_unused
              (WebhookIntegration.deeplinkAuth g.2) token fresh user Hs1 eq_refl)
    as (d2 & Hh & Hs2).
  rewrite Hh in Er1. cbn [fst snd] in Er1.
  assert (Hw2 : WebhookIntegration.configured tok (default true u)
                  (WebhookIntegration.with_deeplinkAuth g.2 d2)).
  { pose proof (WebhookFacts.with_deeplinkAuth_configured tok (default true u)
                  token user g.2 Hw1) as K.
    rewrite Hh in K. exact K. }
  assert (Hd : WebhookIntegration.deeplinkAuth r1.1.1 = d2).
  { rewrite Er1. apply WebhookHandlers.replied_onAuth_auth. }
  split; [rewrite Hd; exact Hs2|].
  split.
  { rewrite Er1.
    exact (WebhookHandlers.replied_onAuth_outs tok (default true u) sid now1 user
             _ _ Hw2). }
  subst r2. apply WebhookHandlers.startCommand_refused; [exact Hsp|].
  intros s. rewrite Hd, Hs2. intros [= <-]. reflexivity.
Qed.

Module WebhookFlows.
Import WebhookIntegration.

(** A message whose text is not a redeemable code changes nothing. *)
Lemma onMessage_refused w text f sid now :
  (forall s, CodeAuth.sessions (codeAuth w) !! trim text = Some s ->
             CodeAuth.used s = true) ->
  onMessage sid now {| messageText := Some text; from := Some f |} w
  = (w, [], None).
Proof.
  intros Hs. unfold onMessage. cbn [messageText from option_map].
  destruct (String.eqb (trim text) EmptyString || startsWithSlash (trim text));
    [reflexivity|].
  rewrite (CodeFacts.code_handleAuth_refused (codeAuth w) (trim text) (userOf f) Hs).
  cbn [fst snd dispatch app]. rewrite WebhookHandlers.with_codeAuth_id. reflexivity.
Qed.

(** A message whose text is a registered unused code. *)
Lemma onMessage_ok tok use w text s f sid now :
  configured tok use w ->
  trim text ≠ EmptyString -> startsWithSlash (trim text) = false ->
  CodeAuth.sessions (codeAuth w) !! trim text = Some s ->
  CodeAuth.used s = false ->
  onMessage sid now {| messageText := Some text; from := Some f |} w
  = WebhookIntegration.replied
      (onAuth sid now (userOf f)
         (with_codeAuth w
            (CodeAuth.handleAuth (trim text) (userOf f) (codeAuth w)).1.2))
      "Вы успешно авторизованы по коду!".
Proof.
  intros Hw Hne Hsl Hs Hu. unfold onMessage. cbn [messageText from option_map].
  rewrite Hsl, (proj2 (String.eqb_neq (trim text) EmptyString) Hne). cbn [orb].
  destruct (CodeFacts.code_handleAuth_unused (codeAuth w) (trim text) s
              (userOf f) Hs Hu) as (c' & Hh & _).
  rewrite Hh. cbn [fst snd].
  rewrite (WebhookFacts.code_sendResult tok) by apply Hw.
  cbn [dispatch]. unfold WebhookIntegration.replied.
  destruct (onAuth sid now (userOf f) (with_codeAuth w c')) as [[w1 outs] [x|]];
    cbn [fst snd]; [reflexivity|].
  rewrite app_nil_r. reflexivity.
Qed.

(** Settlements of the load change nothing once it has settled. *)
Lemma settled_run loads : forall w l,
  sessionManager w = Some l -> SessionManager.loading l = false ->
  run (map SessionsLoaded loads) w = w.
Proof.
  induction loads as [|x loads IH]; intros w l Hm Hl; [reflexivity|].
  cbn [map run foldl]. fold (run (map SessionsLoaded loads) (step (SessionsLoaded x) w)).
  assert (E : step (SessionsLoaded x) w = w).
  { cbn [step]. rewrite Hm. cbn [option_map SessionManager.occur]. rewrite Hl.
    destruct w; cbn in *; subst; reflexivity. }
  rewrite E. exact (IH w l Hm Hl).
Qed.

End WebhookFlows.

(** X26.  What the message handler of the webhook integration does with
    a text. *)
Theorem webhook_code_message (tok : string)
    (h : option (AuthResult.t -> option JsError)) (u : option bool)
    (lt : option Z) (w0 : WebhookIntegration.t)
    (cs : list WebhookIntegration.Call)
    (text : string) (f : AuthResult.t) (sid : string) (now : Z) :
  WebhookIntegration.new tok h u lt = Ret w0 ->
  let w := WebhookIntegration.run cs w0 in
  let code := trim text in
  let user := WebhookIntegration.userOf f in
  let ctx := {| WebhookIntegration.messageText := Some text;
                WebhookIntegration.from := Some f |} in
  let r := WebhookIntegration.onMessage sid now ctx w in
  (code = EmptyString \/ startsWithSlash code = true -> r = (w, [], None))
  /\ ((forall s, CodeAuth.sessions (WebhookIntegration.codeAuth w) !! code = Some s ->
                 CodeAuth.used s = true) ->
      r = (w, [], None))
  /\ (forall s,
        code ≠ EmptyString -> startsWithSlash code = false ->
        CodeAuth.sessions (WebhookIntegration.codeAuth w) !! code = Some s ->
        CodeAuth.used s = false ->
        CodeAuth.sessions (WebhookIntegration.codeAuth r.1.1) !! code
        = Some {| CodeAuth.code := CodeAuth.code s;
                  CodeAuth.createdAt := CodeAuth.createdAt s;
                  CodeAuth.used := true; CodeAuth.userData := Some user |}
        /\ (r.1.2, r.2)
           = match WebhookIntegration.sessionManager w with
             | Some l =>
                 ([WebhookIntegration.Stored
                     (SessionManager.Save
                        (<[sid := {| SessionManager.id := sid;
                                     SessionManager.userData := user;
                                     SessionManager.createdAt := now;
                                     SessionManager.lastActivity := now;
                                     SessionManager.metadata := None |}]>
                           (SessionManager.sessions (SessionManager.state l))));
                   WebhookIntegration.ThenOnAuth user sid;
                   WebhookIntegration.Reply "Вы успешно авторизованы по коду!"],
                  None)
             | None =>
                 match WebhookIntegration.userOnAuth w user with
                 | None =>
                     ([WebhookIntegration.OnAuth user;
                       WebhookIntegration.Reply "Вы успешно авторизованы по коду!"],
                      None)
                 | Some x => ([WebhookIntegration.OnAuth user], Some x)
                 end
             end
        /\ forall sid' now',
             WebhookIntegration.onMessage sid' now' ctx r.1.1 = (r.1.1, [], None)).
Proof.
  intros Hnew w code user ctx r.
  assert (Hw : WebhookIntegration.configured tok (default true u) w).
  { apply WebhookFacts.run_configured, (WebhookFacts.configured_new tok h u lt), Hnew. }
  split.
  { intros Hc. subst r. unfold WebhookIntegration.onMessage.
    cbn [WebhookIntegration.messageText WebhookIntegration.from ctx option_map].
    fold code. destruct Hc as [-> | ->]; [reflexivity|].
    rewrite orb_true_r. reflexivity. }
  split; [intros Hs; apply WebhookFlows.onMessage_refused, Hs|].
  intros s Hne Hsl Hs Hu.
  assert (Er : r = WebhookIntegration.replied
                     (WebhookIntegration.onAuth sid now user
                        (WebhookIntegration.with_codeAuth w
                           (CodeAuth.handleAuth code user
                              (WebhookIntegration.codeAuth w)).1.2))
                     "Вы успешно авторизованы по коду!")
    by exact (WebhookFlows.onMessage_ok tok (default true u) w text s f sid now
                Hw Hne Hsl Hs Hu).
  destruct (CodeFacts.code_handleAuth_unused (WebhookIntegration.codeAuth w) code s
              user Hs Hu) as (c2 & Hh & Hs2).
  rewrite Hh in Er. cbn [fst snd] in Er.
  assert (Hw2 : WebhookIntegration.configured tok (default true u)
                  (WebhookIntegration.with_codeAuth w c2)).
  { pose proof (WebhookFacts.with_codeAuth_configured tok (default true u)
                  code user w Hw) as K.
    rewrite Hh in K. exact K. }
  assert (Hc : WebhookIntegration.codeAuth r.1.1 = c2).
  { rewrite Er. apply WebhookHandlers.replied_onAuth_auth. }
  split; [rewrite Hc; exact Hs2|].
  split.
  { rewrite Er.
    exact (WebhookHandlers.replied_onAuth_outs tok (default true u) sid now user
             _ _ Hw2). }
  intros sid' now'. apply WebhookFlows.onMessage_refused.
  intros s'. fold code. rewrite Hc, Hs2. intros [= <-]. reflexivity.
Qed.

(** X27.  The session a successful [/start] creates is the one
    [/check-session] finds, unless the load of the session manager
    settles in between. *)
Theorem webhook_session_after_start (tok : string)
    (h : option (AuthResult.t -> option JsError)) (u : option bool)
    (lt : option Z) (w0 : WebhookIntegration.t)
    (cs : list WebhookIntegration.Call)
    (l : SessionManager.Live) (token : string)
    (s : DeeplinkAuth.DeeplinkSession)
    (f : AuthResult.t) (sid : string) (now : Z) (e : Entropy) (t1 t2 : Z) :
  WebhookIntegration.new tok h u lt = Ret w0 ->
  let w := WebhookIntegration.run cs w0 in
  WebhookIntegration.sessionManager w = Some l ->
  Forall (fun a => a ≠ " "%char) (String.list_ascii_of_string token) ->
  DeeplinkAuth.sessions (WebhookIntegration.deeplinkAuth w) !! token = Some s ->
  DeeplinkAuth.used s = false ->
  t1 - now <= SessionManager.sessionLifetime (SessionManager.state l) ->
  let ctx := {| WebhookIntegration.messageText := Some ("/start " +:+ token);
                WebhookIntegration.from := Some f |} in
  let r := WebhookIntegration.startCommand sid now e ctx w in
  let found :=
    Some {| SessionManager.id := sid;
            SessionManager.userData := WebhookIntegration.userOf f;
            SessionManager.createdAt := now;
            SessionManager.lastActivity := t2;
            SessionManager.metadata := None |} in
  (WebhookIntegration.checkSession t1 t2 sid r.1.1).1.1 = found
  /\ (SessionManager.loading l = false ->
      forall loads,
        (WebhookIntegration.checkSession t1 t2 sid
           (WebhookIntegration.run (map WebhookIntegration.SessionsLoaded loads)
              r.1.1)).1.1 = found)
  /\ (SessionManager.loading l = true ->
      forall snapshot,
        snapshot !! sid = None ->
        (WebhookIntegration.checkSession t1 t2 sid
           (WebhookIntegration.step
              (WebhookIntegration.SessionsLoaded (Some snapshot)) r.1.1)).1.1
        = None).
Proof.
  intros Hnew w Hm Hsp Hs Hu Ht ctx r found.
  assert (Hw : WebhookIntegration.configured tok (default true u) w).
  { apply WebhookFacts.run_configured, (WebhookFacts.configured_new tok h u lt), Hnew. }
  assert (Huse : WebhookIntegration.useSessionManager w = true).
  { destruct Hw as (_ & _ & _ & H4 & H5). rewrite H4. apply H5. eauto. }
  set (user := WebhookIntegration.userOf f).
  set (l1 := {| SessionManager.state :=
                  SessionManager.with_sessions (SessionManager.state l)
                    (<[sid := WebhookIntegration.created sid now user]>
                       (SessionManager.sessions (SessionManager.state l)));
                SessionManager.loading := SessionManager.loading l |}).
  assert (Er : WebhookIntegration.sessionManager r.1.1 = Some l1
               /\ WebhookIntegration.useSessionManager r.1.1 = true).
  { assert (E : r = _)
      by exact (WebhookHandlers.startCommand_ok tok (default true u) w token s f
                  sid now e Hw Hsp Hs Hu).
    assert (Hw2 := WebhookFacts.with_deeplinkAuth_configured tok (default true u)
                     token user w Hw).
    rewrite (WebhookHandlers.onAuth_configured tok (default true u) _ _ _ _ Hw2) in E.
    cbn [WebhookIntegration.with_deeplinkAuth WebhookIntegration.sessionManager] in E.
    rewrite Hm in E. unfold WebhookIntegration.replied in E. cbn [fst snd] in E.
    rewrite E. cbn [fst WebhookIntegration.with_sessionManager
                    WebhookIntegration.sessionManager
                    WebhookIntegration.useSessionManager
                    WebhookIntegration.with_deeplinkAuth].
    split; [reflexivity | exact Huse]. }
  destruct Er as [Em Eu].
  assert (Hfound : forall w', WebhookIntegration.sessionManager w' = Some l1 ->
             WebhookIntegration.useSessionManager w' = true ->
             (WebhookIntegration.checkSession t1 t2 sid w').1.1 = found).
  { intros w' Hm' Hu'. unfold WebhookIntegration.checkSession,
      WebhookIntegration.managerInUse.
    rewrite Hu', Hm'. cbn [fst snd].
    unfold SessionManager.getSession. subst l1.
    cbn [SessionManager.state SessionManager.sessions SessionManager.with_sessions
         SessionManager.sessionLifetime].
    rewrite lookup_insert_eq. unfold WebhookIntegration.created.
    cbn [SessionManager.lastActivity].
    destruct (Z.ltb_spec (SessionManager.sessionLifetime (SessionManager.state l))
                (t1 - now)); [lia|].
    reflexivity. }
  split; [apply Hfound; assumption|].
  split.
  - intros Hl loads.
    rewrite (WebhookFlows.settled_run loads r.1.1 l1 Em Hl).
    apply Hfound; assumption.
  - intros Hl snapshot Hsnap.
    unfold WebhookIntegration.checkSession, WebhookIntegration.managerInUse.
    cbn [WebhookIntegration.step WebhookIntegration.with_sessionManager
         WebhookIntegration.useSessionManager WebhookIntegration.sessionManager].
    rewrite Eu, Em. cbn [option_map SessionManager.occur].
    subst l1. cbn [SessionManager.loading]. rewrite Hl.
    cbn [fst snd SessionManager.state SessionManager.loadSessions].
    unfold SessionManager.getSession.
    cbn [SessionManager.sessions SessionManager.with_sessions]. rewrite Hsnap.
    reflexivity.
Qed.

Lemma webhook_deeplink_flow_witness :
  let w := WebhookIntegration.run [WebhookIntegration.GenerateCode 500 halfEntropy]
             webhook0 in
  let token := hex (randomBytes halfEntropy 16) in
  let g := WebhookIntegration.generateDeeplink 1000 halfEntropy w in
  let ctx := {| WebhookIntegration.messageText := Some ("/start " +:+ token);
                WebhookIntegration.from := Some alice |} in
  let r1 := WebhookIntegration.startCommand "s1" 2000 halfEntropy ctx g.2 in
  let r2 := WebhookIntegration.startCommand "s2" 3000 halfEntropy ctx r1.1.1 in
  g.1 = "https://t.me/YOUR_BOT_USERNAME?start=" +:+ token
  /\ r2 = (r1.1.1,
           [WebhookIntegration.Reply
              "Ссылка недействительна или уже использована."],
           None).
Proof.
  assert (Hnew : WebhookIntegration.new "123:abc" None None None = Ret webhook0)
    by reflexivity.
  pose proof (webhook_deeplink_flow "123:abc" None None None webhook0
                [WebhookIntegration.GenerateCode 500 halfEntropy]
                1000 halfEntropy alice "s1" 2000 halfEntropy "s2" 3000 halfEntropy
                Hnew) as H.
  exact (conj (proj1 H) (proj2 (proj2 (proj2 H)))).
Defined.

Lemma webhook_code_message_witness :
  let w := WebhookIntegration.run [WebhookIntegration.GenerateCode 500 halfEntropy]
             webhook0 in
  let ctx := {| WebhookIntegration.messageText := Some (nbsp +:+ "550000 ");
                WebhookIntegration.from := Some alice |} in
  let r := WebhookIntegration.onMessage "s1" 2000 ctx w in
  WebhookIntegration.onMessage "s2" 3000 ctx r.1.1 = (r.1.1, [], None).
Proof.
  assert (Hnew : WebhookIntegration.new "123:abc" None None None = Ret webhook0)
    by reflexivity.
  pose proof (webhook_code_message "123:abc" None None None webhook0
                [WebhookIntegration.GenerateCode 500 halfEntropy]
                (nbsp +:+ "550000 ") alice "s1" 2000 Hnew) as (_ & _ & H).
  assert (Hs : CodeAuth.sessions
                 (WebhookIntegration.codeAuth
                    (WebhookIntegration.run
                       [WebhookIntegration.GenerateCode 500 halfEntropy] webhook0))
                 !! trim (nbsp +:+ "550000 ")
               = Some {| CodeAuth.code := "550000"; CodeAuth.createdAt := 500;
                         CodeAuth.used := false; CodeAuth.userData := None |})
    by (vm_compute; reflexivity).
  assert (Hne : trim (nbsp +:+ "550000 ") ≠ EmptyString) by (vm_compute; discriminate).
  exact (proj2 (proj2 (H _ Hne eq_refl Hs eq_refl)) "s2" 3000).
Defined.

Lemma webhook_session_after_start_witness :
  let w := WebhookIntegration.run
             [WebhookIntegration.SessionsLoaded (Some ∅);
              WebhookIntegration.GenerateDeeplink 1000 halfEntropy]
             webhook0 in
  let ctx := {| WebhookIntegration.messageText :=
                  Some ("/start " +:+ "2a2a2a2a2a2a2a2a2a2a2a2a2a2a2a2a");
                WebhookIntegration.from := Some alice |} in
  let r := WebhookIntegration.startCommand "s1" 2000 halfEntropy ctx w in
  (WebhookIntegration.checkSession 5000 5000 "s1"
     (WebhookIntegration.run
        (map WebhookIntegration.SessionsLoaded [Some ∅; None]) r.1.1)).1.1
  = Some {| SessionManager.id := "s1";
            SessionManager.userData := WebhookIntegration.userOf alice;
            SessionManager.createdAt := 2000;
            SessionManager.lastActivity := 5000;
            SessionManager.metadata := None |}.
Proof.
  assert (Hnew : WebhookIntegration.new "123:abc" None None None = Ret webhook0)
    by reflexivity.
  assert (Hm : WebhookIntegration.sessionManager
                 (WebhookIntegration.run
                    [WebhookIntegration.SessionsLoaded (Some ∅);
                     WebhookIntegration.GenerateDeeplink 1000 halfEntropy]
                    webhook0)
               = Some {| SessionManager.state :=
                           SessionManager.with_sessions (SessionManager.new None) ∅;
                         SessionManager.loading := false |})
    by reflexivity.
  assert (Hsp : Forall (fun a => a ≠ " "%char)
                  (String.list_ascii_of_string "2a2a2a2a2a2a2a2a2a2a2a2a2a2a2a2a"))
    by (repeat constructor; discriminate).
  assert (Hs : DeeplinkAuth.sessions
                 (WebhookIntegration.deeplinkAuth
                    (WebhookIntegration.run
                       [WebhookIntegration.SessionsLoaded (Some ∅);
                        WebhookIntegration.GenerateDeeplink 1000 halfEntropy]
                       webhook0))
                 !! "2a2a2a2a2a2a2a2a2a2a2a2a2a2a2a2a"
               = Some {| DeeplinkAuth.token := "2a2a2a2a2a2a2a2a2a2a2a2a2a2a2a2a";
                         DeeplinkAuth.createdAt := 1000; DeeplinkAuth.used := false;
                         DeeplinkAuth.userData := None |})
    by (vm_compute; reflexivity).
  assert (Ht : 5000 - 2000
               <= SessionManager.sessionLifetime
                    (SessionManager.state
                       {| SessionManager.state :=
                            SessionManager.with_sessions (SessionManager.new None) ∅;
                          SessionManager.loading := false |}))
    by (vm_compute; discriminate).
  exact (proj1 (proj2 (webhook_session_after_start "123:abc" None None None webhook0
                  [WebhookIntegration.SessionsLoaded (Some ∅);
                   WebhookIntegration.GenerateDeeplink 1000 halfEntropy]
                  _ "2a2a2a2a2a2a2a2a2a2a2a2a2a2a2a2a" _
                  alice "s1" 2000 halfEntropy 5000 5000 Hnew Hm Hsp Hs eq_refl Ht))
           eq_refl [Some ∅; None]).
Defined.

(** A session created before the load of the session manager has
    settled is gone once it has: the integration as constructed, a
    deeplink redeemed, then the load of the default store. *)
Example webhook_session_lost_to_load :
  let w := WebhookIntegration.run
             [WebhookIntegration.GenerateDeeplink 1000 halfEntropy] webhook0 in
  let ctx := {| WebhookIntegration.messageText :=
                  Some ("/start " +:+ "2a2a2a2a2a2a2a2a2a2a2a2a2a2a2a2a");
                WebhookIntegration.from := Some alice |} in
  let r := WebhookIntegration.startCommand "s1" 2000 halfEntropy ctx w in
  r.1.2 = [WebhookIntegration.Stored
             (SessionManager.Save
                {[ "s1" := {| SessionManager.id := "s1";
                              SessionManager.userData := WebhookIntegration.userOf alice;
                              SessionManager.createdAt := 2000;
                              SessionManager.lastActivity := 2000;
                              SessionManager.metadata := None |} ]});
           WebhookIntegration.ThenOnAuth (WebhookIntegration.userOf alice) "s1";
           WebhookIntegration.Reply "Вы успешно авторизованы через ссылку!"]
  /\ (WebhookIntegration.checkSession 5000 5000 "s1"
        (WebhookIntegration.step (WebhookIntegration.SessionsLoaded (Some ∅))
           r.1.1)).1.1 = None.
Proof. vm_compute. split; reflexivity. Qed.

Module FactoryFacts.

(** The factory does not throw: it hands [botSettings] to every
    constructor. *)
Lemma createTelegramAuth_Ret now o l :
  let base := baseAuthOptions o in
  let b := TelegramBotSettings.mk (TelegramAuthOptions.botToken o)
             (Some (TelegramAuthOptions.botUsername o)) in
  let methods := TelegramAuthOptions.enableAuthMethods o in
  (createTelegramAuth now o l).1
  = Ret (TGAuth.mk
           (if AuthMethodsOptions.codeAuth methods
            then Some {| CodeAuth.sessions := ∅; CodeAuth.botSettings := b;
                         CodeAuth.options := base |}
            else None)
           (if AuthMethodsOptions.deeplinkV1 methods
            then Some {| DeeplinkAuth.sessions := ∅; DeeplinkAuth.botSettings := b;
                         DeeplinkAuth.options := base |}
            else None)
           (if AuthMethodsOptions.deeplinkV2 methods
            then Some {| DeeplinkAuth.sessions := ∅; DeeplinkAuth.botSettings := b;
                         DeeplinkAuth.options := base |}
            else None)
           (if AuthMethodsOptions.widgetAuth methods
            then Some {| WidgetAuth.options := base;
                         WidgetAuth.validateSignatureOption := true |}
            else None)
           (if match TelegramAuthOptions.twoFactor o with
               | Some t => TwoFactorOptions.enabled t
               | None => false
               end
            then Some {| TwoFAAuth.sessions := ∅; TwoFAAuth.attempts := ∅;
                         TwoFAAuth.botSettings := b; TwoFAAuth.options := base;
                         TwoFAAuth.codeLifetime := 300000;
                         TwoFAAuth.codeLength := 6;
                         TwoFAAuth.maxAttempts := 3 |}
            else None)
           (SessionManager.construct (TelegramAuthOptions.sessionLifetime o))).
Proof.
  intros base b methods. unfold createTelegramAuth. cbn [fst].
  fold base. fold methods.
  destruct (AuthMethodsOptions.codeAuth methods),
           (AuthMethodsOptions.deeplinkV1 methods),
           (AuthMethodsOptions.deeplinkV2 methods),
           (AuthMethodsOptions.widgetAuth methods),
           (match TelegramAuthOptions.twoFactor o with
            | Some t => TwoFactorOptions.enabled t
            | None => false
            end); reflexivity.
Qed.

Lemma code_step_options k c : CodeAuth.options (CodeAuth.step k c) = CodeAuth.options c.
Proof.
  destruct k as [now e|code u|code]; cbn [CodeAuth.step].
  - reflexivity.
  - unfold CodeAuth.handleAuth.
    destruct (CodeAuth.sessions c !! code) as [s|]; [|reflexivity].
    destruct (CodeAuth.used s); reflexivity.
  - unfold CodeAuth.invalidateCode.
    destruct (CodeAuth.sessions c !! code); reflexivity.
Qed.

Lemma code_run_options ks : forall c,
  CodeAuth.options (CodeAuth.run ks c) = CodeAuth.options c.
Proof.
  induction ks as [|k ks IH]; intros c; [reflexivity|].
  cbn [CodeAuth.run foldl]. fold (CodeAuth.run ks (CodeAuth.step k c)).
  rewrite IH. apply code_step_options.
Qed.

Lemma deeplink_step_options k d :
  DeeplinkAuth.options (DeeplinkAuth.step k d) = DeeplinkAuth.options d.
Proof.
  destruct k as [now e|token u|token]; cbn [DeeplinkAuth.step].
  - reflexivity.
  - unfold DeeplinkAuth.handleAuth.
    destruct (DeeplinkAuth.sessions d !! token) as [s|]; [|reflexivity].
    destruct (DeeplinkAuth.used s); reflexivity.
  - unfold DeeplinkAuth.invalidateDeeplink.
    destruct (DeeplinkAuth.sessions d !! token); reflexivity.
Qed.

Lemma deeplink_run_options ks : forall d,
  DeeplinkAuth.options (DeeplinkAuth.run ks d) = DeeplinkAuth.options d.
Proof.
  induction ks as [|k ks IH]; intros d; [reflexivity|].
  cbn [DeeplinkAuth.run foldl]. fold (DeeplinkAuth.run ks (DeeplinkAuth.step k d)).
  rewrite IH. apply deeplink_step_options.
Qed.

Lemma code_handleAuth_true code u c :
  (CodeAuth.handleAuth code u c).1.1 = true ->
  (CodeAuth.handleAuth code u c).2 = CodeAuth.sendResult c u.
Proof.
  unfold CodeAuth.handleAuth.
  destruct (CodeAuth.sessions c !! code) as [s|]; [|discriminate].
  destruct (CodeAuth.used s); [discriminate|reflexivity].
Qed.

Lemma deeplink_handleAuth_true token u d :
  (DeeplinkAuth.handleAuth token u d).1.1 = true ->
  (DeeplinkAuth.handleAuth token u d).2 = DeeplinkAuth.sendResult d u.
Proof.
  unfold DeeplinkAuth.handleAuth.
  destruct (DeeplinkAuth.sessions d !! token) as [s|]; [|discriminate].
  destruct (DeeplinkAuth.used s); [discriminate|reflexivity].
Qed.

(** The widget check cannot succeed without a token in the options. *)
Lemma widget_needs_token `{Crypto} nowMs data w :
  WidgetAuth.validateSignatureOption w = true ->
  AuthTransportOptions.botToken (WidgetAuth.options w) = None ->
  (WidgetAuth.handleAuth nowMs data w).1.1 ≠ Ret true.
Proof.
  intros Hon Htok. unfold WidgetAuth.handleAuth.
  destruct data as [v|fields]; [discriminate|].
  destruct (WidgetAuth.firstMissing fields); [discriminate|].
  destruct (sub_gt _ _ 86400); [discriminate|].
  rewrite Hon. unfold WidgetAuth.validateSignature. rewrite Htok. discriminate.
Qed.

End FactoryFacts.

(** X28.  With the callback transport an authenticator of the factory
    calls [onLogin] twice for one authentication. *)
Theorem factory_onLogin_twice (now : Z) (o : TelegramAuthOptions.t) (l : Logger.t)
    (g : TGAuth.t) (u : AuthResult.t) :
  (createTelegramAuth now o l).1 = Ret g ->
  TelegramAuthOptions.onLogin o = true ->
  let dispatched :=
    CallSaveHandler u
    :: (if TelegramAuthOptions.useWebSocket o
        then match TelegramAuthOptions.socketInstance o with
             | Some ws => if emit ws then [WsEmit "tg-auth" u] else []
             | None => []
             end
        else [CallOnAuth u]) in
  (forall c ks code,
      TGAuth.codeAuth g = Some c ->
      (CodeAuth.handleAuth code u (CodeAuth.run ks c)).1.1 = true ->
      (CodeAuth.handleAuth code u (CodeAuth.run ks c)).2 = dispatched)
  /\ (forall d ks token,
      TGAuth.deeplinkV1 g = Some d \/ TGAuth.deeplinkV2 g = Some d ->
      (DeeplinkAuth.handleAuth token u (DeeplinkAuth.run ks d)).1.1 = true ->
      (DeeplinkAuth.handleAuth token u (DeeplinkAuth.run ks d)).2 = dispatched).
Proof.
  intros Hg Hon dispatched.
  rewrite FactoryFacts.createTelegramAuth_Ret in Hg. injection Hg as <-.
  cbn [TGAuth.codeAuth TGAuth.deeplinkV1 TGAuth.deeplinkV2].
  assert (Hsend : forall opts,
            opts = baseAuthOptions o ->
            (if AuthTransportOptions.saveHandler opts then [CallSaveHandler u] else [])
            ++ (if AuthTransportOptions.includes opts callback
                   && AuthTransportOptions.onAuth opts
                then [CallOnAuth u] else [])
            ++ (if AuthTransportOptions.includes opts websocket
                   && AuthTransportOptions.canEmit opts
                then [WsEmit "tg-auth" u] else [])
            = dispatched).
  { intros opts ->. subst dispatched. unfold baseAuthOptions.
    unfold AuthTransportOptions.includes, AuthTransportOptions.canEmit.
    cbn [AuthTransportOptions.saveHandler AuthTransportOptions.onAuth
         AuthTransportOptions.transport AuthTransportOptions.wsServer].
    rewrite Hon.
    destruct (TelegramAuthOptions.useWebSocket o).
    - destruct (TelegramAuthOptions.socketInstance o) as [[[|] ?]|]; reflexivity.
    - destruct (TelegramAuthOptions.socketInstance o) as [[[|] ?]|]; reflexivity. }
  split.
  - intros c ks code Hc Hok.
    rewrite (FactoryFacts.code_handleAuth_true _ _ _ Hok).
    apply Hsend. rewrite FactoryFacts.code_run_options.
    destruct (AuthMethodsOptions.codeAuth _); [|discriminate].
    injection Hc as <-. reflexivity.
  - intros d ks token Hd Hok.
    rewrite (FactoryFacts.deeplink_handleAuth_true _ _ _ Hok).
    apply Hsend. rewrite FactoryFacts.deeplink_run_options.
    destruct Hd as [Hd|Hd].
    + destruct (AuthMethodsOptions.deeplinkV1 _); [|discriminate].
      injection Hd as <-. reflexivity.
    + destruct (AuthMethodsOptions.deeplinkV2 _); [|discriminate].
      injection Hd as <-. reflexivity.
Qed.

Lemma factory_onLogin_twice_witness :
  (CodeAuth.handleAuth "550000" alice
     (CodeAuth.run [CodeAuth.GenerateCode 1000 halfEntropy] factoryCodeAuth)).2
  = [CallSaveHandler alice; CallOnAuth alice].
Proof.
  assert (Hg : (createTelegramAuth 0 factoryOptions Logger.instance).1 = Ret factoryAuth)
    by reflexivity.
  assert (Hok : (CodeAuth.handleAuth "550000" alice
                   (CodeAuth.run [CodeAuth.GenerateCode 1000 halfEntropy]
                      factoryCodeAuth)).1.1 = true)
    by (vm_compute; reflexivity).
  exact (proj1 (factory_onLogin_twice 0 factoryOptions Logger.instance factoryAuth
                  alice Hg eq_refl)
           factoryCodeAuth [CodeAuth.GenerateCode 1000 halfEntropy] "550000"
           eq_refl Hok).
Defined.

(** X29.  The widget authenticator of the factory accepts no payload. *)
Theorem factory_widget_never_accepts `{Crypto} (now : Z)
    (o : TelegramAuthOptions.t) (l : Logger.t) (g : TGAuth.t)
    (w : WidgetAuth.t) (nowMs : Z) (data : WidgetAuth.WidgetData) :
  (createTelegramAuth now o l).1 = Ret g ->
  TGAuth.widgetAuth g = Some w ->
  (WidgetAuth.handleAuth nowMs data w).1.1 ≠ Ret true
  /\ (forall fields,
        data = WidgetAuth.Object fields ->
        (forall f, f ∈ WidgetAuth.requiredFields -> truthy (getField fields f) = true) ->
        (forall d, parseInt (getField fields "auth_date") = JNum d ->
                   nowMs / 1000 - d <= 86400) ->
        parseInt (getField fields "auth_date") ≠ JInf true ->
        WidgetAuth.handleAuth nowMs data w
        = (Throw (TypeError "ERR_INVALID_ARG_TYPE"),
           WidgetAuth.Object (delete "hash" fields), [])).
Proof.
  intros Hg Hw.
  rewrite FactoryFacts.createTelegramAuth_Ret in Hg. injection Hg as <-.
  cbn [TGAuth.widgetAuth] in Hw.
  destruct (AuthMethodsOptions.widgetAuth _); [|discriminate].
  injection Hw as <-. split.
  - apply FactoryFacts.widget_needs_token; reflexivity.
  - intros fields -> Hreq Hfresh Hinf.
    apply ConstructorFacts.widget_error_deferred; try reflexivity.
    + apply WidgetFacts.firstMissing_None, Hreq.
    + apply WidgetChecks.sub_gt_false. split; assumption.
Qed.

Lemma factory_widget_never_accepts_witness :
  (@WidgetAuth.handleAuth exampleCrypto 1700000000000
     (WidgetAuth.Object payload0) factoryWidgetAuth).1.1 ≠ Ret true.
Proof.
  assert (Hg : (createTelegramAuth 0 factoryOptions Logger.instance).1 = Ret factoryAuth)
    by reflexivity.
  exact (proj1 (@factory_widget_never_accepts exampleCrypto 0 factoryOptions
                  Logger.instance factoryAuth factoryWidgetAuth 1700000000000
                  (WidgetAuth.Object payload0) Hg eq_refl)).
Defined.

(** X30.  The two-factor authenticator of the factory runs on the
    defaults, whatever [verificationTimeout] is. *)
Theorem factory_twoFA_defaults (now : Z) (o : TelegramAuthOptions.t) (l : Logger.t)
    (g : TGAuth.t) (a : TwoFAAuth.t) (cs : list TwoFAAuth.Call)
    (now1 now2 : Z) (e : Entropy) (uid : JsValue) (ud : option AuthResult.t)
    (sm : bool) :
  (createTelegramAuth now o l).1 = Ret g ->
  TGAuth.twoFA g = Some a ->
  TwoFAAuth.codeLifetime a = 300000
  /\ TwoFAAuth.codeLength a = 6
  /\ TwoFAAuth.maxAttempts (TwoFAAuth.run cs a) = 3
  /\ exists s,
      TwoFAAuth.sessions (TwoFAAuth.start2FA now1 now2 e uid ud sm a).1.2
        !! TwoFAAuth.sessionKey uid = Some s
      /\ TwoFAAuth.expiresAt s = now2 + 300000.
Proof.
  intros Hg Ha.
  rewrite FactoryFacts.createTelegramAuth_Ret in Hg. injection Hg as <-.
  cbn [TGAuth.twoFA] in Ha.
  destruct (match TelegramAuthOptions.twoFactor o with
            | Some t => TwoFactorOptions.enabled t
            | None => false
            end); [|discriminate].
  injection Ha as <-.
  split; [reflexivity|]. split; [reflexivity|].
  split.
  { induction cs as [|c cs IH] using rev_ind; [reflexivity|].
    unfold TwoFAAuth.run. rewrite foldl_app. cbn [foldl].
    rewrite TwoFAFacts.step_maxAttempts. exact IH. }
  eexists. unfold TwoFAAuth.start2FA.
  cbn [fst snd TwoFAAuth.sessions TwoFAAuth.codeLifetime TwoFAAuth.codeLength].
  split; [apply lookup_insert_eq|reflexivity].
Qed.

Lemma factory_twoFA_defaults_witness :
  TwoFAAuth.codeLifetime factoryTwoFA = 300000
  /\ TwoFAAuth.codeLength factoryTwoFA = 6
  /\ TwoFAAuth.maxAttempts (TwoFAAuth.run threeWrong factoryTwoFA) = 3.
Proof.
  assert (Hg : (createTelegramAuth 0 factoryOptions Logger.instance).1 = Ret factoryAuth)
    by reflexivity.
  pose proof (factory_twoFA_defaults 0 factoryOptions Logger.instance factoryAuth
                factoryTwoFA threeWrong 1000 1000 halfEntropy (JNum 42) None false
                Hg eq_refl) as (H1 & H2 & H3 & _).
  exact (conj H1 (conj H2 H3)).
Defined.

